(** * WebSocket message router: a shallow embedding

    The development follows [lambdas/websocket/message-router/lambda_function.py].
    Python values, the two DynamoDB tables and the API Gateway management
    client are modelled explicitly; every handler is a state-passing function
    over a [world] that holds both tables and the trace of client calls. *)

From Stdlib Require Qcanon.
From stdpp Require Import gmap strings list fin_maps numbers sorting.

Abbreviation Qc := Qcanon.Qc.

Open Scope string_scope.
Set Warnings "-register-all".

(** ** Python values

    What [json.loads] produces, plus [Decimal], which is what the boto3
    resource layer hands back for every DynamoDB number.  A float is kept as
    the rational it was read from: the rounding to binary64 is not modelled,
    only the fact that the value has type [float]. *)

Inductive pyval : Type :=
  | PNone
  | PBool (b : bool)
  | PInt (n : Z)
  | PFloat (x : Qc)
  | PDecimal (d : Qc)
  | PStr (s : string)
  | PList (l : list pyval)
  | PDict (d : list (string * pyval)).

Abbreviation pydict := (list (string * pyval)).

(** [d[k]] when present: the first binding of an association list. *)
Fixpoint dict_get {A : Type} (k : string) (d : list (string * A)) : option A :=
  match d with
  | [] => None
  | (k', v) :: d' => if decide (k = k') then Some v else dict_get k d'
  end.

(** [d[k] = v]: replace in place, or append a new key. *)
Fixpoint dict_set {A : Type} (k : string) (v : A) (d : list (string * A))
  : list (string * A) :=
  match d with
  | [] => [(k, v)]
  | (k', v') :: d' =>
      if decide (k = k') then (k, v) :: d' else (k', v') :: dict_set k v d'
  end.

(** [d.get(k, dflt)] and [d.get(k)]. *)
Definition get_default (d : pydict) (k : string) (dflt : pyval) : pyval :=
  default dflt (dict_get k d).

Definition get (d : pydict) (k : string) : pyval := get_default d k PNone.

(** Truth value of an object, as [if x], [not x] and [x or y] test it. *)
Definition truthy (v : pyval) : bool :=
  match v with
  | PNone => false
  | PBool b => b
  | PInt n => negb (n =? 0)%Z
  | PFloat x => negb (bool_decide (x = Qc_of_Z 0))
  | PDecimal x => negb (bool_decide (x = Qc_of_Z 0))
  | PStr s => negb (bool_decide (s = ""))
  | PList l => negb (bool_decide (l = []))
  | PDict d => negb (bool_decide (d = []))
  end.

Definition py_or (a b : pyval) : pyval := if truthy a then a else b.

Definition is_decimal (v : pyval) : bool :=
  match v with PDecimal _ => true | _ => false end.

(** [float(value)] on a [Decimal]. *)
Definition float (v : pyval) : pyval :=
  match v with PDecimal d => PFloat d | _ => v end.

(** ** DynamoDB attribute values and the boto3 (de)serializer *)

Inductive attr : Type :=
  | AS (s : string)
  | AN (n : Qc)
  | ABOOL (b : bool)
  | ANULL
  | AL (l : list attr)
  | AM (m : list (string * attr)).

Abbreviation item := (list (string * attr)).

(** [TypeSerializer]: integers and decimals become numbers, floats are
    refused with a [TypeError] (here [None]). *)
Fixpoint to_dynamo (v : pyval) : option attr :=
  match v with
  | PNone => Some ANULL
  | PBool b => Some (ABOOL b)
  | PInt n => Some (AN (Qc_of_Z n))
  | PFloat _ => None
  | PDecimal d => Some (AN d)
  | PStr s => Some (AS s)
  | PList l =>
      AL <$> (fix go (l : list pyval) : option (list attr) :=
                match l with
                | [] => Some []
                | x :: r =>
                    match to_dynamo x, go r with
                    | Some a, Some r' => Some (a :: r')
                    | _, _ => None
                    end
                end) l
  | PDict d =>
      AM <$> (fix go (d : pydict) : option item :=
                match d with
                | [] => Some []
                | (k, x) :: r =>
                    match to_dynamo x, go r with
                    | Some a, Some r' => Some ((k, a) :: r')
                    | _, _ => None
                    end
                end) d
  end.

Fixpoint to_dynamo_item (d : pydict) : option item :=
  match d with
  | [] => Some []
  | (k, x) :: r =>
      match to_dynamo x, to_dynamo_item r with
      | Some a, Some r' => Some ((k, a) :: r')
      | _, _ => None
      end
  end.

(** [TypeDeserializer]: every number comes back as a [Decimal]. *)
Fixpoint from_dynamo (a : attr) : pyval :=
  match a with
  | AS s => PStr s
  | AN n => PDecimal n
  | ABOOL b => PBool b
  | ANULL => PNone
  | AL l => PList (map from_dynamo l)
  | AM m => PDict (map (fun kv => (kv.1, from_dynamo kv.2)) m)
  end.

Definition from_dynamo_item (i : item) : pydict :=
  map (fun kv => (kv.1, from_dynamo kv.2)) i.

Fixpoint attr_eqb (a b : attr) : bool :=
  match a, b with
  | AS s, AS t => bool_decide (s = t)
  | AN n, AN m => bool_decide (n = m)
  | ABOOL x, ABOOL y => bool_decide (x = y)
  | ANULL, ANULL => true
  | AL l, AL l' =>
      (fix go (l l' : list attr) : bool :=
         match l, l' with
         | [], [] => true
         | x :: r, y :: r' => attr_eqb x y && go r r'
         | _, _ => false
         end) l l'
  | AM m, AM m' =>
      (fix go (m m' : item) : bool :=
         match m, m' with
         | [], [] => true
         | (k, x) :: r, (k', y) :: r' =>
             bool_decide (k = k') && attr_eqb x y && go r r'
         | _, _ => false
         end) m m'
  | _, _ => false
  end.

(** [json.dumps]: a [Decimal] anywhere in the value raises [TypeError]. *)
Fixpoint json_serializable (v : pyval) : bool :=
  match v with
  | PDecimal _ => false
  | PList l => forallb json_serializable l
  | PDict d => forallb (fun kv => json_serializable kv.2) d
  | _ => true
  end.

(** The text produced by [json.dumps] is identified with the document it
    denotes. *)
Definition json_dumps (v : pyval) : option pyval :=
  if json_serializable v then Some v else None.

(** ** The world outside the handler

    [connections_table] is the connections table, keyed by [connectionId]; the
    stored value holds the other attributes of the record.  [messages_table]
    is the messages table.  [trace] lists, oldest first, every call issued on a
    table or on the API Gateway management client.

    The tables are read as they were last written (no stale reads), a scan or
    a query answers in one response, and invocations run one after the
    other. *)

Inductive call : Type :=
  | GetItem (connection_id : string)
  | Scan (channel : pyval)
  | UpdateItem (connection_id : string) (sets : pydict)
  | DeleteItem (connection_id : string)
  | PutItem (message : pydict)
  | Query (channel limit : pyval) (start : option pyval)
  | PostToConnection (connection_id : string) (data : pyval).

Record world : Type := World {
  connections_table : gmap string item;
  messages_table : list item;
  trace : list call
}.

Definition log (c : call) (w : world) : world :=
  World (connections_table w) (messages_table w) (trace w ++ [c]).

Definition set_connections (t : gmap string item) (w : world) : world :=
  World t (messages_table w) (trace w).

Definition set_messages (t : list item) (w : world) : world :=
  World (connections_table w) t (trace w).

(** What one delivery attempt reports. *)
Inductive outcome : Type := Delivered | Gone | Failed.

(** Everything an invocation does not decide itself: the identifier
    [uuid.uuid4()] draws, the clock ([utcnow k] is the k-th reading of
    [datetime.utcnow().isoformat()] in the invocation), whether the service
    rejects a call, and what each delivery reports. *)
Record env : Type := Env {
  uuid4 : string;
  utcnow : nat -> string;
  fault : call -> bool;
  deliver : string -> pyval -> outcome
}.

Inductive exn : Type :=
  | GoneException
  | ClientError
  | TypeError
  | AttributeError
  | KeyError
  | ValueError.

Inductive result (A : Type) : Type :=
  | Ok (a : A)
  | Raise (e : exn).
Arguments Ok {A} a.
Arguments Raise {A} e.

(** A computation reads and updates the world and either returns or raises;
    what it did before raising stays done. *)
Definition M (A : Type) : Type := world -> result A * world.

Definition ret {A : Type} (a : A) : M A := fun w => (Ok a, w).

Definition raise {A : Type} (e : exn) : M A := fun w => (Raise e, w).

Definition bind {A B : Type} (m : M A) (k : A -> M B) : M B :=
  fun w => match m w with
           | (Ok a, w') => k a w'
           | (Raise e, w') => (Raise e, w')
           end.

(** [try: m  except ...: h]. *)
Definition try_except {A : Type} (m : M A) (h : exn -> M A) : M A :=
  fun w => match m w with
           | (Ok a, w') => (Ok a, w')
           | (Raise e, w') => h e w'
           end.

Definition called (c : call) : M unit := fun w => (Ok tt, log c w).

Definition of_option {A : Type} (e : exn) (o : option A) : M A :=
  match o with Some a => ret a | None => raise e end.

Declare Scope py_scope.
Delimit Scope py_scope with py.
Notation "x <- m ;; k" := (bind m (fun x => k))
  (at level 100, m at next level, right associativity) : py_scope.
Notation "m ;;; k" := (bind m (fun _ => k))
  (at level 100, right associativity) : py_scope.
Open Scope py_scope.

(** [for x in l: body x]. *)
Fixpoint for_each {A : Type} (l : list A) (body : A -> M unit) : M unit :=
  match l with
  | [] => ret tt
  | x :: r => body x ;;; for_each r body
  end.

(** ** The connections table *)

(** The record as [get_item] and [scan] return it. *)
Definition connection_item (connection_id : string) (i : item) : pydict :=
  ("connectionId", PStr connection_id) :: from_dynamo_item i.

Definition table_get_item (e : env) (connection_id : string)
  : M (option pydict) :=
  called (GetItem connection_id) ;;;
  if fault e (GetItem connection_id) then raise ClientError
  else fun w =>
    (Ok (connection_item connection_id <$> connections_table w !! connection_id), w).

(** [scan(FilterExpression='channelId = :channel')]. *)
Definition in_channel (a : attr) (kv : string * item) : bool :=
  match dict_get "channelId" kv.2 with
  | Some a' => attr_eqb a' a
  | None => false
  end.

Definition table_scan (e : env) (channel : pyval) : M (list pydict) :=
  called (Scan channel) ;;;
  a <- of_option TypeError (to_dynamo channel) ;;
  if fault e (Scan channel) then raise ClientError
  else fun w =>
    (Ok (map (fun kv => connection_item kv.1 kv.2)
           (List.filter (in_channel a) (map_to_list (connections_table w)))), w).

(** [update_item] with a [SET] expression writes the attributes into the
    record of that key and creates the record when there is none. *)
Definition apply_sets (sets : item) (i : item) : item :=
  foldl (fun acc kv => dict_set kv.1 kv.2 acc) i sets.

Definition table_update_item (e : env) (connection_id : string) (sets : pydict)
  : M unit :=
  called (UpdateItem connection_id sets) ;;;
  s <- of_option TypeError (to_dynamo_item sets) ;;
  if fault e (UpdateItem connection_id sets) then raise ClientError
  else fun w =>
    (Ok tt,
     set_connections
       (<[connection_id := apply_sets s (default [] (connections_table w !! connection_id))]>
          (connections_table w)) w).

Definition table_delete_item (e : env) (connection_id : string) : M unit :=
  called (DeleteItem connection_id) ;;;
  if fault e (DeleteItem connection_id) then raise ClientError
  else fun w =>
    (Ok tt, set_connections (delete connection_id (connections_table w)) w).

(** ** The API Gateway management client *)

Definition post_to_connection (e : env) (connection_id : string) (data : pyval)
  : M unit :=
  called (PostToConnection connection_id data) ;;;
  match deliver e connection_id data with
  | Delivered => ret tt
  | Gone => raise GoneException
  | Failed => raise ClientError
  end.

(** ** The messages table

    Modelled from the spec: the table declaration is not part of the
    sources.  The spec gives the primary key as the pair of [channelId]
    (partition key, a string) and a timestamp-derived sort key; the sort key
    is taken to be the [timestamp] attribute, a string compared as DynamoDB
    compares strings.  The table keeps the records of a partition in
    descending key order, so a query with [ScanIndexForward=False] reads them
    from the front. *)

Definition message_key (m : item) : option (string * string) :=
  match dict_get "channelId" m, dict_get "timestamp" m with
  | Some (AS c), Some (AS t) => Some (c, t)
  | _, _ => None
  end.

(** [put_item] replaces the record that has the same primary key. *)
Fixpoint store_put (c t : string) (m : item) (tbl : list item) : list item :=
  match tbl with
  | [] => [m]
  | x :: r =>
      match message_key x with
      | Some (c', t') =>
          if decide (c = c') then
            match String.compare t t' with
            | Gt => m :: x :: r
            | Eq => m :: r
            | Lt => x :: store_put c t m r
            end
          else x :: store_put c t m r
      | None => x :: store_put c t m r
      end
  end.

Definition table_put_item (e : env) (message : pydict) : M unit :=
  called (PutItem message) ;;;
  m <- of_option TypeError (to_dynamo_item message) ;;
  k <- of_option ClientError (message_key m) ;;
  if fault e (PutItem message) then raise ClientError
  else fun w =>
    (Ok tt, set_messages (store_put k.1 k.2 m (messages_table w)) w).

(** The records a query of partition [c] may still read: all of them, or
    with [ExclusiveStartKey] those strictly below the start key. *)
Definition in_range (c : string) (start : option string) (m : item) : bool :=
  match message_key m with
  | Some (c', t') =>
      bool_decide (c = c') &&
      match start with
      | None => true
      | Some t => String.ltb t' t
      end
  | None => false
  end.

(** A start key is a mapping with exactly the two key attributes, and its
    partition is the queried one. *)
Definition exclusive_start_key (c : string) (k : pyval) : option string :=
  match k with
  | PDict d =>
      match dict_get "channelId" d, dict_get "timestamp" d with
      | Some (PStr c'), Some (PStr t) =>
          if bool_decide (c = c') && (length d =? 2)%nat then Some t else None
      | _, _ => None
      end
  | _ => None
  end.

Definition key_of (m : item) : option pydict :=
  match message_key m with
  | Some (c, t) => Some [("channelId", PStr c); ("timestamp", PStr t)]
  | None => None
  end.

(** [query(KeyConditionExpression='channelId = :channel', Limit=limit,
    ScanIndexForward=False[, ExclusiveStartKey=start])].  The service stops
    once it has read [limit] records and then reports the key of the last one
    as [LastEvaluatedKey]; it reports none when it ran out of records first. *)
Definition table_query (e : env) (channel limit : pyval) (start : option pyval)
  : M (list pydict * option pydict) :=
  called (Query channel limit start) ;;;
  c <- match channel with
       | PStr c => ret c
       | PFloat _ => raise TypeError
       | _ => raise ClientError
       end ;;
  n <- match limit with
       | PInt n => if (1 <=? n)%Z then ret (Z.to_nat n) else raise ValueError
       | _ => raise ValueError
       end ;;
  s <- match start return M (option string) with
       | None => ret None
       | Some k => t <- of_option ClientError (exclusive_start_key c k) ;;
                   ret (Some t)
       end ;;
  if fault e (Query channel limit start) then raise ClientError
  else fun w =>
    let remaining := List.filter (in_range c s) (messages_table w) in
    let items := take n remaining in
    (Ok (map from_dynamo_item items,
         if (n <=? length remaining)%nat
         then match list.last items with Some m => key_of m | None => None end
         else None),
     w).

(** ** Responses

    A response body is the object handed to [json.dumps]; all its values are
    strings.  An f-string is kept as its pieces, so that [str(v)] of an
    arbitrary value need not be spelled out. *)

Inductive piece : Type :=
  | Lit (s : string)
  | Fmt (v : pyval).

Record response : Type := Response {
  statusCode : Z;
  body : list (string * list piece)
}.

(** ** The router *)

(** [get_connection_info]: the record of the connection, [None] when there
    is none or when the lookup raises. *)
Definition get_connection_info (e : env) (connection_id : string)
  : M (option pydict) :=
  try_except (table_get_item e connection_id) (fun _ => ret None).

(** [get_channel_connections]: the records on a channel, the empty list when
    the scan raises. *)
Definition get_channel_connections (e : env) (channel_id : pyval)
  : M (list pydict) :=
  try_except (table_scan e channel_id) (fun _ => ret []).

(** [conn['connectionId']], used as a connection identifier. *)
Definition connection_id_of (conn : pydict) : M string :=
  match dict_get "connectionId" conn with
  | Some (PStr s) => ret s
  | Some _ => raise TypeError
  | None => raise KeyError
  end.

(** The dictionary [get_recent_messages] returns. *)
Record page : Type := Page {
  messages : list pydict;
  hasMore : bool;
  lastEvaluatedKey : pyval
}.

(** The cleaning loop: a [Decimal] held directly by an attribute of the
    message becomes a float, every other value is kept as it is. *)
Definition clean (msg : pydict) : pydict :=
  map (fun kv => (kv.1, if is_decimal kv.2 then float kv.2 else kv.2)) msg.

(** [get_recent_messages(channel_id, limit, last_evaluated_key)]. *)
Definition get_recent_messages (e : env) (channel_id limit last_evaluated_key : pyval)
  : M page :=
  try_except
    (let start :=
       if truthy last_evaluated_key then Some last_evaluated_key else None in
     response <- table_query e channel_id limit start ;;
     let cleaned_messages := map clean response.1 in
     let chronological_messages := rev cleaned_messages in
     ret (Page chronological_messages
            (bool_decide (is_Some response.2))
            (default PNone (PDict <$> response.2))))
    (fun _ => ret (Page [] false PNone)).

(** [broadcast_to_channel(channel_id, message, exclude_connection)]: a
    member whose post raises [GoneException] is deleted on the spot. *)
Definition broadcast_to_channel (e : env) (channel_id message : pyval)
    (exclude_connection : option string) : M unit :=
  connections <- get_channel_connections e channel_id ;;
  for_each connections (fun conn =>
    conn_id <- connection_id_of conn ;;
    if bool_decide (Some conn_id = exclude_connection) then ret tt
    else
      try_except
        (data <- of_option TypeError (json_dumps message) ;;
         post_to_connection e conn_id data)
        (fun ex =>
           match ex with
           | GoneException =>
               try_except (table_delete_item e conn_id) (fun _ => ret tt)
           | _ => ret tt
           end)).

(** The fan-out loop of [handle_message]: the list of stale connections is
    threaded through the iterations. *)
Fixpoint send_to_all (e : env) (broadcast_response : pyval)
    (channel_connections : list pydict) (failed_connections : list string)
  : M (list string) :=
  match channel_connections with
  | [] => ret failed_connections
  | conn :: rest =>
      conn_id <- connection_id_of conn ;;
      failed <- try_except
                  (data <- of_option TypeError (json_dumps broadcast_response) ;;
                   post_to_connection e conn_id data ;;;
                   ret failed_connections)
                  (fun ex =>
                     match ex with
                     | GoneException => ret (failed_connections ++ [conn_id])%list
                     | _ => ret failed_connections
                     end) ;;
      send_to_all e broadcast_response rest failed
  end.

(** The record [handle_message] assembles from the resolved sender and the
    frame. *)
Definition new_message (e : env) (sender_info body : pydict) : pydict :=
  let channel_id :=
    get_default body "channelId" (get_default sender_info "channelId" (PStr "main")) in
  let content := get_default body "content" (PStr "") in
  let message_type := get_default body "type" (PStr "text") in
  let metadata := get_default body "metadata" (PDict []) in
  let message_id := uuid4 e in
  let timestamp := utcnow e 0 in
  [ ("messageId", PStr message_id);
    ("channelId", channel_id);
    ("senderId", get_default sender_info "userId" (PStr "unknown"));
    ("senderEmail", get_default sender_info "userEmail" (PStr "unknown"));
    ("senderRole", get_default sender_info "userRole" (PStr "user"));
    ("content", content);
    ("type", message_type);
    ("timestamp", PStr timestamp);
    ("metadata", metadata) ].

Definition not_found : response :=
  Response 401 [("error", [Lit "Connection not found"])].

(** [handle_message(connection_id, body)]. *)
Definition handle_message (e : env) (connection_id : string) (body : pydict)
  : M response :=
  sender_info <- get_connection_info e connection_id ;;
  match sender_info with
  | None => ret not_found
  | Some sender_info =>
      if negb (truthy (PDict sender_info)) then ret not_found
      else
        let channel_id :=
          get_default body "channelId"
            (get_default sender_info "channelId" (PStr "main")) in
        let message := new_message e sender_info body in
        try_except (table_put_item e message) (fun _ => ret tt) ;;;
        channel_connections <- get_channel_connections e channel_id ;;
        let broadcast_response :=
          PDict [("action", PStr "message"); ("message", PDict message)] in
        failed_connections <-
          send_to_all e broadcast_response channel_connections [] ;;
        for_each failed_connections (fun conn_id =>
          try_except (table_delete_item e conn_id) (fun _ => ret tt)) ;;;
        ret (Response 200 [("message", [Lit "Message sent"]);
                           ("messageId", [Lit (uuid4 e)])])
  end.

(** [sender_info.get(...)] where [sender_info] may be [None]. *)
Definition attributes_of (sender_info : option pydict) : M pydict :=
  of_option AttributeError sender_info.

Definition history_payload (action : string) (message_history : page)
    (channel_id : pyval) : pyval :=
  PDict [ ("action", PStr action);
          ("messages", PList (map PDict (messages message_history)));
          ("hasMore", PBool (hasMore message_history));
          ("lastEvaluatedKey", lastEvaluatedKey message_history);
          ("channelId", channel_id) ].

(** [handle_join_channel(connection_id, body)]. *)
Definition handle_join_channel (e : env) (connection_id : string) (body : pydict)
  : M response :=
  let channel_id := get_default body "channelId" (PStr "main") in
  try_except
    (table_update_item e connection_id
       [("channelId", channel_id); ("lastActivity", PStr (utcnow e 0))])
    (fun _ => ret tt) ;;;
  sender_info <- get_connection_info e connection_id ;;
  info <- attributes_of sender_info ;;
  broadcast_to_channel e channel_id
    (PDict [ ("action", PStr "user_joined");
             ("userId", get info "userId");
             ("userEmail", get info "userEmail");
             ("channelId", channel_id) ])
    (Some connection_id) ;;;
  message_history <- get_recent_messages e channel_id (PInt 50) PNone ;;
  try_except
    (data <- of_option TypeError
               (json_dumps (history_payload "message_history" message_history channel_id)) ;;
     post_to_connection e connection_id data)
    (fun _ => ret tt) ;;;
  ret (Response 200 [("message", [Lit "Joined channel "; Fmt channel_id])]).

(** [handle_leave_channel(connection_id, body)]. *)
Definition handle_leave_channel (e : env) (connection_id : string) (body : pydict)
  : M response :=
  let channel_id := get_default body "channelId" (PStr "main") in
  sender_info <- get_connection_info e connection_id ;;
  info <- attributes_of sender_info ;;
  broadcast_to_channel e channel_id
    (PDict [ ("action", PStr "user_left");
             ("userId", get info "userId");
             ("userEmail", get info "userEmail");
             ("channelId", channel_id) ])
    (Some connection_id) ;;;
  ret (Response 200 [("message", [Lit "Left channel "; Fmt channel_id])]).

(** [handle_typing_indicator(connection_id, body)]. *)
Definition handle_typing_indicator (e : env) (connection_id : string)
    (body : pydict) : M response :=
  let channel_id := get_default body "channelId" (PStr "main") in
  let is_typing := get_default body "isTyping" (PBool false) in
  sender_info <- get_connection_info e connection_id ;;
  info <- attributes_of sender_info ;;
  broadcast_to_channel e channel_id
    (PDict [ ("action", PStr "typing");
             ("userId", get info "userId");
             ("userEmail", get info "userEmail");
             ("isTyping", is_typing) ])
    (Some connection_id) ;;;
  ret (Response 200 [("message", [Lit "Typing indicator sent"])]).

(** [handle_ping(connection_id)]: the pong is posted outside any [try], so a
    failed post reaches the caller. *)
Definition handle_ping (e : env) (connection_id : string) : M response :=
  try_except
    (table_update_item e connection_id [("lastActivity", PStr (utcnow e 0))])
    (fun _ => ret tt) ;;;
  data <- of_option TypeError
            (json_dumps (PDict [ ("action", PStr "pong");
                                 ("timestamp", PStr (utcnow e 1)) ])) ;;
  post_to_connection e connection_id data ;;;
  ret (Response 200 [("message", [Lit "Pong"])]).

(** [handle_load_more_messages(connection_id, body)]: the cursor is read from
    [cursor] or, failing that, from [lastEvaluatedKey]. *)
Definition handle_load_more_messages (e : env) (connection_id : string)
    (body : pydict) : M response :=
  let channel_id := get_default body "channelId" (PStr "main") in
  let limit := get_default body "limit" (PInt 50) in
  let last_evaluated_key := py_or (get body "cursor") (get body "lastEvaluatedKey") in
  sender_info <- get_connection_info e connection_id ;;
  match sender_info with
  | None => ret not_found
  | Some sender_info =>
      if negb (truthy (PDict sender_info)) then ret not_found
      else
        message_history <-
          get_recent_messages e channel_id limit last_evaluated_key ;;
        try_except
          (data <- of_option TypeError
                     (json_dumps (history_payload "message_history_batch"
                                    message_history channel_id)) ;;
           post_to_connection e connection_id data ;;;
           ret (Response 200
                  [("message",
                    [ Lit "Loaded ";
                      Fmt (PInt (Z.of_nat (length (messages message_history))));
                      Lit " messages" ])]))
          (fun _ => ret (Response 500 [("error", [Lit "Failed to load messages"])]))
  end.

(** The transport event: the connection identifier and what
    [json.loads(event['body'])] makes of the frame, a value or an exception. *)
Inductive frame : Type :=
  | Undecodable
  | Decoded (v : pyval).

Record event : Type := Event {
  connectionId : string;
  frame_body : frame
}.

Definition is_str (v : pyval) (s : string) : bool :=
  match v with PStr s' => bool_decide (s' = s) | _ => false end.

(** [lambda_handler(event, context)]: every exception raised while decoding
    or handling the frame is answered with the 500 response. *)
Definition lambda_handler (e : env) (ev : event) : M response :=
  let connection_id := connectionId ev in
  try_except
    (body <- match frame_body ev with
             | Undecodable => raise ValueError
             | Decoded (PDict d) => ret d
             | Decoded _ => raise AttributeError
             end ;;
     let action := get_default body "action" (PStr "message") in
     if is_str action "message" then handle_message e connection_id body
     else if is_str action "join" then handle_join_channel e connection_id body
     else if is_str action "leave" then handle_leave_channel e connection_id body
     else if is_str action "typing" then handle_typing_indicator e connection_id body
     else if is_str action "ping" then handle_ping e connection_id
     else if is_str action "load_more_messages"
          then handle_load_more_messages e connection_id body
     else ret (Response 400 [("error", [Lit "Unknown action: "; Fmt action])]))
    (fun _ => ret (Response 500 [("error", [Lit "Failed to process message"])])).

(** * The connect and disconnect handlers

    [connect/lambda_function.py] and [disconnect/lambda_function.py] write
    and remove the records of the connections table that the router reads.
    Their [put_item] is logged as [PutItem] with the record as its argument,
    their [delete_item] as [DeleteItem]. *)

Module Connect.

(** The [$connect] event: the connection identifier, the [authorizer] entry
    of [requestContext] and the [queryStringParameters] entry of the event,
    each of the two absent or holding a value. *)
Record event : Type := Event {
  connectionId : string;
  authorizer : option pyval;
  queryStringParameters : option pyval
}.

(** [x.get(...)]: only a mapping has the method. *)
Definition as_mapping (v : pyval) : M pydict :=
  match v with
  | PDict d => ret d
  | _ => raise AttributeError
  end.

(** The [Item] of the [put_item]. *)
Definition connection_record (e : env) (connection_id : string)
    (user_id user_email user_role channel_id : pyval) : pydict :=
  [ ("connectionId", PStr connection_id);
    ("userId", user_id);
    ("userEmail", user_email);
    ("userRole", user_role);
    ("channelId", channel_id);
    ("connectedAt", PStr (utcnow e 0));
    ("lastActivity", PStr (utcnow e 1));
    ("status", PStr "connected") ].

(** The attributes of a record other than its key. *)
Definition without_key (i : item) : item :=
  List.filter (fun kv => negb (bool_decide (kv.1 = "connectionId"))) i.

(** [connections_table.put_item(Item=record)] replaces the whole record of
    that key. *)
Definition table_put_item (e : env) (record : pydict) : M unit :=
  called (PutItem record) ;;;
  i <- of_option TypeError (to_dynamo_item record) ;;
  key <- match dict_get "connectionId" i with
         | Some (AS k) => ret k
         | _ => raise ClientError
         end ;;
  if fault e (PutItem record) then raise ClientError
  else fun w =>
    (Ok tt, set_connections (<[key := without_key i]> (connections_table w)) w).

Definition connected (connection_id : string) : response :=
  Response 200 [ ("message", [Lit "Connected successfully"]);
                 ("connectionId", [Lit connection_id]) ].

Definition failed_to_connect : response :=
  Response 500 [("error", [Lit "Failed to connect"])].

(** [lambda_handler(event, context)]: the context and the query string are
    read before the [try], so an [authorizer] or a query string that is not
    a mapping makes the handler raise. *)
Definition lambda_handler (e : env) (ev : event) : M response :=
  let connection_id := connectionId ev in
  authorizer <- as_mapping (default (PDict []) (authorizer ev)) ;;
  let user_id := get_default authorizer "userId" (PStr "anonymous") in
  let user_email := get_default authorizer "email" (PStr "unknown") in
  let user_role := get_default authorizer "role" (PStr "user") in
  query_params <-
    as_mapping (py_or (default (PDict []) (queryStringParameters ev)) (PDict [])) ;;
  let channel_id := get_default query_params "channel" (PStr "main") in
  try_except
    (table_put_item e
       (connection_record e connection_id user_id user_email user_role channel_id) ;;;
     ret (connected connection_id))
    (fun _ => ret failed_to_connect).

End Connect.

Module Disconnect.

Record event : Type := Event {
  connectionId : string
}.

Definition disconnected : response :=
  Response 200 [("message", [Lit "Disconnected successfully"])].

Definition disconnection_processed : response :=
  Response 200 [("message", [Lit "Disconnection processed"])].

(** [lambda_handler(event, context)]: a failed delete is answered with a 200
    as well. *)
Definition lambda_handler (e : env) (ev : event) : M response :=
  let connection_id := connectionId ev in
  try_except
    (table_delete_item e connection_id ;;;
     ret disconnected)
    (fun _ => ret disconnection_processed).

End Disconnect.

(** Proof steps for running a computation: [step] enters the first command
    of a sequence, [run] unfolds the plumbing of a primitive. *)
Ltac step := unfold bind at 1.
Ltac run := unfold try_except, bind, called, of_option.

(** * Vocabulary of the properties *)

(** ** Responses of the router *)

(** The six action strings the dispatcher knows. *)
Definition recognized (action : pyval) : bool :=
  is_str action "message" || is_str action "join" || is_str action "leave"
  || is_str action "typing" || is_str action "ping"
  || is_str action "load_more_messages".

Definition processing_failure : response :=
  Response 500 [("error", [Lit "Failed to process message"])].

Definition unknown_action (action : pyval) : response :=
  Response 400 [("error", [Lit "Unknown action: "; Fmt action])].

Definition message_sent (e : env) : response :=
  Response 200 [("message", [Lit "Message sent"]); ("messageId", [Lit (uuid4 e)])].

Definition joined (channel_id : pyval) : response :=
  Response 200 [("message", [Lit "Joined channel "; Fmt channel_id])].

(** ** Traces *)

(** The calls an invocation has added to the trace. *)
Definition calls (w w' : world) : list call :=
  drop (length (trace w)) (trace w').

Definition is_put (c : call) : bool :=
  match c with PutItem _ => true | _ => false end.

(** The connections a list of calls posts to, in order. *)
Definition recipients (l : list call) : list string :=
  omap (fun c => match c with PostToConnection k _ => Some k | _ => None end) l.

(** Whether every delete in a list of calls comes after every post. *)
Fixpoint deletes_last (l : list call) : bool :=
  match l with
  | [] => true
  | DeleteItem _ :: r =>
      forallb (fun c => match c with PostToConnection _ _ => false | _ => true end) r
      && deletes_last r
  | _ :: r => deletes_last r
  end.

(** ** Members of a channel and the two fan-outs *)

(** The records of the connections table whose [channelId] is [a]. *)
Definition members (a : attr) (w : world) : list (string * item) :=
  List.filter (in_channel a) (map_to_list (connections_table w)).

Definition gone_for (e : env) (data : pyval) (conn_id : string) : bool :=
  match deliver e conn_id data with Gone => true | _ => false end.

(** What [broadcast_to_channel] does for one member. *)
Definition notify (e : env) (message : pyval) (exclude_connection : option string)
    (w : world) (conn_id : string) : world :=
  if bool_decide (Some conn_id = exclude_connection) then w
  else
    match json_dumps message with
    | None => w
    | Some data =>
        let w1 := log (PostToConnection conn_id data) w in
        match deliver e conn_id data with
        | Gone =>
            let w2 := log (DeleteItem conn_id) w1 in
            if fault e (DeleteItem conn_id) then w2
            else set_connections (delete conn_id (connections_table w2)) w2
        | _ => w1
        end
    end.

(** The calls [broadcast_to_channel] issues for one member. *)
Definition notify_calls (e : env) (message : pyval)
    (exclude_connection : option string) (conn_id : string) : list call :=
  if bool_decide (Some conn_id = exclude_connection) then []
  else
    match json_dumps message with
    | None => []
    | Some data =>
        PostToConnection conn_id data ::
        match deliver e conn_id data with
        | Gone => [DeleteItem conn_id]
        | _ => []
        end
    end.

(** Whether [broadcast_to_channel] removes the record of a member. *)
Definition reaped (e : env) (message : pyval)
    (exclude_connection : option string) (conn_id : string) : bool :=
  negb (bool_decide (Some conn_id = exclude_connection)) &&
  match json_dumps message with
  | None => false
  | Some data =>
      match deliver e conn_id data with
      | Gone => negb (fault e (DeleteItem conn_id))
      | _ => false
      end
  end.

(** The calls made for one member by [broadcast_to_channel] once the
    payload is known to serialize to [data]. *)
Definition served (e : env) (data : pyval) (exclude_connection : option string)
    (conn_id : string) : list call :=
  if bool_decide (Some conn_id = exclude_connection) then []
  else PostToConnection conn_id data ::
       (if gone_for e data conn_id then [DeleteItem conn_id] else []).

(** Removing one stale connection after the fan-out. *)
Definition reap (e : env) (w : world) (conn_id : string) : world :=
  let w1 := log (DeleteItem conn_id) w in
  if fault e (DeleteItem conn_id) then w1
  else set_connections (delete conn_id (connections_table w1)) w1.

Definition broadcast_payload (message : pydict) : pyval :=
  PDict [("action", PStr "message"); ("message", PDict message)].

(** What [handle_message] leaves behind whatever the store, the scan and the
    serializer answer: a rejected put leaves the table as it was, a rejected
    scan yields no member, a payload that does not serialize is posted to
    nobody. *)
Definition stored (e : env) (message : pydict) (tbl : list item) : list item :=
  match to_dynamo_item message with
  | Some m =>
      match message_key m with
      | Some (c, t) =>
          if fault e (PutItem message) then tbl else store_put c t m tbl
      | None => tbl
      end
  | None => tbl
  end.

Definition listed (e : env) (channel : pyval) (w : world) : list (string * item) :=
  match to_dynamo channel with
  | Some a => if fault e (Scan channel) then [] else members a w
  | None => []
  end.

Definition posted (payload : pyval) (ids : list string) : list call :=
  match json_dumps payload with
  | Some data => map (fun k => PostToConnection k data) ids
  | None => []
  end.

Definition stale (e : env) (payload : pyval) (ids : list string) : list string :=
  match json_dumps payload with
  | Some data => List.filter (gone_for e data) ids
  | None => []
  end.

(** ** Joining *)

Definition join_sets (e : env) (channel_id : pyval) : pydict :=
  [("channelId", channel_id); ("lastActivity", PStr (utcnow e 0))].

(** The record of [cid] once the join update has been applied to [old]. *)
Definition joined_record (e : env) (a : attr) (old : option item) : item :=
  apply_sets [("channelId", a); ("lastActivity", AS (utcnow e 0))] (default [] old).

(** ** Induction on attribute values *)

Section attr_induction.
Variable P : attr -> Prop.
Hypothesis HS : forall s, P (AS s).
Hypothesis HN : forall n, P (AN n).
Hypothesis HB : forall b, P (ABOOL b).
Hypothesis H0 : P ANULL.
Hypothesis HL : forall l, Forall P l -> P (AL l).
Hypothesis HM : forall m, Forall (fun kv => P kv.2) m -> P (AM m).

Fixpoint attr_nested_ind (a : attr) : P a :=
  match a with
  | AS s => HS s
  | AN n => HN n
  | ABOOL b => HB b
  | ANULL => H0
  | AL l =>
      HL l ((fix go (l : list attr) : Forall P l :=
               match l with
               | [] => List.Forall_nil P
               | x :: r => List.Forall_cons P x r (attr_nested_ind x) (go r)
               end) l)
  | AM m =>
      HM m ((fix go (m : item) : Forall (fun kv => P kv.2) m :=
               match m with
               | [] => List.Forall_nil _
               | kv :: r => List.Forall_cons _ kv r (attr_nested_ind kv.2) (go r)
               end) m)
  end.
End attr_induction.

(** ** History and paging *)

(** The order on sort keys. *)
Definition older (a b : string) : Prop := String.ltb a b = true.

(** The table invariant: within a partition the records are kept newest
    first, with no two records on the same key. *)
Definition above (x y : item) : Prop :=
  forall c tx ty,
    message_key x = Some (c, tx) -> message_key y = Some (c, ty) -> older ty tx.

Definition newest_first (tbl : list item) : Prop := StronglySorted above tbl.

Definition remaining (c : string) (s : option string) (tbl : list item)
  : list item :=
  List.filter (in_range c s) tbl.

(** The key a page hands out for the next call. *)
Definition cursor (c t : string) : pyval :=
  PDict [("channelId", PStr c); ("timestamp", PStr t)].

Definition start_of (c : string) (s : option string) : pyval :=
  match s with None => PNone | Some t => cursor c t end.

(** How a message leaves the store: deserialized, then cleaned. *)
Definition rendered (m : item) : pydict := clean (from_dynamo_item m).

(** The page an accepted query returns for partition [c], limit [n] and
    start key [s]. *)
Definition page_of (c : string) (n : nat) (s : option string) (tbl : list item)
  : page :=
  let items := take n (remaining c s tbl) in
  let lek := if (n <=? length (remaining c s tbl))%nat
             then match list.last items with Some m => key_of m | None => None end
             else None in
  Page (rev (map clean (map from_dynamo_item items)))
       (bool_decide (is_Some lek))
       (default PNone (PDict <$> lek)).

Definition timestamp_of (msg : pydict) : option string :=
  match dict_get "timestamp" msg with
  | Some (PStr t) => Some t
  | _ => None
  end.

(** Strictly increasing timestamps: oldest first, no timestamp twice. *)
Definition chronological (l : list pydict) : Prop :=
  StronglySorted
    (fun a b => exists ta tb, timestamp_of a = Some ta /\ timestamp_of b = Some tb
                              /\ older ta tb) l.

(** A stored message whose cleaned form [json.dumps] accepts. *)
Definition presentable (m : item) : Prop :=
  json_serializable (PDict (rendered m)) = true.

(** The loop over [get_recent_messages]: ask for a page and, as long as the
    page says [hasMore], ask again with the [lastEvaluatedKey] of that page,
    unchanged. *)
Fixpoint load_all (fuel : nat) (e : env) (channel limit cursor : pyval)
    (w : world) : list page :=
  match fuel with
  | O => []
  | S fuel' =>
      match get_recent_messages e channel limit cursor w with
      | (Ok p, w') =>
          p :: (if hasMore p
                then load_all fuel' e channel limit (lastEvaluatedKey p) w'
                else [])
      | (Raise _, _) => []
      end
  end.

(** The client of the router: it sends a [load_more_messages] frame, reads
    the batch the router posts back to it, and as long as the batch says
    [hasMore] sends the next frame with the batch's [lastEvaluatedKey] as
    [cursor], unchanged. *)
Definition load_more_frame (channel limit cursor : pyval) : pydict :=
  [ ("action", PStr "load_more_messages"); ("channelId", channel);
    ("limit", limit); ("cursor", cursor) ].

Definition as_dict (v : pyval) : option pydict :=
  match v with PDict d => Some d | _ => None end.

(** The page a [message_history_batch] payload carries. *)
Definition batch_of (data : pyval) : option page :=
  match data with
  | PDict d =>
      match dict_get "messages" d, dict_get "hasMore" d,
            dict_get "lastEvaluatedKey" d with
      | Some (PList ms), Some (PBool b), Some k => Some (Page (omap as_dict ms) b k)
      | _, _, _ => None
      end
  | _ => None
  end.

Fixpoint fetch_all (fuel : nat) (e : env) (connection_id : string)
    (channel limit cursor : pyval) (w : world) : list page :=
  match fuel with
  | O => []
  | S fuel' =>
      let w' := (lambda_handler e
                   (Event connection_id
                      (Decoded (PDict (load_more_frame channel limit cursor)))) w).2 in
      match list.last (trace w') with
      | Some (PostToConnection _ data) =>
          match batch_of data with
          | Some p =>
              p :: (if hasMore p
                    then fetch_all fuel' e connection_id channel limit
                           (lastEvaluatedKey p) w'
                    else [])
          | None => []
          end
      | _ => []
      end
  end.

(** ** Sample data used by the closed examples *)

Definition participant (user channel : string) : item :=
  [ ("userId", AS user); ("userEmail", AS (user ++ "@example.org"));
    ("userRole", AS "user"); ("channelId", AS channel);
    ("connectedAt", AS "2024-05-01T09:00:00");
    ("lastActivity", AS "2024-05-01T09:00:00"); ("status", AS "connected") ].

(** Three sessions: [c1] and [c3] are on ["main"], [c2] is on ["ops"]. *)
Definition registry0 : gmap string item :=
  <["c3" := participant "u3" "main"]>
    (<["c2" := participant "u2" "ops"]>
       (<["c1" := participant "u1" "main"]> ∅)).

Definition world0 : world := World registry0 [] [].

(** An invocation in which every call is accepted and every peer is
    reachable. *)
Definition calm : env :=
  Env "0b5e7a54-5c0e-4a8e-9d3b-7f1c2a9e4d10"
      (fun k => match k with
                | O => "2024-05-01T10:00:00.000001"
                | _ => "2024-05-01T10:00:00.000002"
                end)
      (fun _ => false) (fun _ _ => Delivered).

(** As [calm], but every peer has gone away. *)
Definition deserted : env :=
  Env (uuid4 calm) (utcnow calm) (fault calm) (fun _ _ => Gone).

(** As [calm], but the registry refuses every update. *)
Definition refusing : env :=
  Env (uuid4 calm) (utcnow calm)
      (fun c => match c with UpdateItem _ _ => true | _ => false end)
      (deliver calm).

Definition hello : pydict := [("action", PStr "message"); ("content", PStr "hi")].

Definition hello_message : pydict :=
  new_message calm (connection_item "c1" (participant "u1" "main")) hello.

Definition hello_record : item :=
  Eval vm_compute in default [] (to_dynamo_item hello_message).

Definition bare : pydict := [("channelId", PStr "ops")].

Definition bare_message : pydict :=
  new_message calm (connection_item "c1" (participant "u1" "main")) bare.

Definition bare_record : item :=
  Eval vm_compute in default [] (to_dynamo_item bare_message).

Definition join_ops : pydict := [("action", PStr "join"); ("channelId", PStr "ops")].

Definition hello_after_join : pydict :=
  new_message calm
    (connection_item "c1"
       (joined_record calm (AS "ops") (Some (participant "u1" "main"))))
    hello.

Definition typing_main : pydict :=
  [("action", PStr "typing"); ("channelId", PStr "main"); ("isTyping", PBool true)].

Definition typing_notice : pyval :=
  PDict [ ("action", PStr "typing"); ("userId", PStr "u2");
          ("userEmail", PStr "u2@example.org"); ("isTyping", PBool true) ].

Definition flagged : pydict :=
  [ ("action", PStr "message"); ("content", PStr "door open");
    ("metadata", PDict [("priority", PInt 1)]) ].

Definition load_more_main : pydict :=
  [("action", PStr "load_more_messages"); ("channelId", PStr "main")].

Definition join_main : pydict := [("action", PStr "join"); ("channelId", PStr "main")].

Definition note (t content : string) : item :=
  [ ("messageId", AS ("id-" ++ t)); ("channelId", AS "ops"); ("senderId", AS "u2");
    ("content", AS content); ("type", AS "text"); ("timestamp", AS t);
    ("metadata", AM []) ].

(** Three messages on ["ops"], newest first, and one on ["main"]. *)
Definition archive : world :=
  World registry0
    [ note "2024-05-01T09:03:00" "three"; note "2024-05-01T09:02:00" "two";
      [ ("messageId", AS "id-m"); ("channelId", AS "main");
        ("timestamp", AS "2024-05-01T09:02:30") ];
      note "2024-05-01T09:01:00" "one" ]
    [].

(** ** The other actions of the router *)

(** What [get_connection_info] returns. *)
Definition resolved (e : env) (connection_id : string) (w : world)
  : option pydict :=
  if fault e (GetItem connection_id) then None
  else connection_item connection_id <$> connections_table w !! connection_id.

(** The world after an [update_item] whose failure is swallowed. *)
Definition updated (e : env) (connection_id : string) (sets : pydict) (w : world)
  : world :=
  let w1 := log (UpdateItem connection_id sets) w in
  match to_dynamo_item sets with
  | Some s =>
      if fault e (UpdateItem connection_id sets) then w1
      else set_connections
             (<[connection_id :=
                  apply_sets s (default [] (connections_table w !! connection_id))]>
                (connections_table w)) w1
  | None => w1
  end.

Definition ping_sets (e : env) : pydict := [("lastActivity", PStr (utcnow e 0))].

Definition pong (e : env) : pyval :=
  PDict [("action", PStr "pong"); ("timestamp", PStr (utcnow e 1))].

Definition pong_sent : response := Response 200 [("message", [Lit "Pong"])].

Definition left (channel_id : pyval) : response :=
  Response 200 [("message", [Lit "Left channel "; Fmt channel_id])].

Definition typing_sent : response :=
  Response 200 [("message", [Lit "Typing indicator sent"])].

Definition user_left (info : pydict) (channel_id : pyval) : pyval :=
  PDict [ ("action", PStr "user_left"); ("userId", get info "userId");
          ("userEmail", get info "userEmail"); ("channelId", channel_id) ].

Definition user_joined (info : pydict) (channel_id : pyval) : pyval :=
  PDict [ ("action", PStr "user_joined"); ("userId", get info "userId");
          ("userEmail", get info "userEmail"); ("channelId", channel_id) ].

Definition typing (info : pydict) (is_typing : pyval) : pyval :=
  PDict [ ("action", PStr "typing"); ("userId", get info "userId");
          ("userEmail", get info "userEmail"); ("isTyping", is_typing) ].

(** The world after [broadcast_to_channel]. *)
Definition broadcast (e : env) (channel_id message : pyval)
    (exclude_connection : option string) (w : world) : world :=
  foldl (notify e message exclude_connection) (log (Scan channel_id) w)
    (listed e channel_id w).*1.

Definition ping_frame : pydict := [("action", PStr "ping")].

Definition leave_frame (channel : string) : pydict :=
  [("action", PStr "leave"); ("channelId", PStr channel)].

Definition say (content : string) : pydict :=
  [("action", PStr "message"); ("content", PStr content)].

(** ** What an invocation may do *)

(** The blanket [except Exception] of [lambda_handler]. *)
Definition caught (o : result response * world) : result response * world :=
  match o with
  | (Ok r, w) => (Ok r, w)
  | (Raise _, w) => (Ok processing_failure, w)
  end.

(** The call by which a payload is posted to one connection, if the payload
    serializes. *)
Definition direct (connection_id : string) (payload : pyval) : list call :=
  match json_dumps payload with
  | Some data => [PostToConnection connection_id data]
  | None => []
  end.

Definition loaded (n : nat) : response :=
  Response 200 [("message", [Lit "Loaded "; Fmt (PInt (Z.of_nat n)); Lit " messages"])].

Definition load_failed : response :=
  Response 500 [("error", [Lit "Failed to load messages"])].

(** Between [w] and [w'] the record of [k] was deleted after a post to [k]
    reported the connection gone. *)
Definition reaped_in (e : env) (k : string) (w w' : world) : Prop :=
  connections_table w' !! k = None
  /\ DeleteItem k ∈ calls w w'
  /\ exists data, PostToConnection k data ∈ calls w w' /\ deliver e k data = Gone.

(** Between [w] and [w'] the record of [k] was written by an [update_item]
    and is still there. *)
Definition updated_in (k : string) (w w' : world) : Prop :=
  exists sets s,
    UpdateItem k sets ∈ calls w w'
    /\ to_dynamo_item sets = Some s
    /\ connections_table w' !! k
       = Some (apply_sets s (default [] (connections_table w !! k))).

(** What [get_recent_messages] returns when the query fails. *)
Definition no_history : page := Page [] false PNone.

(** A [Limit] the query accepts: an integer, at least one. *)
Definition valid_limit (limit : pyval) : bool :=
  match limit with PInt n => (1 <=? n)%Z | _ => false end.

(** ** Values without numbers *)

Section pyval_induction.
Variable P : pyval -> Prop.
Hypothesis HNone : P PNone.
Hypothesis HBool : forall b, P (PBool b).
Hypothesis HInt : forall n, P (PInt n).
Hypothesis HFloat : forall x, P (PFloat x).
Hypothesis HDecimal : forall x, P (PDecimal x).
Hypothesis HStr : forall s, P (PStr s).
Hypothesis HList : forall l, Forall P l -> P (PList l).
Hypothesis HDict : forall d, Forall (fun kv => P kv.2) d -> P (PDict d).

Fixpoint pyval_nested_ind (v : pyval) : P v :=
  match v with
  | PNone => HNone
  | PBool b => HBool b
  | PInt n => HInt n
  | PFloat x => HFloat x
  | PDecimal x => HDecimal x
  | PStr s => HStr s
  | PList l =>
      HList l ((fix go (l : list pyval) : Forall P l :=
                  match l with
                  | [] => List.Forall_nil P
                  | x :: r => List.Forall_cons P x r (pyval_nested_ind x) (go r)
                  end) l)
  | PDict d =>
      HDict d ((fix go (d : pydict) : Forall (fun kv => P kv.2) d :=
                  match d with
                  | [] => List.Forall_nil _
                  | kv :: r => List.Forall_cons _ kv r (pyval_nested_ind kv.2) (go r)
                  end) d)
  end.
End pyval_induction.

(** A value that holds no number at any depth: strings, booleans, [None],
    and lists and mappings of such values. *)
Fixpoint number_free (v : pyval) : bool :=
  match v with
  | PInt _ | PFloat _ | PDecimal _ => false
  | PList l => forallb number_free l
  | PDict d => forallb (fun kv => number_free kv.2) d
  | _ => true
  end.

Definition numbers_free (d : pydict) : Prop :=
  Forall (fun kv => number_free kv.2 = true) d.

(** ** Sample data for the connection lifecycle *)

Definition guest : Connect.event := Connect.Event "c7" None (Some PNone).

Definition analyst : Connect.event :=
  Connect.Event "c7"
    (Some (PDict [ ("userId", PStr "u7"); ("email", PStr "u7@example.org");
                   ("role", PStr "analyst"); ("clearanceLevel", PStr "3") ]))
    (Some (PDict [("channel", PStr "ops"); ("token", PStr "t")])).

Definition analyst_record : pydict :=
  Connect.connection_record calm "c7" (PStr "u7") (PStr "u7@example.org")
    (PStr "analyst") (PStr "ops").

(** ** Frames used by the edge cases *)

(** A message whose metadata holds a float, which the store rejects. *)
Definition located : pydict :=
  [ ("action", PStr "message"); ("content", PStr "at the gate");
    ("metadata", PDict [("lat", PFloat (Qc_of_Z 37))]) ].

(** As [calm], but the registry refuses every scan. *)
Definition blind : env :=
  Env (uuid4 calm) (utcnow calm)
      (fun c => match c with Scan _ => true | _ => false end)
      (deliver calm).

(** A [load_more_messages] frame that carries the key as [lastEvaluatedKey],
    and one that carries both names. *)
Definition load_more_by_key (channel limit key : pyval) : pydict :=
  [ ("action", PStr "load_more_messages"); ("channelId", channel);
    ("limit", limit); ("lastEvaluatedKey", key) ].

Definition load_more_both (channel limit cursor key : pyval) : pydict :=
  [ ("action", PStr "load_more_messages"); ("channelId", channel);
    ("limit", limit); ("cursor", cursor); ("lastEvaluatedKey", key) ].

(** As [calm], but the registry refuses every [get_item]. *)
Definition deaf : env :=
  Env (uuid4 calm) (utcnow calm)
      (fun c => match c with GetItem _ => true | _ => false end)
      (deliver calm).

(** A join whose channel is a JSON number with a fraction, which the
    registry cannot store. *)
Definition join_float : pydict :=
  [("action", PStr "join"); ("channelId", PFloat (Qc_of_Z 7))].

(** A frame without [action] whose metadata holds a float. *)
Definition unlabelled : pydict :=
  [ ("content", PStr "at the gate");
    ("metadata", PDict [("lat", PFloat (Qc_of_Z 37))]) ].

(** * Properties *)

(** ** Dispatch *)

Lemma get_default_present (d : pydict) k dflt v :
  dict_get k d = Some v -> get_default d k dflt = v.
Proof. unfold get_default. now intros ->. Qed.

Lemma get_default_absent (d : pydict) k dflt :
  dict_get k d = None -> get_default d k dflt = dflt.
Proof. unfold get_default. now intros ->. Qed.

(** The handler never raises: whatever happens inside is turned into a
    response. *)
Lemma lambda_handler_returns e ev w :
  exists r w', lambda_handler e ev w = (Ok r, w').
Proof.
  unfold lambda_handler, try_except.
  match goal with |- context [match ?m w with _ => _ end] => destruct (m w) as [[r|x] w'] end.
  - now exists r, w'.
  - now eexists _, _.
Qed.

(** ** Frames that cannot be dispatched *)

(** C5, as the code has it: a frame that [json.loads] rejects, or that
    decodes to something other than an object, ends in the generic
    500 processing-failure response; no table is read or written, nothing is
    sent, and the handler does not raise. *)
Theorem undecodable_frame_is_processing_failure e cid w :
  lambda_handler e (Event cid Undecodable) w = (Ok processing_failure, w)
  /\ forall v, match v with
               | PDict _ => True
               | _ => lambda_handler e (Event cid (Decoded v)) w
                      = (Ok processing_failure, w)
               end.
Proof.
  split; [reflexivity|].
  intros v. destruct v; try exact I; reflexivity.
Qed.

(** C5, as the claim states it, fails: a malformed frame is not answered
    with a 400. *)
Lemma undecodable_frame_not_client_error :
  ~ exists r w', lambda_handler calm (Event "c1" Undecodable) world0 = (Ok r, w')
                 /\ statusCode r = 400%Z.
Proof.
  intros (r & w' & H & Hs).
  assert (E : lambda_handler calm (Event "c1" Undecodable) world0
              = (Ok processing_failure, world0)) by reflexivity.
  rewrite E in H. inversion H; subst. discriminate Hs.
Qed.

(** C8: an [action] outside the six known strings is answered with a 400
    whose text carries that action, and the world, trace of calls included,
    is left exactly as it was. *)
Theorem unknown_action_is_client_error e cid (d : pydict) w a :
  dict_get "action" d = Some a ->
  recognized a = false ->
  lambda_handler e (Event cid (Decoded (PDict d))) w = (Ok (unknown_action a), w).
Proof.
  intros Ha Hr. unfold recognized in Hr.
  repeat (apply orb_false_iff in Hr; destruct Hr as [Hr ?]).
  unfold lambda_handler, try_except, bind; simpl.
  rewrite (get_default_present _ _ _ _ Ha).
  now repeat match goal with H : is_str a _ = false |- _ => rewrite H; clear H end.
Qed.

Lemma unknown_action_is_client_error_witness :
  lambda_handler calm
    (Event "c1" (Decoded (PDict [("action", PStr "dance"); ("channelId", PStr "ops")])))
    world0
  = (Ok (unknown_action (PStr "dance")), world0).
Proof.
  apply unknown_action_is_client_error; reflexivity.
Defined.

(** ** Unresolved senders *)

Lemma get_connection_info_absent e cid w :
  connections_table w !! cid = None ->
  get_connection_info e cid w = (Ok None, log (GetItem cid) w).
Proof.
  intros H. unfold get_connection_info, try_except, table_get_item, bind, called.
  destruct (fault e (GetItem cid)); simpl; [reflexivity|].
  now rewrite H.
Qed.

Lemma get_connection_info_present e cid w i :
  connections_table w !! cid = Some i ->
  fault e (GetItem cid) = false ->
  get_connection_info e cid w
  = (Ok (Some (connection_item cid i)), log (GetItem cid) w).
Proof.
  intros H F. unfold get_connection_info, try_except, table_get_item, bind, called.
  rewrite F; simpl. now rewrite H.
Qed.

(** C6: a [message] or [load_more_messages] frame from a connection the
    registry does not hold is answered with a 401; the only call made is the
    registry lookup, so no message is stored, nothing is sent and both tables
    are as before. *)
Theorem unresolved_sender_is_unauthorized e cid (d : pydict) w :
  connections_table w !! cid = None ->
  get_default d "action" (PStr "message") = PStr "message"
  \/ get_default d "action" (PStr "message") = PStr "load_more_messages" ->
  exists w',
    lambda_handler e (Event cid (Decoded (PDict d))) w = (Ok not_found, w')
    /\ connections_table w' = connections_table w
    /\ messages_table w' = messages_table w
    /\ trace w' = (trace w ++ [GetItem cid])%list.
Proof.
  intros Habs Hact. exists (log (GetItem cid) w).
  split; [|now repeat split].
  unfold lambda_handler, try_except, bind; simpl.
  destruct Hact as [-> | ->]; simpl.
  - unfold handle_message, bind. now rewrite (get_connection_info_absent _ _ _ Habs).
  - unfold handle_load_more_messages, bind.
    now rewrite (get_connection_info_absent _ _ _ Habs).
Qed.

Lemma unresolved_sender_is_unauthorized_witness :
  exists w',
    lambda_handler calm
      (Event "c9" (Decoded (PDict [("action", PStr "load_more_messages");
                                   ("channelId", PStr "ops")])))
      world0 = (Ok not_found, w')
    /\ connections_table w' = connections_table world0
    /\ messages_table w' = messages_table world0
    /\ trace w' = (trace world0 ++ [GetItem "c9"])%list.
Proof.
  apply unresolved_sender_is_unauthorized; [reflexivity | right; reflexivity].
Defined.

(** ** Membership and fan-out *)

Lemma get_channel_connections_ok e channel a w :
  to_dynamo channel = Some a ->
  fault e (Scan channel) = false ->
  get_channel_connections e channel w
  = (Ok (map (fun kv => connection_item kv.1 kv.2) (members a w)),
     log (Scan channel) w).
Proof.
  intros Ha F.
  unfold get_channel_connections, table_scan. run.
  rewrite Ha; simpl. now rewrite F.
Qed.

Lemma get_channel_connections_total e channel w :
  exists a, to_dynamo channel = Some a /\ fault e (Scan channel) = false
            /\ get_channel_connections e channel w
               = (Ok (map (fun kv => connection_item kv.1 kv.2) (members a w)),
                  log (Scan channel) w)
  \/ get_channel_connections e channel w = (Ok [], log (Scan channel) w).
Proof.
  destruct (to_dynamo channel) as [a|] eqn:Ha.
  - destruct (fault e (Scan channel)) eqn:F.
    + exists a. right.
      unfold get_channel_connections, table_scan. run.
      rewrite Ha; simpl. now rewrite F.
    + exists a. left. repeat split; trivial. now apply get_channel_connections_ok.
  - exists ANULL. right.
    unfold get_channel_connections, table_scan. run.
    now rewrite Ha.
Qed.

Lemma elem_of_members a w k i :
  (k, i) ∈ members a w
  <-> connections_table w !! k = Some i
      /\ exists a', dict_get "channelId" i = Some a' /\ attr_eqb a' a = true.
Proof.
  unfold members. rewrite list_elem_of_In, filter_In, <- list_elem_of_In.
  rewrite elem_of_map_to_list. unfold in_channel; simpl.
  split; intros [H1 H2]; split; trivial.
  - destruct (dict_get "channelId" i) as [a'|]; [eauto | discriminate].
  - destruct H2 as (a' & -> & H2). exact H2.
Qed.

Lemma NoDup_members a w : NoDup (members a w).*1.
Proof.
  unfold members.
  assert (H : NoDup (map_to_list (connections_table w)).*1)
    by apply NoDup_fst_map_to_list.
  revert H. generalize (map_to_list (connections_table w)) as l.
  induction l as [|[k i] l IH]; simpl; intros H; [constructor|].
  inversion H as [|? ? Hk Hl]; subst.
  destruct (in_channel a (k, i)); simpl; [|now apply IH].
  constructor; [|now apply IH].
  intros Hin. apply Hk.
  apply list_elem_of_fmap in Hin as ([k' i'] & -> & Hin).
  apply list_elem_of_fmap. exists (k', i'). split; trivial.
  apply list_elem_of_In. apply list_elem_of_In in Hin.
  now apply filter_In in Hin as [Hin _].
Qed.

Lemma connection_id_of_item k i w :
  connection_id_of (connection_item k i) w = (Ok k, w).
Proof. reflexivity. Qed.

Lemma broadcast_loop e message exclude_connection (kvs : list (string * item)) w :
  for_each (map (fun kv => connection_item kv.1 kv.2) kvs)
    (fun conn =>
       conn_id <- connection_id_of conn ;;
       if bool_decide (Some conn_id = exclude_connection) then ret tt
       else
         try_except
           (data <- of_option TypeError (json_dumps message) ;;
            post_to_connection e conn_id data)
           (fun ex =>
              match ex with
              | GoneException =>
                  try_except (table_delete_item e conn_id) (fun _ => ret tt)
              | _ => ret tt
              end)) w
  = (Ok tt, foldl (notify e message exclude_connection) w kvs.*1).
Proof.
  revert w. induction kvs as [|[k i] kvs IH]; intros w; [reflexivity|].
  simpl. step. step. rewrite connection_id_of_item.
  unfold notify at 2.
  destruct (bool_decide (Some k = exclude_connection)); simpl; [apply IH|].
  unfold try_except, bind, of_option.
  destruct (json_dumps message) as [data|]; simpl; [|apply IH].
  unfold post_to_connection, bind, called.
  destruct (deliver e k data); simpl; try apply IH.
  unfold table_delete_item, bind, called.
  destruct (fault e (DeleteItem k)); simpl; apply IH.
Qed.

Lemma broadcast_to_channel_ok e channel message exclude_connection a w :
  to_dynamo channel = Some a ->
  fault e (Scan channel) = false ->
  broadcast_to_channel e channel message exclude_connection w
  = (Ok tt, foldl (notify e message exclude_connection)
              (log (Scan channel) w) (members a w).*1).
Proof.
  intros Ha F. unfold broadcast_to_channel. step.
  rewrite (get_channel_connections_ok _ _ _ _ Ha F).
  apply broadcast_loop.
Qed.

Section notify_facts.
Context (e : env) (message : pyval) (x : option string).

Lemma notify_messages w k :
  messages_table (notify e message x w k) = messages_table w.
Proof.
  unfold notify. repeat case_match; reflexivity.
Qed.

Lemma notify_trace w k :
  trace (notify e message x w k) = (trace w ++ notify_calls e message x k)%list.
Proof.
  unfold notify, notify_calls. repeat case_match; simpl;
    rewrite <- ?app_assoc, ?app_nil_r; try reflexivity; congruence.
Qed.

Lemma notify_connections w k :
  connections_table (notify e message x w k)
  = if reaped e message x k then delete k (connections_table w)
    else connections_table w.
Proof.
  unfold notify, reaped. repeat case_match; simpl in *; try reflexivity; congruence.
Qed.

Lemma foldl_notify_messages ks w :
  messages_table (foldl (notify e message x) w ks) = messages_table w.
Proof.
  revert w. induction ks as [|k ks IH]; intros w; simpl; [reflexivity|].
  now rewrite IH, notify_messages.
Qed.

Lemma foldl_notify_trace ks w :
  trace (foldl (notify e message x) w ks)
  = (trace w ++ flat_map (notify_calls e message x) ks)%list.
Proof.
  revert w. induction ks as [|k ks IH]; intros w; simpl.
  - now rewrite app_nil_r.
  - now rewrite IH, notify_trace, <- app_assoc.
Qed.

Lemma foldl_notify_connections ks w k :
  connections_table (foldl (notify e message x) w ks) !! k
  = if bool_decide (k ∈ ks) && reaped e message x k then None
    else connections_table w !! k.
Proof.
  revert w. induction ks as [|k' ks IH]; intros w; simpl; [reflexivity|].
  rewrite IH, notify_connections.
  destruct (decide (k = k')) as [->|Hne].
  - rewrite (bool_decide_eq_true_2 (k' ∈ k' :: ks)) by left. simpl.
    destruct (reaped e message x k') eqn:R; simpl.
    + rewrite lookup_delete_eq. now destruct (bool_decide (k' ∈ ks)).
    + now rewrite andb_false_r.
  - assert (E : bool_decide (k ∈ k' :: ks) = bool_decide (k ∈ ks)).
    { apply bool_decide_ext. rewrite elem_of_cons. intuition congruence. }
    rewrite E.
    destruct (reaped e message x k'); [rewrite lookup_delete_ne by congruence|];
      reflexivity.
Qed.

End notify_facts.

(** ** The fan-out of [handle_message] *)

Lemma send_to_all_ok e broadcast_response data (kvs : list (string * item)) failed w :
  json_dumps broadcast_response = Some data ->
  send_to_all e broadcast_response
    (map (fun kv => connection_item kv.1 kv.2) kvs) failed w
  = (Ok (failed ++ List.filter (gone_for e data) kvs.*1)%list,
     World (connections_table w) (messages_table w)
       (trace w ++ map (fun k => PostToConnection k data) kvs.*1)).
Proof.
  intros Hd. revert failed w.
  induction kvs as [|[k i] kvs IH]; intros failed w; simpl.
  - rewrite !app_nil_r. now destruct w.
  - step. rewrite connection_id_of_item.
    step. unfold try_except, bind at 1, of_option. rewrite Hd. simpl.
    unfold bind, post_to_connection, called, gone_for; simpl.
    destruct (deliver e k data); simpl; rewrite IH; simpl;
      rewrite <- ?app_assoc; reflexivity.
Qed.

Section reap_facts.
Context (e : env).

Lemma reap_loop failed w :
  for_each failed
    (fun conn_id => try_except (table_delete_item e conn_id) (fun _ => ret tt)) w
  = (Ok tt, foldl (reap e) w failed).
Proof.
  revert w. induction failed as [|k ks IH]; intros w; [reflexivity|].
  simpl. unfold bind at 1, try_except, table_delete_item, bind, called, reap.
  destruct (fault e (DeleteItem k)); simpl; apply IH.
Qed.

Lemma foldl_reap_messages ks w :
  messages_table (foldl (reap e) w ks) = messages_table w.
Proof.
  revert w. induction ks as [|k ks IH]; intros w; simpl; [reflexivity|].
  rewrite IH. unfold reap. now case_match.
Qed.

Lemma foldl_reap_trace ks w :
  trace (foldl (reap e) w ks) = (trace w ++ map DeleteItem ks)%list.
Proof.
  revert w. induction ks as [|k ks IH]; intros w; simpl.
  - now rewrite app_nil_r.
  - rewrite IH. unfold reap. case_match; simpl; now rewrite <- app_assoc.
Qed.

Lemma foldl_reap_connections ks w k :
  connections_table (foldl (reap e) w ks) !! k
  = if bool_decide (k ∈ ks) && negb (fault e (DeleteItem k)) then None
    else connections_table w !! k.
Proof.
  revert w. induction ks as [|k' ks IH]; intros w; simpl; [reflexivity|].
  rewrite IH. unfold reap.
  destruct (decide (k = k')) as [->|Hne].
  - rewrite (bool_decide_eq_true_2 (k' ∈ k' :: ks)) by left. simpl.
    destruct (fault e (DeleteItem k')) eqn:F; simpl.
    + now rewrite andb_false_r.
    + rewrite lookup_delete_eq. now destruct (bool_decide (k' ∈ ks)).
  - assert (E : bool_decide (k ∈ k' :: ks) = bool_decide (k ∈ ks)).
    { apply bool_decide_ext. rewrite elem_of_cons. intuition congruence. }
    rewrite E.
    destruct (fault e (DeleteItem k')); simpl;
      [|rewrite lookup_delete_ne by congruence]; reflexivity.
Qed.

End reap_facts.

(** The loops leave the messages table alone and only append to the trace. *)
Create Rewrite HintDb frame.
#[export] Hint Rewrite foldl_notify_messages foldl_notify_trace
  foldl_reap_messages foldl_reap_trace : frame.

(** ** Sending a message *)

Lemma table_put_item_ok e message m c t w :
  to_dynamo_item message = Some m ->
  message_key m = Some (c, t) ->
  fault e (PutItem message) = false ->
  try_except (table_put_item e message) (fun _ => ret tt) w
  = (Ok tt, set_messages (store_put c t m (messages_table w))
              (log (PutItem message) w)).
Proof.
  intros Hm Hk F. unfold table_put_item. run.
  rewrite Hm; simpl. rewrite Hk; simpl. now rewrite F.
Qed.

(** The whole effect of [handle_message] when the sender resolves, the
    store takes the record and the payload serializes: one lookup, one put,
    one scan, one post per member of the channel, then one delete per member
    that reported gone. *)
Lemma handle_message_ok e cid body w i m a c t data :
  connections_table w !! cid = Some i ->
  fault e (GetItem cid) = false ->
  let message := new_message e (connection_item cid i) body in
  to_dynamo_item message = Some m ->
  message_key m = Some (c, t) ->
  fault e (PutItem message) = false ->
  to_dynamo (get message "channelId") = Some a ->
  fault e (Scan (get message "channelId")) = false ->
  json_dumps (broadcast_payload message) = Some data ->
  handle_message e cid body w
  = (Ok (message_sent e),
     foldl (reap e)
       (World (connections_table w)
          (store_put c t m (messages_table w))
          (trace w ++ [GetItem cid; PutItem message; Scan (get message "channelId")]
             ++ map (fun k => PostToConnection k data) (members a w).*1))
       (List.filter (gone_for e data) (members a w).*1)).
Proof.
  intros Hi Fg message Hm Hk Fp Ha Fs Hd.
  unfold handle_message. step.
  rewrite (get_connection_info_present _ _ _ _ Hi Fg).
  change (negb (truthy (PDict (connection_item cid i)))) with false. cbv iota.
  fold message. step.
  rewrite (table_put_item_ok _ _ _ _ _ _ Hm Hk Fp).
  step.
  rewrite (get_channel_connections_ok _ _ _ _ Ha Fs).
  step. fold (broadcast_payload message).
  rewrite (send_to_all_ok _ _ _ _ _ _ Hd).
  step. rewrite reap_loop. unfold ret, message_sent.
  f_equal. simpl. f_equal. f_equal. now rewrite <- !app_assoc.
Qed.

Lemma table_put_item_total e message w :
  try_except (table_put_item e message) (fun _ => ret tt) w
  = (Ok tt, World (connections_table w) (stored e message (messages_table w))
              (trace w ++ [PutItem message])).
Proof.
  unfold table_put_item, stored. run.
  destruct (to_dynamo_item message) as [m|]; simpl; [|reflexivity].
  destruct (message_key m) as [[c t]|]; simpl; [|reflexivity].
  now destruct (fault e (PutItem message)).
Qed.

Lemma get_channel_connections_listed e channel w :
  get_channel_connections e channel w
  = (Ok (map (fun kv => connection_item kv.1 kv.2) (listed e channel w)),
     log (Scan channel) w).
Proof.
  unfold get_channel_connections, table_scan, listed. run.
  destruct (to_dynamo channel) as [a|]; simpl; [|reflexivity].
  now destruct (fault e (Scan channel)).
Qed.

Lemma send_to_all_total e payload (kvs : list (string * item)) failed w :
  send_to_all e payload (map (fun kv => connection_item kv.1 kv.2) kvs) failed w
  = (Ok (failed ++ stale e payload kvs.*1)%list,
     World (connections_table w) (messages_table w)
       (trace w ++ posted payload kvs.*1)).
Proof.
  unfold stale, posted.
  destruct (json_dumps payload) as [data|] eqn:Hd.
  - now apply send_to_all_ok.
  - rewrite !app_nil_r. revert failed w.
    induction kvs as [|[k i] kvs IH]; intros failed w; simpl.
    + now destruct w.
    + step. rewrite connection_id_of_item. step.
      unfold try_except, bind at 1, of_option. rewrite Hd. simpl. apply IH.
Qed.

Lemma handle_message_resolved e cid body w i :
  connections_table w !! cid = Some i ->
  fault e (GetItem cid) = false ->
  let message := new_message e (connection_item cid i) body in
  let channel_id := get message "channelId" in
  let ids := (listed e channel_id w).*1 in
  handle_message e cid body w
  = (Ok (message_sent e),
     foldl (reap e)
       (World (connections_table w)
          (stored e message (messages_table w))
          (trace w ++ [GetItem cid; PutItem message; Scan channel_id]
             ++ posted (broadcast_payload message) ids))
       (stale e (broadcast_payload message) ids)).
Proof.
  intros Hi Fg message channel_id ids.
  unfold handle_message. step.
  rewrite (get_connection_info_present _ _ _ _ Hi Fg).
  change (negb (truthy (PDict (connection_item cid i)))) with false. cbv iota.
  fold message. step.
  rewrite table_put_item_total.
  step.
  change (get_default body "channelId"
            (get_default (connection_item cid i) "channelId" (PStr "main")))
    with channel_id.
  rewrite get_channel_connections_listed.
  step. fold (broadcast_payload message).
  rewrite send_to_all_total.
  step. rewrite reap_loop. unfold ret, message_sent.
  f_equal. simpl. f_equal. f_equal. now rewrite <- !app_assoc.
Qed.

(** ** Attribute values: induction, equality, round trip *)

Lemma attr_eqb_eq a b : attr_eqb a b = true <-> a = b.
Proof.
  revert b. induction a as [s|n|x| |l IH|m IH] using attr_nested_ind;
    intros b; destruct b as [s'|n'|x'| |l'|m']; simpl;
    try (split; [discriminate|congruence]);
    try (rewrite bool_decide_eq_true; split; congruence).
  - tauto.
  - revert l'. induction IH as [|x l Hx _ IHl]; intros [|y l']; simpl;
      try (split; [discriminate|congruence]); [tauto|].
    rewrite andb_true_iff, Hx. specialize (IHl l').
    split.
    + intros [-> H]. apply IHl in H. congruence.
    + intros H. inversion H; subst. split; trivial. now apply IHl.
  - revert m'. induction IH as [|[k x] m Hx _ IHm]; intros [|[k' y] m']; simpl;
      try (split; [discriminate|congruence]); [tauto|].
    simpl in Hx. rewrite !andb_true_iff, bool_decide_eq_true, Hx.
    specialize (IHm m'). split.
    + intros [[-> ->] H]. apply IHm in H. congruence.
    + intros H. inversion H; subst. repeat split; trivial. now apply IHm.
Qed.

Lemma attr_eqb_refl a : attr_eqb a a = true.
Proof. now apply attr_eqb_eq. Qed.

(** What the deserializer produces serializes back to the stored value. *)
Lemma to_dynamo_from_dynamo a : to_dynamo (from_dynamo a) = Some a.
Proof.
  induction a as [s|n|x| |l IH|m IH] using attr_nested_ind; simpl; trivial.
  - induction IH as [|x l Hx _ IHl]; simpl; [reflexivity|].
    rewrite Hx. simpl in IHl.
    destruct ((fix go (l0 : list pyval) : option (list attr) :=
                 match l0 with
                 | [] => Some []
                 | x0 :: r =>
                     match to_dynamo x0, go r with
                     | Some a, Some r' => Some (a :: r')
                     | _, _ => None
                     end
                 end) (map from_dynamo l)) as [r|]; simpl in *; congruence.
  - induction IH as [|[k x] m Hx _ IHm]; simpl; [reflexivity|].
    simpl in Hx. rewrite Hx. simpl in IHm.
    destruct ((fix go (d : pydict) : option item :=
                 match d with
                 | [] => Some []
                 | (k0, x0) :: r =>
                     match to_dynamo x0, go r with
                     | Some a, Some r' => Some ((k0, a) :: r')
                     | _, _ => None
                     end
                 end) (map (fun kv => (kv.1, from_dynamo kv.2)) m)) as [r|];
      simpl in *; congruence.
Qed.

Lemma dict_get_from_dynamo_item k (i : item) :
  dict_get k (from_dynamo_item i) = from_dynamo <$> dict_get k i.
Proof.
  induction i as [|[k' x] i IH]; simpl; [reflexivity|].
  destruct (decide (k = k')); simpl; [reflexivity | exact IH].
Qed.

Lemma dict_get_connection_item k cid (i : item) :
  k <> "connectionId" ->
  dict_get k (connection_item cid i) = from_dynamo <$> dict_get k i.
Proof.
  intros Hk. unfold connection_item. simpl.
  destruct (decide (k = "connectionId")); [contradiction|].
  apply dict_get_from_dynamo_item.
Qed.

Lemma to_dynamo_item_get (d : pydict) (m : item) k :
  to_dynamo_item d = Some m ->
  dict_get k m = dict_get k d ≫= to_dynamo.
Proof.
  revert m. induction d as [|[k' v] d IH]; simpl; intros m H.
  - now inversion H.
  - destruct (to_dynamo v) as [a|] eqn:Ha; [|discriminate].
    destruct (to_dynamo_item d) as [r|]; [|discriminate].
    inversion H; subst; simpl.
    destruct (decide (k = k')); simpl; [now rewrite Ha | now apply IH].
Qed.

(** ** The store *)

Lemma elem_of_store_put_new c t m tbl : m ∈ store_put c t m tbl.
Proof.
  induction tbl as [|x r IH]; simpl; [left|].
  repeat case_match; try left; now right.
Qed.

Lemma elem_of_store_put_old c t m tbl x :
  x ∈ store_put c t m tbl -> x = m \/ x ∈ tbl.
Proof.
  induction tbl as [|y r IH]; simpl.
  - intros H%list_elem_of_singleton. now left.
  - repeat case_match; rewrite !elem_of_cons; intuition.
Qed.

Lemma elem_of_store_put_kept c t m tbl x :
  x ∈ tbl -> message_key x <> Some (c, t) -> x ∈ store_put c t m tbl.
Proof.
  intros Hx Hk. induction tbl as [|y r IH]; simpl; [inversion Hx|].
  apply elem_of_cons in Hx as [->|Hx].
  - destruct (message_key y) as [[c' t']|] eqn:Ky; [|left].
    destruct (decide (c = c')) as [->|]; [|left].
    destruct (String.compare t t') eqn:Ct.
    + apply String.compare_eq_iff in Ct as ->. contradiction.
    + left.
    + right; left.
  - specialize (IH Hx). repeat case_match; rewrite ?elem_of_cons; auto.
Qed.

Lemma calls_app w w' l : trace w' = (trace w ++ l)%list -> calls w w' = l.
Proof. intros H. unfold calls. rewrite H. apply drop_app_length. Qed.

Lemma filter_is_put_posts data ks :
  List.filter is_put (map (fun k => PostToConnection k data) ks) = [].
Proof. induction ks; simpl; trivial. Qed.

Lemma filter_is_put_deletes ks : List.filter is_put (map DeleteItem ks) = [].
Proof. induction ks; simpl; trivial. Qed.

Lemma lambda_handler_message e cid (d : pydict) w :
  get_default d "action" (PStr "message") = PStr "message" ->
  lambda_handler e (Event cid (Decoded (PDict d))) w
  = try_except (handle_message e cid d)
      (fun _ => ret processing_failure) w.
Proof.
  intros H. unfold lambda_handler. simpl.
  unfold try_except, bind at 1. simpl. now rewrite H.
Qed.

(** The effect of a [message] frame on the store and on the trace. *)
Lemma message_effects e cid (d : pydict) w i m c data :
  get_default d "action" (PStr "message") = PStr "message" ->
  connections_table w !! cid = Some i ->
  (forall k, fault e k = false) ->
  let message := new_message e (connection_item cid i) d in
  get message "channelId" = PStr c ->
  to_dynamo_item message = Some m ->
  json_dumps (broadcast_payload message) = Some data ->
  exists w',
    lambda_handler e (Event cid (Decoded (PDict d))) w = (Ok (message_sent e), w')
    /\ messages_table w' = store_put c (utcnow e 0) m (messages_table w)
    /\ calls w w'
       = ([GetItem cid; PutItem message; Scan (PStr c)]
            ++ map (fun k => PostToConnection k data) (members (AS c) w).*1
            ++ map DeleteItem
                 (List.filter (gone_for e data) (members (AS c) w).*1))%list
    /\ (forall k, connections_table w' !! k
                  = if bool_decide (k ∈ (members (AS c) w).*1) && gone_for e data k
                    then None else connections_table w !! k).
Proof.
  intros Hact Hi F message Hc Hm Hd.
  assert (Kc : dict_get "channelId" m = Some (AS c)).
  { rewrite (to_dynamo_item_get _ _ "channelId" Hm).
    unfold get, get_default in Hc.
    destruct (dict_get "channelId" message) as [v|] eqn:E; simpl in *;
      [now subst | discriminate]. }
  assert (Kt : dict_get "timestamp" m = Some (AS (utcnow e 0))).
  { now rewrite (to_dynamo_item_get _ _ "timestamp" Hm). }
  assert (Hk : message_key m = Some (c, utcnow e 0)).
  { unfold message_key. now rewrite Kc, Kt. }
  assert (Ha : to_dynamo (get message "channelId") = Some (AS c)) by now rewrite Hc.
  pose proof (handle_message_ok e cid d w i m (AS c) c (utcnow e 0) data
                Hi (F _) Hm Hk (F _) Ha (F _) Hd) as Hrun.
  fold message in Hrun. rewrite Hc in Hrun.
  set (ids := (members (AS c) w).*1) in *.
  set (w1 := World _ _ _) in Hrun.
  set (w' := foldl (reap e) w1 (List.filter (gone_for e data) ids)) in *.
  exists w'. split; [|split; [|split]].
  - rewrite (lambda_handler_message _ _ _ _ Hact). unfold try_except.
    now rewrite Hrun.
  - unfold w'. now autorewrite with frame.
  - apply calls_app. unfold w'. autorewrite with frame. unfold w1. simpl.
    now rewrite <- !app_assoc.
  - intros k. unfold w'. rewrite foldl_reap_connections. unfold w1; simpl.
    rewrite F. simpl. rewrite andb_true_r.
    assert (E : bool_decide (k ∈ List.filter (gone_for e data) ids)
                = bool_decide (k ∈ ids) && gone_for e data k).
    { destruct (gone_for e data k) eqn:G.
      - rewrite andb_true_r. apply bool_decide_ext.
        rewrite !list_elem_of_In, filter_In. tauto.
      - rewrite andb_false_r. apply bool_decide_eq_false.
        rewrite list_elem_of_In, filter_In. intros [_ H]. congruence. }
    now rewrite E.
Qed.

(** C1, as the code has it.  The channel of a message is the frame's
    [channelId] when it has one and the sender's channel otherwise; when the
    calls are accepted, that channel is a string, the record is storable and
    the payload serializes, the handler puts exactly one record (fresh
    identifier, send-time timestamp, sender fields of the resolved
    connection), posts the payload once to each connection on the message's
    channel and to no other, and acknowledges with the identifier. *)
Theorem message_is_stored_and_broadcast e cid (d : pydict) w i m c data :
  get_default d "action" (PStr "message") = PStr "message" ->
  connections_table w !! cid = Some i ->
  (forall k, fault e k = false) ->
  let message := new_message e (connection_item cid i) d in
  get message "channelId" = PStr c ->
  to_dynamo_item message = Some m ->
  json_dumps (broadcast_payload message) = Some data ->
  exists w',
    lambda_handler e (Event cid (Decoded (PDict d))) w = (Ok (message_sent e), w')
    /\ get message "channelId"
       = get_default d "channelId"
           (default (PStr "main") (from_dynamo <$> dict_get "channelId" i))
    /\ List.filter is_put (calls w w') = [PutItem message]
    /\ messages_table w' = store_put c (utcnow e 0) m (messages_table w)
    /\ m ∈ messages_table w'
    /\ (forall x, x ∈ messages_table w' -> x = m \/ x ∈ messages_table w)
    /\ (forall x, x ∈ messages_table w ->
                  message_key x <> Some (c, utcnow e 0) -> x ∈ messages_table w')
    /\ dict_get "messageId" m = Some (AS (uuid4 e))
    /\ dict_get "timestamp" m = Some (AS (utcnow e 0))
    /\ (forall u, dict_get "userId" i = Some u -> dict_get "senderId" m = Some u)
    /\ (forall u, dict_get "userEmail" i = Some u -> dict_get "senderEmail" m = Some u)
    /\ (forall u, dict_get "userRole" i = Some u -> dict_get "senderRole" m = Some u)
    /\ (forall k p, PostToConnection k p ∈ calls w w'
          <-> p = data
              /\ exists j, connections_table w !! k = Some j
                           /\ dict_get "channelId" j = Some (AS c))
    /\ NoDup (List.filter (fun x => match x with PostToConnection _ _ => true
                                              | _ => false end) (calls w w')).
Proof.
  intros Hact Hi F message Hc Hm Hd.
  destruct (message_effects e cid d w i m c data Hact Hi F Hc Hm Hd)
    as (w' & Hrun & Hs & Ht & _).
  fold message in Ht.
  set (ids := (members (AS c) w).*1) in *.
  assert (Kt : dict_get "timestamp" m = Some (AS (utcnow e 0))).
  { now rewrite (to_dynamo_item_get _ _ "timestamp" Hm). }
  exists w'. split; [|split; [|split; [|split; [|split; [|split]]]]].
  - exact Hrun.
  - change (get message "channelId")
      with (get_default d "channelId"
              (get_default (connection_item cid i) "channelId" (PStr "main"))).
    unfold get_default at 2.
    now rewrite (dict_get_connection_item "channelId").
  - rewrite Ht. simpl. rewrite List.filter_app, filter_is_put_posts, filter_is_put_deletes.
    reflexivity.
  - exact Hs.
  - rewrite Hs. apply elem_of_store_put_new.
  - intros x. rewrite Hs. apply elem_of_store_put_old.
  - split; [intros x Hx Hk; rewrite Hs; now apply elem_of_store_put_kept|].
    split; [now rewrite (to_dynamo_item_get _ _ "messageId" Hm)|].
    split; [exact Kt|].
    assert (Copy : forall src dst dflt u,
               src <> "connectionId" ->
               dict_get dst message
               = Some (get_default (connection_item cid i) src dflt) ->
               dict_get src i = Some u -> dict_get dst m = Some u).
    { intros src dst dflt u Hsrc Hdst Hu.
      rewrite (to_dynamo_item_get _ _ dst Hm), Hdst. simpl.
      unfold get_default. rewrite (dict_get_connection_item src) by exact Hsrc.
      rewrite Hu. simpl. apply to_dynamo_from_dynamo. }
    split; [intros u; now apply (Copy "userId" "senderId" (PStr "unknown"))|].
    split; [intros u; now apply (Copy "userEmail" "senderEmail" (PStr "unknown"))|].
    split; [intros u; now apply (Copy "userRole" "senderRole" (PStr "user"))|].
    split.
    + intros k p. rewrite Ht. rewrite !elem_of_app, !elem_of_cons.
      rewrite !list_elem_of_fmap. split.
      * intros [[H|[H|[H|H]]]|[(k' & H & Hin)|(k' & H & _)]];
          try discriminate; try inversion H.
        inversion H; subst. split; trivial.
        apply list_elem_of_fmap in Hin as ([k'' j] & -> & Hin).
        apply elem_of_members in Hin as (Hj & a' & Hch & Heq).
        apply attr_eqb_eq in Heq. subst. eauto.
      * intros (-> & j & Hj & Hch). right. left. exists k. split; trivial.
        apply list_elem_of_fmap. exists (k, j). split; trivial.
        apply elem_of_members. split; trivial. exists (AS c). split; trivial.
        apply attr_eqb_refl.
    + rewrite Ht. simpl. rewrite List.filter_app.
      assert (E1 : forall l, List.filter
                    (fun x => match x with PostToConnection _ _ => true | _ => false end)
                    (map (fun k => PostToConnection k data) l)
                  = map (fun k => PostToConnection k data) l).
      { induction l; simpl; congruence. }
      assert (E2 : forall l, List.filter
                    (fun x => match x with PostToConnection _ _ => true | _ => false end)
                    (map DeleteItem l) = []).
      { induction l; simpl; congruence. }
      rewrite E1, E2, app_nil_r.
      apply NoDup_fmap_2; [|apply NoDup_members].
      intros k1 k2 H. now inversion H.
Qed.

Lemma message_is_stored_and_broadcast_witness :
  exists w',
    lambda_handler calm (Event "c1" (Decoded (PDict hello))) world0
    = (Ok (message_sent calm), w')
    /\ messages_table w' = [hello_record]
    /\ recipients (calls world0 w') = ["c3"; "c1"].
Proof.
  destruct (message_is_stored_and_broadcast calm "c1" hello world0
              (participant "u1" "main") hello_record "main"
              (broadcast_payload hello_message)
              eq_refl eq_refl (fun _ => eq_refl) eq_refl eq_refl eq_refl)
    as (w' & Hrun & _).
  exists w'. split; [exact Hrun|].
  vm_compute in Hrun. inversion Hrun; subst. split; reflexivity.
Defined.

(** C1, as the claim states it, fails: a frame that names channel ["ops"],
    sent by [c1] who is on ["main"], reaches [c2] only; the connections on
    the sender's channel, the sender included, receive nothing. *)
Lemma broadcast_not_to_sender_channel :
  let frame := [("action", PStr "message"); ("channelId", PStr "ops");
                ("content", PStr "hi")] in
  let w' := (lambda_handler calm (Event "c1" (Decoded (PDict frame))) world0).2 in
  ~ (forall k, k ∈ recipients (calls world0 w')
               <-> exists j, connections_table world0 !! k = Some j
                             /\ dict_get "channelId" j
                                = dict_get "channelId" (participant "u1" "main")).
Proof.
  intros frame w' H.
  assert (R : recipients (calls world0 w') = ["c2"]) by (vm_compute; reflexivity).
  rewrite R in H.
  assert (Hin : "c1" ∈ ["c2"]).
  { apply H. exists (participant "u1" "main"). split; reflexivity. }
  apply list_elem_of_singleton in Hin. discriminate Hin.
Qed.

(** ** Frames without an [action] *)

Lemma handle_message_ignores_action e cid v (d : pydict) :
  handle_message e cid (("action", v) :: d) = handle_message e cid d.
Proof. reflexivity. Qed.

(** C10, as the code has it: an object without an [action] key is routed
    exactly as the same object with [action = "message"]; when the sender
    resolves (and the calls
    are accepted, the channel is a string, the record storable and the
    payload serializable) the record stored carries the frame's [content],
    the empty string when the frame has none, and the payload is posted to
    the members of the channel. *)
Theorem missing_action_is_message e cid (d : pydict) w :
  dict_get "action" d = None ->
  lambda_handler e (Event cid (Decoded (PDict d))) w
  = lambda_handler e (Event cid (Decoded (PDict (("action", PStr "message") :: d)))) w
  /\ forall i m c data,
       connections_table w !! cid = Some i ->
       (forall k, fault e k = false) ->
       let message := new_message e (connection_item cid i) d in
       get message "channelId" = PStr c ->
       to_dynamo_item message = Some m ->
       json_dumps (broadcast_payload message) = Some data ->
       exists w',
         lambda_handler e (Event cid (Decoded (PDict d))) w
         = (Ok (message_sent e), w')
         /\ m ∈ messages_table w'
         /\ dict_get "content" m
            = to_dynamo (default (PStr "") (dict_get "content" d))
         /\ recipients (calls w w') = (members (AS c) w).*1
         /\ (forall k p, PostToConnection k p ∈ calls w w' -> p = data).
Proof.
  intros Hnone.
  assert (Hact : get_default d "action" (PStr "message") = PStr "message")
    by now apply get_default_absent.
  split.
  - rewrite (lambda_handler_message _ _ _ _ Hact).
    rewrite (lambda_handler_message e cid (("action", PStr "message") :: d) w eq_refl).
    now rewrite handle_message_ignores_action.
  - intros i m c data Hi F message Hc Hm Hd.
    destruct (message_effects e cid d w i m c data Hact Hi F Hc Hm Hd)
      as (w' & Hrun & Hs & Ht & _).
    exists w'. split; [exact Hrun|]. split; [|split; [|split]].
    + rewrite Hs. apply elem_of_store_put_new.
    + now rewrite (to_dynamo_item_get _ _ "content" Hm).
    + rewrite Ht. unfold recipients. simpl.
      generalize (members (AS c) w).*1 as ids. intros ids.
      rewrite omap_app.
      assert (E1 : omap (fun c0 => match c0 with
                                   | PostToConnection k _ => Some k
                                   | _ => None end)
                     (map (fun k => PostToConnection k data) ids) = ids).
      { induction ids as [|x ids IH]; [reflexivity|].
        cbn. f_equal. exact IH. }
      assert (E2 : forall l, omap (fun c0 => match c0 with
                                   | PostToConnection k _ => Some k
                                   | _ => None end) (map DeleteItem l) = []).
      { induction l as [|x l IH]; [reflexivity|]. cbn. exact IH. }
      now rewrite E1, E2, app_nil_r.
    + intros k p. rewrite Ht, !elem_of_app, !elem_of_cons, !list_elem_of_fmap.
      intros [[H|[H|[H|H]]]|[(k' & H & _)|(k' & H & _)]];
        try discriminate; try inversion H. reflexivity.
Qed.

Lemma missing_action_is_message_witness :
  exists w',
    lambda_handler calm (Event "c1" (Decoded (PDict bare))) world0
    = (Ok (message_sent calm), w')
    /\ bare_record ∈ messages_table w'
    /\ dict_get "content" bare_record = Some (AS "")
    /\ recipients (calls world0 w') = ["c2"].
Proof.
  destruct (missing_action_is_message calm "c1" bare world0 eq_refl) as [_ H].
  destruct (H (participant "u1" "main") bare_record "ops"
              (broadcast_payload bare_message)
              eq_refl (fun _ => eq_refl) eq_refl eq_refl eq_refl)
    as (w' & Hrun & Hin & Hc & Hr & _).
  exists w'. split; [exact Hrun|]. split; [exact Hin|]. split; [exact Hc|].
  exact Hr.
Defined.

(** C10, as the claim states it, fails on its second half: a frame without
    [action] whose metadata holds a float, from a sender that resolves and
    with every call accepted, is routed as a message, broadcast and
    acknowledged, but nothing is persisted. *)
Lemma missing_action_with_float_is_not_persisted :
  dict_get "action" unlabelled = None
  /\ connections_table world0 !! "c1" = Some (participant "u1" "main")
  /\ exists w',
       lambda_handler calm (Event "c1" (Decoded (PDict unlabelled))) world0
       = (Ok (message_sent calm), w')
       /\ messages_table w' = []
       /\ recipients (calls world0 w') = ["c3"; "c1"].
Proof.
  split; [reflexivity|]. split; [reflexivity|].
  eexists. split; [vm_compute; reflexivity|].
  split; vm_compute; reflexivity.
Qed.

(** ** Joining a channel *)

Lemma dict_get_set_eq {A : Type} k (v : A) d : dict_get k (dict_set k v d) = Some v.
Proof.
  induction d as [|[k' v'] d IH]; simpl.
  - now destruct (decide (k = k)).
  - destruct (decide (k = k')) as [->|Hne]; simpl.
    + now destruct (decide (k' = k')).
    + now destruct (decide (k = k')).
Qed.

Lemma dict_get_set_ne {A : Type} k k' (v : A) d :
  k <> k' -> dict_get k (dict_set k' v d) = dict_get k d.
Proof.
  intros Hne. induction d as [|[k'' v'] d IH]; simpl.
  - now destruct (decide (k = k')).
  - destruct (decide (k' = k'')) as [->|Hne']; simpl.
    + now destruct (decide (k = k'')).
    + destruct (decide (k = k'')); [reflexivity | exact IH].
Qed.

Lemma to_dynamo_join_sets e channel_id a :
  to_dynamo channel_id = Some a ->
  to_dynamo_item (join_sets e channel_id)
  = Some [("channelId", a); ("lastActivity", AS (utcnow e 0))].
Proof. intros H. simpl. now rewrite H. Qed.

Lemma joined_record_channel e a old :
  dict_get "channelId" (joined_record e a old) = Some a.
Proof.
  unfold joined_record, apply_sets. simpl.
  rewrite dict_get_set_ne by discriminate. apply dict_get_set_eq.
Qed.

Lemma update_accepted e cid sets s w :
  to_dynamo_item sets = Some s ->
  fault e (UpdateItem cid sets) = false ->
  try_except (table_update_item e cid sets) (fun _ => ret tt) w
  = (Ok tt,
     World (<[cid := apply_sets s (default [] (connections_table w !! cid))]>
              (connections_table w))
       (messages_table w) (trace w ++ [UpdateItem cid sets])).
Proof.
  intros Hs F. unfold table_update_item. run.
  rewrite Hs; simpl. now rewrite F.
Qed.

Lemma update_rejected e cid sets w :
  to_dynamo_item sets = None \/ fault e (UpdateItem cid sets) = true ->
  try_except (table_update_item e cid sets) (fun _ => ret tt) w
  = (Ok tt, log (UpdateItem cid sets) w).
Proof.
  intros H. unfold table_update_item. run.
  destruct (to_dynamo_item sets) as [s|]; simpl; [|reflexivity].
  destruct H as [H|H]; [discriminate|]. now rewrite H.
Qed.

Lemma broadcast_to_channel_total e channel message x w :
  exists ks,
    broadcast_to_channel e channel message x w
    = (Ok tt, foldl (notify e message x) (log (Scan channel) w) ks).
Proof.
  destruct (get_channel_connections_total e channel w) as (a & [(Ha & F & _)|H]).
  - exists (members a w).*1. now apply broadcast_to_channel_ok.
  - exists []. unfold broadcast_to_channel. step. now rewrite H.
Qed.

(** A query leaves both tables alone and returns a page, whatever
    happens. *)
Lemma get_recent_messages_total e channel limit lek w :
  exists p,
    get_recent_messages e channel limit lek w
    = (Ok p, log (Query channel limit (if truthy lek then Some lek else None)) w).
Proof.
  unfold get_recent_messages, try_except, table_query.
  set (start := if truthy lek then Some lek else None).
  step. step. unfold called.
  step.
  destruct channel; simpl; try (eexists; reflexivity).
  step.
  destruct limit; simpl; try (eexists; reflexivity).
  destruct (1 <=? n)%Z; simpl; try (eexists; reflexivity).
  step.
  destruct start as [k|]; simpl.
  - unfold bind, of_option.
    destruct (exclusive_start_key s k); simpl; try (eexists; reflexivity).
    destruct (fault e _); simpl; eexists; reflexivity.
  - destruct (fault e _); simpl; eexists; reflexivity.
Qed.

Lemma send_direct_total e cid payload w :
  exists l,
    try_except
      (data <- of_option TypeError (json_dumps payload) ;;
       post_to_connection e cid data)
      (fun _ => ret tt) w
    = (Ok tt, World (connections_table w) (messages_table w) (trace w ++ l)).
Proof.
  unfold try_except, bind, of_option, post_to_connection, called.
  destruct (json_dumps payload) as [data|]; simpl.
  - exists [PostToConnection cid data]. now destruct (deliver e cid data).
  - exists []. rewrite app_nil_r. now destruct w.
Qed.

(** After the update and the lookup, a join cannot fail any more, never
    touches the messages table and never removes the record of the joining
    connection. *)
Lemma join_tail e cid channel_id info w :
  exists w' l,
    (broadcast_to_channel e channel_id
       (PDict [ ("action", PStr "user_joined");
                ("userId", get info "userId");
                ("userEmail", get info "userEmail");
                ("channelId", channel_id) ])
       (Some cid) ;;;
     message_history <- get_recent_messages e channel_id (PInt 50) PNone ;;
     try_except
       (data <- of_option TypeError
                  (json_dumps (history_payload "message_history" message_history
                                 channel_id)) ;;
        post_to_connection e cid data)
       (fun _ => ret tt) ;;;
     ret (joined channel_id)) w
    = (Ok (joined channel_id), w')
    /\ connections_table w' !! cid = connections_table w !! cid
    /\ messages_table w' = messages_table w
    /\ trace w' = (trace w ++ l)%list.
Proof.
  step.
  destruct (broadcast_to_channel_total e channel_id
              (PDict [ ("action", PStr "user_joined");
                       ("userId", get info "userId");
                       ("userEmail", get info "userEmail");
                       ("channelId", channel_id) ]) (Some cid) w) as (ks & ->).
  set (w1 := foldl _ _ ks).
  step.
  destruct (get_recent_messages_total e channel_id (PInt 50) PNone w1) as (p & ->).
  change (if truthy PNone then Some PNone else None) with (@None pyval).
  step.
  destruct (send_direct_total e cid (history_payload "message_history" p channel_id)
              (log (Query channel_id (PInt 50) None) w1)) as (l & ->).
  eexists _, _. split; [reflexivity|]. simpl. split; [|split].
  - unfold w1. rewrite foldl_notify_connections.
    unfold reaped.
    rewrite (bool_decide_eq_true_2 (Some cid = Some cid)) by reflexivity.
    simpl. now rewrite andb_false_r.
  - unfold w1. now autorewrite with frame.
  - unfold w1. autorewrite with frame. simpl.
    rewrite <- !app_assoc. reflexivity.
Qed.

Lemma lambda_handler_join e cid (d : pydict) w :
  dict_get "action" d = Some (PStr "join") ->
  lambda_handler e (Event cid (Decoded (PDict d))) w
  = try_except (handle_join_channel e cid d)
      (fun _ => ret processing_failure) w.
Proof.
  intros H. unfold lambda_handler. simpl.
  unfold try_except, bind at 1. simpl.
  now rewrite (get_default_present _ _ _ _ H).
Qed.

(** Once the registry has taken the update of a join, the record of the
    joining connection carries the new channel when the invocation ends,
    whether the rest of the invocation succeeds or not. *)
Lemma join_updates_registry e cid (d : pydict) w a :
  dict_get "action" d = Some (PStr "join") ->
  let channel_id := get_default d "channelId" (PStr "main") in
  to_dynamo channel_id = Some a ->
  fault e (UpdateItem cid (join_sets e channel_id)) = false ->
  exists r w' l,
    lambda_handler e (Event cid (Decoded (PDict d))) w = (Ok r, w')
    /\ connections_table w' !! cid
       = Some (joined_record e a (connections_table w !! cid))
    /\ messages_table w' = messages_table w
    /\ trace w'
       = (trace w ++ UpdateItem cid (join_sets e channel_id) :: GetItem cid :: l)%list
    /\ (fault e (GetItem cid) = false -> r = joined channel_id).
Proof.
  intros Hact channel_id Ha F.
  rewrite (lambda_handler_join _ _ _ _ Hact).
  unfold try_except, handle_join_channel. fold channel_id.
  fold (join_sets e channel_id).
  step.
  rewrite (update_accepted _ _ _ _ _ (to_dynamo_join_sets e _ _ Ha) F).
  fold (joined_record e a (connections_table w !! cid)).
  set (w1 := World _ _ _).
  assert (H1 : connections_table w1 !! cid
               = Some (joined_record e a (connections_table w !! cid)))
    by apply lookup_insert_eq.
  step.
  destruct (fault e (GetItem cid)) eqn:Fg.
  - assert (E : get_connection_info e cid w1 = (Ok None, log (GetItem cid) w1)).
    { unfold get_connection_info, try_except, table_get_item, bind, called.
      now rewrite Fg. }
    rewrite E. simpl.
    exists processing_failure, (log (GetItem cid) w1), [].
    repeat split; trivial.
    + simpl. now rewrite <- app_assoc.
    + discriminate.
  - rewrite (get_connection_info_present _ _ _ _ H1 Fg).
    step. simpl (attributes_of _ _).
    destruct (join_tail e cid channel_id
                (connection_item cid (joined_record e a (connections_table w !! cid)))
                (log (GetItem cid) w1)) as (w' & l & Hrun & Hc & Hm & Ht).
    unfold ret at 1. cbv beta iota. fold (joined channel_id). rewrite Hrun.
    exists (joined channel_id), w', l. repeat split; trivial.
    + now rewrite Hc.
    + rewrite Ht. simpl. now rewrite <- !app_assoc.
Qed.

(** C9, as the code has it.  The update is issued before the sender is
    resolved.  For a connection the registry does not hold: when the update
    is accepted it creates a record with just the new channel and the
    activity time; if the lookup that follows is accepted it finds that
    record and the join ends in the 200 response, and if the lookup itself
    is refused the join ends in the 500 response with the record written.
    When the update is rejected nothing is written, the lookup finds
    nothing and the join ends in the 500 response. *)
Theorem join_from_unknown_connection e cid (d : pydict) w :
  dict_get "action" d = Some (PStr "join") ->
  connections_table w !! cid = None ->
  let channel_id := get_default d "channelId" (PStr "main") in
  let update := UpdateItem cid (join_sets e channel_id) in
  (forall a,
     to_dynamo channel_id = Some a ->
     fault e update = false ->
     fault e (GetItem cid) = false ->
     exists w' l,
       lambda_handler e (Event cid (Decoded (PDict d))) w
       = (Ok (joined channel_id), w')
       /\ connections_table w' !! cid
          = Some [("channelId", a); ("lastActivity", AS (utcnow e 0))]
       /\ calls w w' = update :: GetItem cid :: l)
  /\ (forall a,
        to_dynamo channel_id = Some a ->
        fault e update = false ->
        fault e (GetItem cid) = true ->
        lambda_handler e (Event cid (Decoded (PDict d))) w
        = (Ok processing_failure,
           World (<[cid := [("channelId", a); ("lastActivity", AS (utcnow e 0))]]>
                    (connections_table w))
             (messages_table w) (trace w ++ [update; GetItem cid])))
  /\ (to_dynamo channel_id = None \/ fault e update = true ->
      lambda_handler e (Event cid (Decoded (PDict d))) w
      = (Ok processing_failure,
         World (connections_table w) (messages_table w)
           (trace w ++ [update; GetItem cid]))).
Proof.
  intros Hact Habs channel_id update. split; [|split].
  - intros a Ha Fu Fg.
    destruct (join_updates_registry e cid d w a Hact Ha Fu)
      as (r & w' & l & Hrun & Hc & _ & Ht & Hr).
    exists w', l. rewrite Hrun, (Hr Fg). split; [reflexivity|]. split.
    + now rewrite Hc, Habs.
    + now apply calls_app.
  - intros a Ha Fu Fg.
    rewrite (lambda_handler_join _ _ _ _ Hact).
    unfold try_except, handle_join_channel. fold channel_id.
    fold (join_sets e channel_id). step.
    rewrite (update_accepted e cid _ _ w (to_dynamo_join_sets e channel_id a Ha) Fu).
    step. unfold get_connection_info, try_except, table_get_item, bind, called.
    cbn [fst snd]. rewrite Fg, Habs.
    unfold raise, ret, log, attributes_of, of_option. cbn.
    now rewrite <- app_assoc.
  - intros Hrej.
    rewrite (lambda_handler_join _ _ _ _ Hact).
    unfold try_except, handle_join_channel. fold channel_id.
    fold (join_sets e channel_id). step.
    rewrite update_rejected.
    2:{ destruct Hrej as [H|H]; [left|right; exact H].
        simpl. fold channel_id. now rewrite H. }
    step.
    rewrite get_connection_info_absent by exact Habs.
    simpl. unfold ret, log. simpl. now rewrite <- app_assoc.
Qed.

Lemma join_from_unknown_connection_witness :
  (exists w' l,
     lambda_handler calm (Event "c9" (Decoded (PDict join_ops))) world0
     = (Ok (joined (PStr "ops")), w')
     /\ connections_table w' !! "c9"
        = Some [("channelId", AS "ops"); ("lastActivity", AS (utcnow calm 0))]
     /\ calls world0 w'
        = UpdateItem "c9" (join_sets calm (PStr "ops")) :: GetItem "c9" :: l)
  /\ lambda_handler deaf (Event "c9" (Decoded (PDict join_ops))) world0
     = (Ok processing_failure,
        World (<["c9" := [("channelId", AS "ops");
                          ("lastActivity", AS (utcnow deaf 0))]]> registry0) []
          [UpdateItem "c9" (join_sets deaf (PStr "ops")); GetItem "c9"])
  /\ lambda_handler refusing (Event "c9" (Decoded (PDict join_ops))) world0
     = (Ok processing_failure,
        World registry0 []
          [UpdateItem "c9" (join_sets refusing (PStr "ops")); GetItem "c9"]).
Proof.
  split; [|split].
  - destruct (join_from_unknown_connection calm "c9" join_ops world0
                eq_refl eq_refl) as (H & _ & _).
    exact (H (AS "ops") eq_refl eq_refl eq_refl).
  - destruct (join_from_unknown_connection deaf "c9" join_ops world0
                eq_refl eq_refl) as (_ & H & _).
    exact (H (AS "ops") eq_refl eq_refl eq_refl).
  - destruct (join_from_unknown_connection refusing "c9" join_ops world0
                eq_refl eq_refl) as (_ & _ & H).
    exact (H (or_intror eq_refl)).
Defined.

(** C9, as the claim states it, fails: with the update applied and the
    lookup answered, a join from a connection the registry did not hold does
    not end in the 500 response. *)
Lemma join_from_unknown_connection_not_failure :
  connections_table world0 !! "c9" = None
  /\ exists w',
       lambda_handler calm (Event "c9" (Decoded (PDict join_ops))) world0
       = (Ok (joined (PStr "ops")), w')
       /\ is_Some (connections_table w' !! "c9")
       /\ statusCode (joined (PStr "ops")) <> 500%Z.
Proof.
  split; [reflexivity|].
  eexists. split; [vm_compute; reflexivity|].
  split; [|discriminate].
  eexists. vm_compute. reflexivity.
Qed.

(** ** A message right after a join *)

Lemma elem_of_members_fst a w k :
  k ∈ (members a w).*1
  <-> exists j, connections_table w !! k = Some j
                /\ dict_get "channelId" j = Some a.
Proof.
  rewrite list_elem_of_fmap. split.
  - intros ([k' j] & -> & Hin).
    apply elem_of_members in Hin as (Hj & a' & Hch & Heq).
    apply attr_eqb_eq in Heq. subst. eauto.
  - intros (j & Hj & Hch). exists (k, j). split; trivial.
    apply elem_of_members. split; trivial. exists a. split; trivial.
    apply attr_eqb_refl.
Qed.

Lemma post_in_posted payload ids k p :
  PostToConnection k p ∈ posted payload ids
  <-> json_dumps payload = Some p /\ k ∈ ids.
Proof.
  unfold posted. destruct (json_dumps payload) as [data|].
  - rewrite list_elem_of_fmap. split.
    + intros (k' & H & Hin). inversion H; subst. now split.
    + intros (H & Hin). inversion H; subst. eauto.
  - split; [intros H; inversion H | intros [H _]; discriminate].
Qed.

Lemma elem_of_listed e c w k :
  k ∈ (listed e (PStr c) w).*1
  <-> fault e (Scan (PStr c)) = false
      /\ exists j, connections_table w !! k = Some j
                   /\ dict_get "channelId" j = Some (AS c).
Proof.
  unfold listed. simpl. destruct (fault e (Scan (PStr c))).
  - split; [intros H; inversion H | intros [H _]; discriminate].
  - rewrite elem_of_members_fst. tauto.
Qed.

(** C2, as the code has it: after a join to a string channel [c] whose
    update the registry accepted, a message frame without [channelId] from
    the same connection (whose lookup succeeds) is built for channel [c]:
    the handler puts a record for [c],
    scans for the members of [c] and posts to nobody who is not on [c] once
    the join is done; when the scan is accepted and the payload serializes,
    every connection on [c], the sender among them, is posted to.  The
    channel the connection was on before plays no part. *)
Theorem message_after_join_uses_new_channel e1 e2 cid (dj dm : pydict) w c :
  dict_get "action" dj = Some (PStr "join") ->
  dict_get "channelId" dj = Some (PStr c) ->
  fault e1 (UpdateItem cid (join_sets e1 (PStr c))) = false ->
  get_default dm "action" (PStr "message") = PStr "message" ->
  dict_get "channelId" dm = None ->
  fault e2 (GetItem cid) = false ->
  exists r w1 i w2 rest,
    lambda_handler e1 (Event cid (Decoded (PDict dj))) w = (Ok r, w1)
    /\ connections_table w1 !! cid = Some i
    /\ dict_get "channelId" i = Some (AS c)
    /\ lambda_handler e2 (Event cid (Decoded (PDict dm))) w1
       = (Ok (message_sent e2), w2)
    /\ let message := new_message e2 (connection_item cid i) dm in
       get message "channelId" = PStr c
       /\ calls w1 w2 = GetItem cid :: PutItem message :: Scan (PStr c) :: rest
       /\ (forall k p,
             PostToConnection k p ∈ calls w1 w2 ->
             exists j, connections_table w1 !! k = Some j
                       /\ dict_get "channelId" j = Some (AS c))
       /\ (forall data,
             fault e2 (Scan (PStr c)) = false ->
             json_dumps (broadcast_payload message) = Some data ->
             forall k j,
               connections_table w1 !! k = Some j ->
               dict_get "channelId" j = Some (AS c) ->
               PostToConnection k data ∈ calls w1 w2).
Proof.
  intros Hj Hc F1 Hm Hnone F2.
  assert (Hch : get_default dj "channelId" (PStr "main") = PStr c)
    by now apply get_default_present.
  destruct (join_updates_registry e1 cid dj w (AS c) Hj) as
    (r & w1 & l & Hrun & Hreg & _).
  { now rewrite Hch. }
  { now rewrite Hch. }
  set (i := joined_record e1 (AS c) (connections_table w !! cid)) in *.
  assert (Hi : dict_get "channelId" i = Some (AS c)) by apply joined_record_channel.
  pose (message := new_message e2 (connection_item cid i) dm).
  assert (Hmc : get message "channelId" = PStr c).
  { change (get message "channelId")
      with (get_default dm "channelId"
              (get_default (connection_item cid i) "channelId" (PStr "main"))).
    rewrite (get_default_absent dm) by exact Hnone.
    unfold get_default. rewrite (dict_get_connection_item "channelId") by discriminate.
    now rewrite Hi. }
  pose proof (handle_message_resolved e2 cid dm w1 i Hreg F2) as Hrun2.
  cbv zeta in Hrun2. fold message in Hrun2. rewrite Hmc in Hrun2.
  set (ids := (listed e2 (PStr c) w1).*1) in *.
  set (w2 := foldl (reap e2) _ _) in Hrun2.
  assert (Ht : calls w1 w2
               = (GetItem cid :: PutItem message :: Scan (PStr c)
                    :: posted (broadcast_payload message) ids
                    ++ map DeleteItem (stale e2 (broadcast_payload message) ids))%list).
  { apply calls_app. unfold w2. autorewrite with frame. simpl.
    now rewrite <- !app_assoc. }
  exists r, w1, i, w2. eexists.
  split; [exact Hrun|]. split; [exact Hreg|]. split; [exact Hi|].
  split.
  { rewrite (lambda_handler_message _ _ _ _ Hm). unfold try_except.
    now rewrite Hrun2. }
  fold message. split; [exact Hmc|]. split; [exact Ht|]. split.
  - intros k p. rewrite Ht, !elem_of_cons, elem_of_app, list_elem_of_fmap.
    intros [H|[H|[H|[H|(k' & H & _)]]]]; try discriminate.
    apply post_in_posted in H as [_ Hin].
    now apply elem_of_listed in Hin as [_ Hin].
  - intros data Fs Hd k j Hk Hkc.
    rewrite Ht, !elem_of_cons, elem_of_app. do 3 right. left.
    apply post_in_posted. split; [exact Hd|].
    apply elem_of_listed. eauto.
Qed.

Lemma message_after_join_uses_new_channel_witness :
  exists w1 w2,
    (lambda_handler calm (Event "c1" (Decoded (PDict join_ops))) world0).2 = w1
    /\ lambda_handler calm (Event "c1" (Decoded (PDict hello))) w1
       = (Ok (message_sent calm), w2)
    /\ PostToConnection "c1" (broadcast_payload hello_after_join) ∈ calls w1 w2
    /\ forall k p, PostToConnection k p ∈ calls w1 w2 ->
                   exists j, connections_table w1 !! k = Some j
                             /\ dict_get "channelId" j = Some (AS "ops").
Proof.
  destruct (message_after_join_uses_new_channel calm calm "c1" join_ops hello
              world0 "ops" eq_refl eq_refl eq_refl eq_refl eq_refl eq_refl)
    as (r & w1 & i & w2 & rest & Hrun & Hreg & Hi & Hrun2 & _ & _ & Hsub & Hall).
  assert (E1 : (lambda_handler calm (Event "c1" (Decoded (PDict join_ops))) world0).2
               = w1) by now rewrite Hrun.
  assert (Ei : joined_record calm (AS "ops") (Some (participant "u1" "main")) = i).
  { rewrite <- E1 in Hreg. vm_compute in Hreg. now injection Hreg as <-. }
  subst i.
  exists w1, w2. split; [exact E1|]. split; [exact Hrun2|]. split; [|exact Hsub].
  exact (Hall (broadcast_payload hello_after_join) eq_refl eq_refl "c1" _ Hreg Hi).
Defined.

(** C2, as the claim states it, fails.  A join whose update the registry
    refuses is still answered with the 200 response, the record keeps the
    old channel, and the next message without [channelId] is stored and
    broadcast for the old channel.  The same happens with every call
    accepted when the channel of the join is a number with a fraction,
    which the registry cannot store. *)
Lemma message_after_refused_join_uses_old_channel :
  (exists w1 w2 rest,
     lambda_handler refusing (Event "c1" (Decoded (PDict join_ops))) world0
     = (Ok (joined (PStr "ops")), w1)
     /\ connections_table w1 !! "c1" = Some (participant "u1" "main")
     /\ lambda_handler calm (Event "c1" (Decoded (PDict hello))) w1
        = (Ok (message_sent calm), w2)
     /\ calls w1 w2
        = GetItem "c1" :: PutItem hello_message :: Scan (PStr "main") :: rest
     /\ dict_get "channelId" hello_message = Some (PStr "main")
     /\ recipients (calls w1 w2) = ["c3"; "c1"])
  /\ (exists w1 w2 rest,
        lambda_handler calm (Event "c1" (Decoded (PDict join_float))) world0
        = (Ok (joined (PFloat (Qc_of_Z 7))), w1)
        /\ connections_table w1 !! "c1" = Some (participant "u1" "main")
        /\ lambda_handler calm (Event "c1" (Decoded (PDict hello))) w1
           = (Ok (message_sent calm), w2)
        /\ calls w1 w2
           = GetItem "c1" :: PutItem hello_message :: Scan (PStr "main") :: rest
        /\ recipients (calls w1 w2) = ["c3"; "c1"]).
Proof.
  split.
  - eexists _, _, _. split; [vm_compute; reflexivity|].
    split; [vm_compute; reflexivity|].
    split; [vm_compute; reflexivity|].
    split; [vm_compute; reflexivity|].
    split; vm_compute; reflexivity.
  - eexists _, _, _. split; [vm_compute; reflexivity|].
    split; [vm_compute; reflexivity|].
    split; [vm_compute; reflexivity|].
    split; vm_compute; reflexivity.
Qed.

(** ** Reaping stale connections *)

(** A connection the registry does not hold is in no membership list. *)
Lemma absent_not_listed e channel w k :
  connections_table w !! k = None ->
  forall l w', get_channel_connections e channel w = (Ok l, w') ->
  forall conn, conn ∈ l -> dict_get "connectionId" conn <> Some (PStr k).
Proof.
  intros Habs l w' Hrun conn Hin Hk.
  destruct (get_channel_connections_total e channel w) as (a & [(_ & _ & H)|H]);
    rewrite H in Hrun; inversion Hrun; subst; clear Hrun.
  - apply list_elem_of_fmap in Hin as ([k' j] & -> & Hin).
    apply elem_of_members in Hin as (Hj & _).
    simpl in Hk. inversion Hk; subst. congruence.
  - inversion Hin.
Qed.

Lemma notify_calls_served e message data x k :
  json_dumps message = Some data ->
  notify_calls e message x k = served e data x k.
Proof.
  intros H. unfold notify_calls, served, gone_for. rewrite H.
  destruct (bool_decide (Some k = x)); [reflexivity|].
  now destruct (deliver e k data).
Qed.

Lemma reaped_gone e message data x k :
  json_dumps message = Some data ->
  fault e (DeleteItem k) = false ->
  reaped e message x k = negb (bool_decide (Some k = x)) && gone_for e data k.
Proof.
  intros H F. unfold reaped, gone_for. rewrite H, F.
  now destruct (deliver e k data).
Qed.




(** ** Numbers read back from the store *)

(** What the cleaning loop of [get_recent_messages] achieves: no attribute
    of a returned message is itself a [Decimal]. *)
Lemma clean_top_level (msg : pydict) :
  Forall (fun kv => is_decimal kv.2 = false) (clean msg).
Proof.
  unfold clean. apply Forall_fmap, Forall_forall. intros [k v] _. simpl.
  now destruct v.
Qed.

(** The loop looks at the attributes of a message only, not inside them. *)
Lemma clean_keeps_nested k (d : pydict) (msg : pydict) :
  dict_get k msg = Some (PDict d) -> dict_get k (clean msg) = Some (PDict d).
Proof.
  induction msg as [|[k' v] msg IH]; simpl; [discriminate|].
  destruct (decide (k = k')); [|exact IH].
  now intros [= ->].
Qed.

(** C7 on the code: a message sent with [metadata = {"priority": 1}] is
    stored with a DynamoDB number inside [metadata]; read back, the number is
    still a [Decimal], the history payload cannot be serialized,
    [load_more_messages] answers 500 and a join sends no history at all. *)
Theorem nested_decimal_is_not_normalized :
  let w1 := (lambda_handler calm (Event "c1" (Decoded (PDict flagged))) world0).2 in
  (exists p w2 msg,
     get_recent_messages calm (PStr "main") (PInt 50) PNone w1 = (Ok p, w2)
     /\ messages p = [msg]
     /\ dict_get "metadata" msg = Some (PDict [("priority", PDecimal (Qc_of_Z 1))])
     /\ json_dumps (history_payload "message_history_batch" p (PStr "main")) = None)
  /\ (lambda_handler calm (Event "c3" (Decoded (PDict load_more_main))) w1).1
     = Ok (Response 500 [("error", [Lit "Failed to load messages"])])
  /\ recipients
       (calls w1 (lambda_handler calm (Event "c3" (Decoded (PDict load_more_main))) w1).2)
     = []
  /\ (lambda_handler calm (Event "c3" (Decoded (PDict join_main))) w1).1
     = Ok (joined (PStr "main"))
  /\ recipients
       (calls w1 (lambda_handler calm (Event "c3" (Decoded (PDict join_main))) w1).2)
     = ["c1"].
Proof.
  intros w1. split.
  - eexists _, _, _. split; [vm_compute; reflexivity|].
    split; [reflexivity|]. split; reflexivity.
  - repeat split; vm_compute; reflexivity.
Qed.

(** ** Paging through the history *)

(** *** The order on sort keys *)

Lemma compare_refl (s : string) : String.compare s s = Eq.
Proof.
  induction s as [|a s IH]; simpl; [reflexivity|].
  unfold Ascii.compare. now rewrite N.compare_refl.
Qed.

Lemma older_compare a b : older a b <-> String.compare a b = Lt.
Proof. unfold older, String.ltb. now destruct (String.compare a b). Qed.

Lemma older_irrefl a : ~ older a a.
Proof. rewrite older_compare, compare_refl. discriminate. Qed.

Lemma older_asym a b : older a b -> ~ older b a.
Proof.
  rewrite !older_compare. intros H1 H2.
  rewrite String.compare_antisym, H2 in H1. discriminate.
Qed.

Lemma older_le a b : older a b -> String.le a b.
Proof.
  rewrite older_compare. intros H. unfold String.le, String.leb. now rewrite H.
Qed.

Lemma older_trans a b c : older a b -> older b c -> older a c.
Proof.
  intros H1 H2.
  assert (Hle : String.le a c).
  { transitivity b; now apply older_le. }
  apply older_compare.
  unfold String.le, String.leb in Hle.
  destruct (String.compare a c) eqn:E; [|reflexivity|contradiction].
  apply String.compare_eq_iff in E. subst c.
  exfalso. exact (older_asym _ _ H1 H2).
Qed.

Lemma in_range_key c s m :
  in_range c s m = true ->
  exists t : string,
    message_key m = Some (c, t)
    /\ match s with None => True | Some ts => older t ts end.
Proof.
  unfold in_range.
  destruct (message_key m) as [[c' t]|]; [|discriminate].
  rewrite andb_true_iff, bool_decide_eq_true. intros [-> H].
  exists t. split; [reflexivity|]. destruct s; [exact H | exact I].
Qed.

Lemma in_range_below c s m tm :
  in_range c s m = true ->
  message_key m = Some (c, tm) ->
  forall z tz, message_key z = Some (c, tz) -> older tz tm ->
  in_range c s z = true.
Proof.
  intros Hm Km z tz Kz Hz.
  apply in_range_key in Hm as (t' & Km' & Hs).
  rewrite Km in Km'. injection Km' as <-.
  unfold in_range. rewrite Kz, bool_decide_eq_true_2 by reflexivity. simpl.
  destruct s as [ts|]; [|reflexivity].
  exact (older_trans _ _ _ Hz Hs).
Qed.

Lemma remaining_elem c s tbl x : x ∈ remaining c s tbl -> x ∈ tbl.
Proof.
  unfold remaining. rewrite !list_elem_of_In, filter_In. tauto.
Qed.

(** With the key of the [p]-th remaining record as start key, the query
    reads exactly the records after it. *)
Lemma remaining_after tbl c s p x t :
  newest_first tbl ->
  remaining c s tbl !! p = Some x ->
  message_key x = Some (c, t) ->
  remaining c (Some t) tbl = drop (S p) (remaining c s tbl).
Proof.
  intros Hs. revert p. induction Hs as [|y r Hr IH Hy]; intros p Hp Kx.
  - discriminate.
  - assert (Hbelow : forall z tz, z ∈ r -> message_key z = Some (c, tz) ->
                                   forall ty, message_key y = Some (c, ty) ->
                                   older tz ty).
    { intros z tz Hz Kz ty Ky. rewrite Forall_forall in Hy.
      exact (Hy z Hz c ty tz Ky Kz). }
    unfold remaining in *. simpl in *.
    assert (Hskip : x ∈ r -> in_range c (Some t) y = false).
    { intros Hx. unfold in_range.
      destruct (message_key y) as [[c' ty]|] eqn:Ky; [|reflexivity].
      destruct (decide (c = c')) as [<-|Hne].
      - rewrite bool_decide_eq_true_2 by reflexivity. simpl.
        apply not_true_is_false. apply older_asym.
        exact (Hbelow x t Hx Kx ty eq_refl).
      - now rewrite bool_decide_eq_false_2. }
    destruct (in_range c s y) eqn:Ry.
    + destruct p as [|p]; simpl in *.
      * injection Hp as ->.
        assert (E : in_range c (Some t) x = false).
        { unfold in_range. rewrite Kx, bool_decide_eq_true_2 by reflexivity.
          simpl. apply not_true_is_false. apply older_irrefl. }
        rewrite E. apply filter_ext_in. intros z Hz.
        apply list_elem_of_In in Hz.
        destruct (message_key z) as [[c' tz]|] eqn:Kz.
        -- destruct (decide (c = c')) as [<-|Hne].
           ++ pose proof (Hbelow z tz Hz Kz t Kx) as Hlt.
              rewrite (in_range_below c s x t Ry Kx z tz Kz Hlt).
              unfold in_range. rewrite Kz, bool_decide_eq_true_2 by reflexivity.
              exact Hlt.
           ++ unfold in_range. rewrite Kz. now rewrite bool_decide_eq_false_2.
        -- unfold in_range. now rewrite Kz.
      * rewrite Hskip.
        -- now apply IH.
        -- apply (remaining_elem c s). now apply list_elem_of_lookup_2 in Hp.
    + rewrite Hskip.
      * now apply IH.
      * apply (remaining_elem c s). now apply list_elem_of_lookup_2 in Hp.
Qed.

(** *** One page *)

Lemma get_recent_messages_ok e c n s w :
  (1 <= n)%Z ->
  fault e (Query (PStr c) (PInt n) (cursor c <$> s)) = false ->
  get_recent_messages e (PStr c) (PInt n) (start_of c s) w
  = (Ok (page_of c (Z.to_nat n) s (messages_table w)),
     log (Query (PStr c) (PInt n) (cursor c <$> s)) w).
Proof.
  intros Hn F. unfold get_recent_messages, try_except.
  assert (E : (if truthy (start_of c s) then Some (start_of c s) else None)
              = cursor c <$> s) by now destruct s.
  rewrite E. unfold table_query.
  step. step. unfold called. step. simpl.
  step.
  destruct (Z.leb_spec 1 n) as [_|]; [|lia]. simpl.
  step.
  assert (Es : match cursor c <$> s return M (option string) with
               | Some k =>
                   t <- of_option ClientError (exclusive_start_key c k) ;;
                   ret (Some t)
               | None => ret None
               end (log (Query (PStr c) (PInt n) (cursor c <$> s)) w)
               = (Ok s, log (Query (PStr c) (PInt n) (cursor c <$> s)) w)).
  { destruct s as [t|]; simpl; [|reflexivity].
    unfold bind, of_option. simpl.
    now rewrite bool_decide_eq_true_2 by reflexivity. }
  rewrite Es. rewrite F. reflexivity.
Qed.

Lemma remaining_key c s tbl p x :
  remaining c s tbl !! p = Some x -> exists t, message_key x = Some (c, t).
Proof.
  intros Hp. apply list_elem_of_lookup_2 in Hp.
  unfold remaining in Hp. apply list_elem_of_In, filter_In in Hp as [_ Hr].
  apply in_range_key in Hr as (t & Hk & _). eauto.
Qed.

Lemma page_of_short c n s tbl :
  length (remaining c s tbl) < n ->
  page_of c n s tbl = Page (rev (map rendered (remaining c s tbl))) false PNone.
Proof.
  intros Hlt. unfold page_of.
  destruct (Nat.leb_spec n (length (remaining c s tbl))) as [|_]; [lia|].
  rewrite take_ge by lia. simpl. now rewrite map_map.
Qed.

Lemma page_of_full c n s tbl :
  1 <= n <= length (remaining c s tbl) ->
  exists x t,
    remaining c s tbl !! (n - 1) = Some x
    /\ message_key x = Some (c, t)
    /\ page_of c n s tbl
       = Page (rev (map rendered (take n (remaining c s tbl)))) true (cursor c t).
Proof.
  intros [H1 Hn]. unfold page_of.
  destruct (Nat.leb_spec n (length (remaining c s tbl))) as [_|]; [|lia].
  destruct (lookup_lt_is_Some_2 (remaining c s tbl) (n - 1)) as [x Hx]; [lia|].
  destruct (remaining_key _ _ _ _ _ Hx) as [t Hk].
  exists x, t. split; [exact Hx|]. split; [exact Hk|].
  assert (Hl : list.last (take n (remaining c s tbl)) = Some x).
  { rewrite last_lookup, length_take, Nat.min_l by lia.
    rewrite lookup_take_lt by lia.
    now replace (Nat.pred n) with (n - 1) by lia. }
  rewrite Hl. unfold key_of. rewrite Hk. simpl. now rewrite map_map.
Qed.

Section paging.
Context (e : env) (c : string) (n : Z) (tbl : list item).
Hypothesis Hn : (1 <= n)%Z.
Hypothesis F : forall k, fault e k = false.
Hypothesis Hs : newest_first tbl.

Lemma load_all_pages :
  forall fuel s w,
    messages_table w = tbl ->
    length (remaining c s tbl) < fuel ->
    let pages := load_all fuel e (PStr c) (PInt n) (start_of c s) w in
    concat (rev (messages <$> pages)) = rev (map rendered (remaining c s tbl))
    /\ Forall (fun p => length (messages p) <= Z.to_nat n) pages
    /\ Forall (fun p => hasMore p = true <-> length (messages p) = Z.to_nat n) pages
    /\ exists front p,
         pages = (front ++ [p])%list /\ hasMore p = false
         /\ Forall (fun q => hasMore q = true) front.
Proof.
  intros fuel.
  induction fuel as [|fuel IH]; intros s w Hw Hfuel; [lia|].
  simpl. rewrite (get_recent_messages_ok e c n s w Hn (F _)), Hw.
  destruct (Nat.lt_ge_cases (length (remaining c s tbl)) (Z.to_nat n)) as [Hlt|Hge].
  - rewrite (page_of_short _ _ _ _ Hlt). simpl.
    rewrite app_nil_r. split; [reflexivity|].
    split; [constructor; [|constructor]; simpl;
            rewrite length_rev, length_map; lia|].
    split; [constructor; [|constructor]; simpl;
            rewrite length_rev, length_map; split; [discriminate|lia]|].
    exists [], (Page (rev (map rendered (remaining c s tbl))) false PNone).
    repeat split; constructor.
  - destruct (page_of_full c (Z.to_nat n) s tbl) as (x & t & Hx & Hk & ->); [lia|].
    simpl.
    set (w' := log _ w).
    assert (Hrem : remaining c (Some t) tbl = drop (Z.to_nat n) (remaining c s tbl)).
    { rewrite (remaining_after tbl c s (Z.to_nat n - 1) x t Hs Hx Hk).
      f_equal. lia. }
    destruct (IH (Some t) w') as (Hcat & Hlen & Hfull & front & p & Hpages & Hp & Hfront).
    { exact Hw. }
    { rewrite Hrem, length_drop. lia. }
    simpl in Hcat, Hlen, Hfull, Hpages.
    set (rest := load_all fuel e (PStr c) (PInt n) (cursor c t) w') in *.
    split.
    + change (list_fmap page (list pydict) messages rest) with (messages <$> rest).
      rewrite concat_app. simpl. rewrite app_nil_r, Hcat, Hrem.
      rewrite <- rev_app_distr, <- map_app. now rewrite take_drop.
    + split; [constructor; [|exact Hlen]; simpl;
              rewrite length_rev, length_map, length_take; lia|].
      split; [constructor; [|exact Hfull]; simpl;
              rewrite length_rev, length_map, length_take; split; [lia|reflexivity]|].
      exists (Page (rev (map rendered (take (Z.to_nat n) (remaining c s tbl))))
                true (cursor c t) :: front), p.
      rewrite Hpages. split; [reflexivity|]. split; [exact Hp|].
      constructor; [reflexivity | exact Hfront].
Qed.

End paging.

(** *** Order of the history *)

Lemma dict_get_clean k (d : pydict) :
  dict_get k (clean d)
  = (fun v => if is_decimal v then float v else v) <$> dict_get k d.
Proof.
  induction d as [|[k' v] d IH]; simpl; [reflexivity|].
  destruct (decide (k = k')); [reflexivity | exact IH].
Qed.

Lemma rendered_timestamp m c t :
  message_key m = Some (c, t) -> timestamp_of (rendered m) = Some t.
Proof.
  unfold message_key, timestamp_of, rendered. intros H.
  rewrite dict_get_clean, dict_get_from_dynamo_item.
  destruct (dict_get "channelId" m) as [[]|]; try discriminate.
  destruct (dict_get "timestamp" m) as [[]|]; try discriminate.
  now inversion H.
Qed.

Lemma remaining_chronological c s tbl :
  newest_first tbl -> chronological (rev (map rendered (remaining c s tbl))).
Proof.
  intros Hs. unfold remaining.
  induction Hs as [|x r Hr IH Hx]; simpl; [constructor|].
  destruct (in_range c s x) eqn:Rx; [|exact IH].
  simpl. apply StronglySorted_app_2; [|exact IH|repeat constructor].
  intros a b Ha Hb. apply list_elem_of_singleton in Hb as ->.
  apply list_elem_of_In, in_rev, list_elem_of_In in Ha.
  apply list_elem_of_fmap in Ha as (z & -> & Hz).
  apply list_elem_of_In, filter_In in Hz as [Hz Rz].
  apply in_range_key in Rx as (tx & Kx & _).
  apply in_range_key in Rz as (tz & Kz & _).
  exists tz, tx.
  rewrite (rendered_timestamp _ _ _ Kx), (rendered_timestamp _ _ _ Kz).
  repeat split. rewrite Forall_forall in Hx.
  apply list_elem_of_In in Hz. exact (Hx z Hz c tx tz Kx Kz).
Qed.

(** [put_item] keeps the table in order. *)
Lemma store_put_newest_first c t m tbl :
  message_key m = Some (c, t) ->
  newest_first tbl -> newest_first (store_put c t m tbl).
Proof.
  intros Km Hs. induction Hs as [|x r Hr IH Hx]; simpl.
  - repeat constructor.
  - rewrite Forall_forall in Hx.
    assert (Hkeep : (forall c0 tx, message_key x = Some (c0, tx) ->
                                   c0 = c -> older t tx) ->
                    newest_first (x :: store_put c t m r)).
    { intros Hxm. constructor; [exact IH|]. apply Forall_forall.
      intros z Hz. apply elem_of_store_put_old in Hz as [->|Hz]; [|now apply Hx].
      intros c0 tx ty Kx Kz. rewrite Km in Kz. injection Kz as <- <-.
      now apply (Hxm c tx). }
    destruct (message_key x) as [[c' t']|] eqn:Kx; [|apply Hkeep; discriminate].
    destruct (decide (c = c')) as [<-|Hne];
      [|apply Hkeep; intros c0 tx [= <- <-] ->; contradiction].
    destruct (String.compare t t') eqn:Ct.
    + apply String.compare_eq_iff in Ct as <-.
      constructor; [exact Hr|]. apply Forall_forall. intros z Hz c0 tx ty Kz' Kz.
      rewrite Km in Kz'. injection Kz' as <- <-. exact (Hx z Hz c t ty Kx Kz).
    + apply Hkeep. intros c0 tx [= <- <-] _. now apply older_compare.
    + assert (Hgt : older t' t).
      { apply older_compare. now rewrite String.compare_antisym, Ct. }
      constructor; [now constructor; [|apply Forall_forall]|].
      apply Forall_forall. intros z Hz c0 tx ty Kz' Kz.
      rewrite Km in Kz'. injection Kz' as <- <-.
      apply elem_of_cons in Hz as [->|Hz].
      * rewrite Kx in Kz. now injection Kz as <-.
      * apply (older_trans _ t'); [|exact Hgt]. exact (Hx z Hz c t' ty Kx Kz).
Qed.

(** What a [load_more_messages] frame from a known sender delivers is the
    page [get_recent_messages] computes for the cursor in the frame. *)
Lemma load_more_delivers_page e cid (body : pydict) w i p w1 data :
  connections_table w !! cid = Some i ->
  fault e (GetItem cid) = false ->
  let channel_id := get_default body "channelId" (PStr "main") in
  get_recent_messages e channel_id (get_default body "limit" (PInt 50))
    (py_or (get body "cursor") (get body "lastEvaluatedKey"))
    (log (GetItem cid) w) = (Ok p, w1) ->
  json_dumps (history_payload "message_history_batch" p channel_id) = Some data ->
  deliver e cid data = Delivered ->
  exists r,
    handle_load_more_messages e cid body w
    = (Ok r, log (PostToConnection cid data) w1)
    /\ statusCode r = 200%Z.
Proof.
  intros Hi F channel_id Hp Hd Hdel.
  unfold handle_load_more_messages. fold channel_id. step.
  rewrite (get_connection_info_present _ _ _ _ Hi F).
  change (negb (truthy (PDict (connection_item cid i)))) with false. cbv iota.
  step. rewrite Hp.
  unfold try_except, bind, of_option. rewrite Hd. simpl.
  unfold post_to_connection, bind, called. rewrite Hdel. simpl.
  eexists. split; reflexivity.
Qed.

(** The pages [load_all] collects, from a cursor [s] or from none. *)
Lemma load_all_covers e c limit s w :
  (1 <= limit)%Z ->
  (forall k, fault e k = false) ->
  newest_first (messages_table w) ->
  let history := rev (map rendered (remaining c s (messages_table w))) in
  let pages :=
    load_all (S (length history)) e (PStr c) (PInt limit) (start_of c s) w in
  concat (rev (messages <$> pages)) = history
  /\ chronological history
  /\ Forall (fun p => length (messages p) <= Z.to_nat limit) pages
  /\ Forall (fun p => hasMore p = true <-> length (messages p) = Z.to_nat limit) pages
  /\ (exists front p,
        pages = (front ++ [p])%list /\ hasMore p = false
        /\ Forall (fun q => hasMore q = true) front)
  /\ (forall p, head pages = Some p ->
                length (messages p) < length history -> hasMore p = true).
Proof.
  intros Hn F Hs history pages.
  destruct (load_all_pages e c limit (messages_table w) Hn F Hs
              (S (length history)) s w eq_refl) as (H1 & H2 & H3 & H4).
  { unfold history. rewrite length_rev, length_map. lia. }
  fold pages in H1, H2, H3, H4.
  split; [exact H1|]. split; [now apply remaining_chronological|].
  split; [exact H2|]. split; [exact H3|]. split; [exact H4|].
  intros p Hp Hlt. destruct H4 as (front & q & Hpages & Hq & Hfront).
  rewrite Hpages in Hp, H1. destruct front as [|p' front]; simpl in *.
  - injection Hp as ->. rewrite app_nil_r in H1. rewrite H1 in Hlt.
    unfold history in Hlt. lia.
  - injection Hp as ->. now inversion Hfront.
Qed.

Lemma batch_of_history_payload action p channel :
  batch_of (history_payload action p channel) = Some p.
Proof.
  destruct p as [ms b k]. unfold batch_of, history_payload. simpl.
  f_equal. f_equal. induction ms as [|m ms IH]; [reflexivity|].
  cbn. now rewrite IH.
Qed.

Lemma json_dumps_history_payload action p c :
  Forall (fun m => json_serializable (PDict m) = true) (messages p) ->
  json_serializable (lastEvaluatedKey p) = true ->
  json_dumps (history_payload action p (PStr c))
  = Some (history_payload action p (PStr c)).
Proof.
  intros Hm Hk. unfold json_dumps.
  assert (E : json_serializable (history_payload action p (PStr c)) = true).
  { unfold history_payload. simpl. rewrite Hk. simpl. rewrite andb_true_r.
    induction Hm as [|m ms H _ IH]; [reflexivity|].
    simpl in *. now rewrite H, IH. }
  now rewrite E.
Qed.

Lemma page_of_serializable c n s tbl :
  Forall presentable (remaining c s tbl) ->
  Forall (fun m => json_serializable (PDict m) = true)
    (messages (page_of c n s tbl))
  /\ json_serializable (lastEvaluatedKey (page_of c n s tbl)) = true.
Proof.
  intros H. unfold page_of. simpl. split.
  - rewrite map_map. apply Forall_forall. intros m Hm.
    apply list_elem_of_In, in_rev, list_elem_of_In in Hm.
    apply list_elem_of_fmap in Hm as (x & -> & Hx).
    rewrite Forall_forall in H. apply H.
    exact (subseteq_take _ _ _ Hx).
  - destruct (_ <=? _)%nat; [|reflexivity].
    destruct (list.last _) as [m|]; [|reflexivity].
    unfold key_of. now destruct (message_key m) as [[? ?]|].
Qed.

Lemma lambda_handler_load_more e cid (d : pydict) w :
  dict_get "action" d = Some (PStr "load_more_messages") ->
  lambda_handler e (Event cid (Decoded (PDict d))) w
  = try_except (handle_load_more_messages e cid d)
      (fun _ => ret processing_failure) w.
Proof.
  intros H. unfold lambda_handler. simpl.
  unfold try_except, bind at 1. simpl.
  now rewrite (get_default_present _ _ _ _ H).
Qed.

(** One round of the client: the router posts the page of the cursor. *)
Lemma load_more_round e cid i c limit s w :
  connections_table w !! cid = Some i ->
  (forall k, fault e k = false) ->
  (forall data, deliver e cid data = Delivered) ->
  (1 <= limit)%Z ->
  Forall presentable (remaining c s (messages_table w)) ->
  let p := page_of c (Z.to_nat limit) s (messages_table w) in
  exists r,
    lambda_handler e
      (Event cid (Decoded (PDict (load_more_frame (PStr c) (PInt limit)
                                    (start_of c s))))) w
    = (Ok r,
       World (connections_table w) (messages_table w)
         (trace w ++ [ GetItem cid;
                       Query (PStr c) (PInt limit) (cursor c <$> s);
                       PostToConnection cid
                         (history_payload "message_history_batch" p (PStr c)) ]))
    /\ statusCode r = 200%Z.
Proof.
  intros Hi F Hdel Hn Hok p.
  rewrite lambda_handler_load_more by reflexivity.
  destruct (page_of_serializable c (Z.to_nat limit) s (messages_table w) Hok)
    as [Hm Hk].
  assert (Hcur : py_or (get (load_more_frame (PStr c) (PInt limit) (start_of c s)) "cursor")
                   (get (load_more_frame (PStr c) (PInt limit) (start_of c s))
                      "lastEvaluatedKey") = start_of c s).
  { now destruct s. }
  destruct (load_more_delivers_page e cid
              (load_more_frame (PStr c) (PInt limit) (start_of c s)) w i p
              (log (Query (PStr c) (PInt limit) (cursor c <$> s))
                 (log (GetItem cid) w))
              (history_payload "message_history_batch" p (PStr c))
              Hi (F _)) as (r & Hrun & Hr).
  - rewrite Hcur.
    change (get_default (load_more_frame (PStr c) (PInt limit) (start_of c s))
              "channelId" (PStr "main")) with (PStr c).
    change (get_default (load_more_frame (PStr c) (PInt limit) (start_of c s))
              "limit" (PInt 50)) with (PInt limit).
    now rewrite (get_recent_messages_ok e c limit s _ Hn (F _)).
  - now apply json_dumps_history_payload.
  - apply Hdel.
  - exists r. split; [|exact Hr].
    unfold try_except. rewrite Hrun. unfold log; simpl.
    now rewrite <- !app_assoc.
Qed.

(** The router-level client collects the same pages as the loop over
    [get_recent_messages]. *)
Lemma fetch_all_load_all e cid i c limit tbl :
  (forall k, fault e k = false) ->
  (forall data, deliver e cid data = Delivered) ->
  (1 <= limit)%Z ->
  newest_first tbl ->
  forall fuel s w w0,
    connections_table w !! cid = Some i ->
    messages_table w = tbl -> messages_table w0 = tbl ->
    Forall presentable (remaining c s tbl) ->
    fetch_all fuel e cid (PStr c) (PInt limit) (start_of c s) w
    = load_all fuel e (PStr c) (PInt limit) (start_of c s) w0.
Proof.
  intros F Hdel Hn Hs fuel.
  induction fuel as [|fuel IH]; intros s w w0 Hi Hw Hw0 Hok; [reflexivity|].
  simpl.
  destruct (load_more_round e cid i c limit s w Hi F Hdel Hn) as (r & -> & _).
  { now rewrite Hw. }
  simpl.
  match goal with
  | |- context [list.last (?t ++ [?a; ?b; ?x])] =>
      change (t ++ [a; b; x])%list with (t ++ ([a; b] ++ [x]))%list;
      rewrite (app_assoc t [a; b] [x]), last_snoc
  end.
  rewrite batch_of_history_payload.
  rewrite (get_recent_messages_ok e c limit s w0 Hn (F _)), Hw, Hw0.
  f_equal.
  destruct (Nat.lt_ge_cases (length (remaining c s tbl)) (Z.to_nat limit))
    as [Hlt|Hge].
  - now rewrite (page_of_short _ _ _ _ Hlt).
  - destruct (page_of_full c (Z.to_nat limit) s tbl) as (x & t & Hx & Hk & ->);
      [lia|].
    simpl. apply (IH (Some t)); trivial.
    rewrite (remaining_after tbl c s (Z.to_nat limit - 1) x t Hs Hx Hk).
    now apply Forall_drop.
Qed.

(** C3, as the code has it.  A registered, reachable client pages through
    channel [c] with a positive limit; the calls are accepted and the stored
    messages serialize.  Starting from a cursor [s] (or from none) and
    resending each [lastEvaluatedKey] unchanged, it ends on a page whose
    [hasMore] is false after pages whose [hasMore] is true; every page has at
    most [limit] messages; the pages, laid end to end from the last fetched
    to the first, are exactly the history of the channel below the cursor in
    strictly increasing timestamp order, so each page is chronological,
    strictly older than the page before it, and nothing is repeated or left
    out.  [hasMore] is true exactly when the page is full; in particular it
    is true whenever the page leaves older messages unread. *)
Theorem paging_covers_history e cid i c limit s w :
  connections_table w !! cid = Some i ->
  (forall k, fault e k = false) ->
  (forall data, deliver e cid data = Delivered) ->
  (1 <= limit)%Z ->
  newest_first (messages_table w) ->
  Forall presentable (remaining c s (messages_table w)) ->
  let history := rev (map rendered (remaining c s (messages_table w))) in
  let pages :=
    fetch_all (S (length history)) e cid (PStr c) (PInt limit) (start_of c s) w in
  concat (rev (messages <$> pages)) = history
  /\ chronological history
  /\ Forall (fun p => length (messages p) <= Z.to_nat limit) pages
  /\ Forall (fun p => hasMore p = true <-> length (messages p) = Z.to_nat limit) pages
  /\ (exists front p,
        pages = (front ++ [p])%list /\ hasMore p = false
        /\ Forall (fun q => hasMore q = true) front)
  /\ (forall p, head pages = Some p ->
                length (messages p) < length history -> hasMore p = true).
Proof.
  intros Hi F Hdel Hn Hs Hok history pages. unfold pages.
  rewrite (fetch_all_load_all e cid i c limit (messages_table w) F Hdel Hn Hs
             (S (length history)) s w w Hi eq_refl eq_refl Hok).
  now apply load_all_covers.
Qed.

Lemma archive_newest_first : newest_first (messages_table archive).
Proof.
  unfold newest_first. simpl.
  repeat (constructor; [|repeat constructor]);
    try (intros c tx ty Hx Hy; vm_compute in Hx, Hy;
         inversion Hx; subst; inversion Hy; subst; reflexivity);
    try (intros c tx ty Hx Hy; vm_compute in Hx, Hy;
         inversion Hx; subst; inversion Hy).
  constructor.
Qed.

Lemma archive_presentable :
  Forall presentable (remaining "ops" None (messages_table archive)).
Proof. repeat constructor. Qed.

Lemma paging_covers_history_witness :
  (messages <$> fetch_all 4 calm "c1" (PStr "ops") (PInt 2) PNone archive)
  = [ [ rendered (note "2024-05-01T09:02:00" "two");
        rendered (note "2024-05-01T09:03:00" "three") ];
      [ rendered (note "2024-05-01T09:01:00" "one") ] ]
  /\ concat (rev (messages <$> fetch_all 4 calm "c1" (PStr "ops") (PInt 2) PNone
                                 archive))
     = [ rendered (note "2024-05-01T09:01:00" "one");
         rendered (note "2024-05-01T09:02:00" "two");
         rendered (note "2024-05-01T09:03:00" "three") ].
Proof.
  split; [vm_compute; reflexivity|].
  destruct (paging_covers_history calm "c1" (participant "u1" "main") "ops" 2
              None archive eq_refl (fun _ => eq_refl) (fun _ => eq_refl)
              ltac:(lia) archive_newest_first archive_presentable) as (H & _).
  exact H.
Defined.

(** C3, as the claim states it, fails on [hasMore]: with one message in the
    channel and a limit of one, the first page holds the whole history and
    still says [hasMore]; the call it prompts returns an empty page. *)
Lemma has_more_with_nothing_left :
  let w1 := (lambda_handler calm (Event "c1" (Decoded (PDict hello))) world0).2 in
  exists p,
    fetch_all 3 calm "c3" (PStr "main") (PInt 1) PNone w1 = [p; Page [] false PNone]
    /\ messages p = rev (map rendered (remaining "main" None (messages_table w1)))
    /\ length (messages p) = 1
    /\ hasMore p = true.
Proof.
  eexists. split; [vm_compute; reflexivity|].
  repeat split; vm_compute; reflexivity.
Qed.

(** * Further properties of the router *)

(** ** The primitives, whatever the services answer *)

Lemma get_connection_info_total e cid w :
  get_connection_info e cid w = (Ok (resolved e cid w), log (GetItem cid) w).
Proof.
  unfold get_connection_info, table_get_item, resolved. run.
  now destruct (fault e (GetItem cid)).
Qed.

Lemma update_total e cid sets w :
  try_except (table_update_item e cid sets) (fun _ => ret tt) w
  = (Ok tt, updated e cid sets w).
Proof.
  unfold table_update_item, updated. run.
  destruct (to_dynamo_item sets) as [s|]; simpl; [|reflexivity].
  now destruct (fault e (UpdateItem cid sets)).
Qed.

Lemma broadcast_to_channel_listed e channel message x w :
  broadcast_to_channel e channel message x w
  = (Ok tt, broadcast e channel message x w).
Proof.
  unfold broadcast_to_channel, broadcast. step.
  rewrite get_channel_connections_listed. apply broadcast_loop.
Qed.

Lemma updated_messages e cid sets w :
  messages_table (updated e cid sets w) = messages_table w.
Proof. unfold updated. now repeat case_match. Qed.

Lemma updated_trace e cid sets w :
  trace (updated e cid sets w) = (trace w ++ [UpdateItem cid sets])%list.
Proof. unfold updated. now repeat case_match. Qed.

Lemma updated_other e cid sets w k :
  k <> cid ->
  connections_table (updated e cid sets w) !! k = connections_table w !! k.
Proof.
  intros Hk. unfold updated. repeat case_match; simpl; trivial.
  now rewrite lookup_insert_ne.
Qed.

Lemma broadcast_messages e channel message x w :
  messages_table (broadcast e channel message x w) = messages_table w.
Proof. unfold broadcast. now autorewrite with frame. Qed.

Lemma broadcast_trace e channel message x w :
  trace (broadcast e channel message x w)
  = (trace w ++ Scan channel
       :: flat_map (notify_calls e message x) (listed e channel w).*1)%list.
Proof. unfold broadcast. autorewrite with frame. simpl. now rewrite <- app_assoc. Qed.

Lemma broadcast_connections e channel message x w k :
  connections_table (broadcast e channel message x w) !! k
  = if bool_decide (k ∈ (listed e channel w).*1) && reaped e message x k
    then None else connections_table w !! k.
Proof. unfold broadcast. now rewrite foldl_notify_connections. Qed.

Lemma reaped_excluded e message k : reaped e message (Some k) k = false.
Proof.
  unfold reaped. now rewrite (bool_decide_eq_true_2 (Some k = Some k)).
Qed.

(** ** Dispatch *)

Lemma lambda_handler_action e cid (d : pydict) w action :
  dict_get "action" d = Some (PStr action) ->
  lambda_handler e (Event cid (Decoded (PDict d))) w
  = try_except
      (if bool_decide (action = "message") then handle_message e cid d
       else if bool_decide (action = "join") then handle_join_channel e cid d
       else if bool_decide (action = "leave") then handle_leave_channel e cid d
       else if bool_decide (action = "typing") then handle_typing_indicator e cid d
       else if bool_decide (action = "ping") then handle_ping e cid
       else if bool_decide (action = "load_more_messages")
            then handle_load_more_messages e cid d
       else ret (unknown_action (PStr action)))
      (fun _ => ret processing_failure) w.
Proof.
  intros H. unfold lambda_handler. simpl.
  unfold try_except, bind at 1. simpl.
  now rewrite (get_default_present _ _ _ _ H).
Qed.

(** ** Keepalive *)

Lemma handle_ping_total e cid w :
  handle_ping e cid w
  = (match deliver e cid (pong e) with
     | Delivered => Ok pong_sent
     | Gone => Raise GoneException
     | Failed => Raise ClientError
     end,
     log (PostToConnection cid (pong e)) (updated e cid (ping_sets e) w)).
Proof.
  unfold handle_ping. step. fold (ping_sets e). rewrite update_total.
  step. simpl. unfold post_to_connection, bind, called. fold (pong e).
  now destruct (deliver e cid (pong e)).
Qed.

Lemma lambda_handler_ping e cid (d : pydict) w :
  dict_get "action" d = Some (PStr "ping") ->
  lambda_handler e (Event cid (Decoded (PDict d))) w
  = (Ok (match deliver e cid (pong e) with
         | Delivered => pong_sent
         | _ => processing_failure
         end),
     log (PostToConnection cid (pong e)) (updated e cid (ping_sets e) w)).
Proof.
  intros H. rewrite (lambda_handler_action _ _ _ _ _ H). simpl.
  unfold try_except. rewrite handle_ping_total.
  now destruct (deliver e cid (pong e)).
Qed.

(** X1: a ping stores no message and notifies nobody else.  Whatever the
    services answer, its only calls are the update of the sender's
    [lastActivity] and one pong posted to the sender; the messages table and
    every other record are untouched, and the sender's record is never
    removed, not even when the pong reports the sender gone (the answer is
    then the 500 response). *)
Theorem ping_touches_only_the_sender e cid (d : pydict) w :
  dict_get "action" d = Some (PStr "ping") ->
  exists w',
    lambda_handler e (Event cid (Decoded (PDict d))) w
    = (Ok (match deliver e cid (pong e) with
           | Delivered => pong_sent
           | _ => processing_failure
           end), w')
    /\ calls w w' = [UpdateItem cid (ping_sets e); PostToConnection cid (pong e)]
    /\ messages_table w' = messages_table w
    /\ (forall k, k <> cid -> connections_table w' !! k = connections_table w !! k)
    /\ (is_Some (connections_table w !! cid) ->
        is_Some (connections_table w' !! cid)).
Proof.
  intros H. eexists. split; [now apply lambda_handler_ping|].
  split; [|split; [|split]].
  - apply calls_app. simpl. now rewrite updated_trace, <- app_assoc.
  - simpl. apply updated_messages.
  - intros k Hk. simpl. now apply updated_other.
  - intros Hs. simpl. unfold updated. repeat case_match; simpl; trivial.
    rewrite lookup_insert_eq. eauto.
Qed.

Lemma ping_touches_only_the_sender_witness :
  exists w',
    lambda_handler deserted (Event "c1" (Decoded (PDict ping_frame))) world0
    = (Ok processing_failure, w')
    /\ messages_table w' = messages_table world0
    /\ is_Some (connections_table w' !! "c1").
Proof.
  destruct (ping_touches_only_the_sender deserted "c1" ping_frame world0 eq_refl)
    as (w' & Hrun & _ & Hm & _ & Hs).
  exists w'. split; [exact Hrun|]. split; [exact Hm|].
  apply Hs. eexists. reflexivity.
Defined.

Lemma apply_sets_channel (i : item) v :
  dict_get "channelId" (apply_sets [("lastActivity", v)] i)
  = dict_get "channelId" i.
Proof. unfold apply_sets. simpl. now apply dict_get_set_ne. Qed.

Lemma updated_ping_sender e cid w :
  connections_table (updated e cid (ping_sets e) w) !! cid
  = if fault e (UpdateItem cid (ping_sets e)) then connections_table w !! cid
    else Some (apply_sets [("lastActivity", AS (utcnow e 0))]
                 (default [] (connections_table w !! cid))).
Proof.
  unfold updated.
  change (to_dynamo_item (ping_sets e))
    with (Some [("lastActivity", AS (utcnow e 0))]).
  cbv iota beta. destruct (fault e _); [reflexivity|].
  apply lookup_insert_eq.
Qed.

(** X2: a ping never changes who is on which channel: for every channel the
    set of its members is the same after the ping as before, whether the
    update was accepted or not and whether the sender was registered or
    not. *)
Theorem ping_keeps_membership e cid (d : pydict) w a k :
  dict_get "action" d = Some (PStr "ping") ->
  let w' := (lambda_handler e (Event cid (Decoded (PDict d))) w).2 in
  k ∈ (members a w').*1 <-> k ∈ (members a w).*1.
Proof.
  intros H w'. unfold w'. rewrite (lambda_handler_ping _ _ _ _ H).
  rewrite !elem_of_members_fst.
  change (connections_table (_, log ?c ?x).2) with (connections_table x).
  destruct (decide (k = cid)) as [->|Hk].
  - rewrite updated_ping_sender.
    destruct (fault e _); [tauto|].
    split.
    + intros (j & Hj & Hc). injection Hj as <-.
      change (dict_set "lastActivity" (AS (utcnow e 0))
                (default [] (connections_table w !! cid)))
        with (apply_sets [("lastActivity", AS (utcnow e 0))]
                (default [] (connections_table w !! cid))) in Hc.
      rewrite apply_sets_channel in Hc.
      destruct (connections_table w !! cid) as [i|]; [eauto | discriminate].
    + intros (j & Hj & Hc). rewrite Hj. eexists. split; [reflexivity|].
      now rewrite apply_sets_channel.
  - now rewrite updated_other.
Qed.

Lemma ping_keeps_membership_witness :
  "c1" ∈ (members (AS "main")
            (lambda_handler calm (Event "c1" (Decoded (PDict ping_frame))) world0).2).*1
  <-> "c1" ∈ (members (AS "main") world0).*1.
Proof.
  exact (ping_keeps_membership calm "c1" ping_frame world0 (AS "main") "c1" eq_refl).
Defined.

(** X3: a ping from a connection the registry does not hold registers it.
    When the update is accepted the registry gains a record with nothing but
    [lastActivity]; a message frame without [channelId] sent next from that
    connection, in an invocation whose sender lookup is accepted, is no
    longer refused: it is built for channel ["main"] with sender
    ["unknown"] and role ["user"], and is acknowledged. *)
Theorem ping_registers_unknown_connection e1 e2 cid (dp dm : pydict) w :
  dict_get "action" dp = Some (PStr "ping") ->
  connections_table w !! cid = None ->
  fault e1 (UpdateItem cid (ping_sets e1)) = false ->
  get_default dm "action" (PStr "message") = PStr "message" ->
  dict_get "channelId" dm = None ->
  fault e2 (GetItem cid) = false ->
  let w1 := (lambda_handler e1 (Event cid (Decoded (PDict dp))) w).2 in
  connections_table w1 !! cid = Some [("lastActivity", AS (utcnow e1 0))]
  /\ exists w2 message rest,
       lambda_handler e2 (Event cid (Decoded (PDict dm))) w1
       = (Ok (message_sent e2), w2)
       /\ calls w1 w2
          = GetItem cid :: PutItem message :: Scan (PStr "main") :: rest
       /\ dict_get "channelId" message = Some (PStr "main")
       /\ dict_get "senderId" message = Some (PStr "unknown")
       /\ dict_get "senderEmail" message = Some (PStr "unknown")
       /\ dict_get "senderRole" message = Some (PStr "user").
Proof.
  intros Hp Habs Fu Hm Hnone Fg w1.
  assert (Hreg : connections_table w1 !! cid
                 = Some [("lastActivity", AS (utcnow e1 0))]).
  { unfold w1. rewrite (lambda_handler_ping _ _ _ _ Hp).
    change (connections_table (_, log ?c ?x).2) with (connections_table x).
    now rewrite updated_ping_sender, Fu, Habs. }
  split; [exact Hreg|].
  pose proof (handle_message_resolved e2 cid dm w1 _ Hreg Fg) as Hrun.
  cbv zeta in Hrun.
  set (message := new_message e2
                    (connection_item cid [("lastActivity", AS (utcnow e1 0))]) dm)
    in *.
  assert (Hc : get message "channelId" = PStr "main").
  { change (get message "channelId")
      with (get_default dm "channelId" (PStr "main")).
    now apply get_default_absent. }
  rewrite Hc in Hrun.
  eexists _, message, _. split.
  { rewrite (lambda_handler_message _ _ _ _ Hm). unfold try_except.
    now rewrite Hrun. }
  split.
  { apply calls_app. autorewrite with frame. simpl.
    rewrite <- !app_assoc. reflexivity. }
  split; [|repeat split].
  change (dict_get "channelId" message)
    with (Some (get_default dm "channelId" (PStr "main"))).
  f_equal. now apply get_default_absent.
Qed.

Lemma ping_registers_unknown_connection_witness :
  let w1 := (lambda_handler calm (Event "c9" (Decoded (PDict ping_frame))) world0).2 in
  connections_table w1 !! "c9" = Some [("lastActivity", AS (utcnow calm 0))]
  /\ exists w2,
       lambda_handler calm (Event "c9" (Decoded (PDict (say "hi")))) w1
       = (Ok (message_sent calm), w2).
Proof.
  destruct (ping_registers_unknown_connection calm calm "c9" ping_frame (say "hi")
              world0 eq_refl eq_refl eq_refl eq_refl eq_refl eq_refl)
    as (Hreg & w2 & m & rest & Hrun & _).
  split; [exact Hreg|]. now exists w2.
Defined.

(** ** Leaving and typing *)

Lemma handle_leave_channel_total e cid (d : pydict) w :
  let channel_id := get_default d "channelId" (PStr "main") in
  handle_leave_channel e cid d w
  = match resolved e cid w with
    | None => (Raise AttributeError, log (GetItem cid) w)
    | Some info =>
        (Ok (left channel_id),
         broadcast e channel_id (user_left info channel_id) (Some cid)
           (log (GetItem cid) w))
    end.
Proof.
  intros channel_id. unfold handle_leave_channel. fold channel_id.
  step. rewrite get_connection_info_total.
  destruct (resolved e cid w) as [info|]; [|reflexivity].
  step. simpl (attributes_of _ _). unfold ret at 1. cbv beta iota.
  step. fold (user_left info channel_id). rewrite broadcast_to_channel_listed.
  reflexivity.
Qed.

Lemma handle_typing_indicator_total e cid (d : pydict) w :
  let channel_id := get_default d "channelId" (PStr "main") in
  let is_typing := get_default d "isTyping" (PBool false) in
  handle_typing_indicator e cid d w
  = match resolved e cid w with
    | None => (Raise AttributeError, log (GetItem cid) w)
    | Some info =>
        (Ok typing_sent,
         broadcast e channel_id (typing info is_typing) (Some cid)
           (log (GetItem cid) w))
    end.
Proof.
  intros channel_id is_typing. unfold handle_typing_indicator.
  fold channel_id is_typing.
  step. rewrite get_connection_info_total.
  destruct (resolved e cid w) as [info|]; [|reflexivity].
  step. simpl (attributes_of _ _). unfold ret at 1. cbv beta iota.
  step. fold (typing info is_typing). rewrite broadcast_to_channel_listed.
  reflexivity.
Qed.

(** Who a broadcast posts to, when the scan is accepted and the notice
    serializes. *)
Lemma broadcast_recipients e channel a message data x w k p :
  to_dynamo channel = Some a ->
  fault e (Scan channel) = false ->
  json_dumps message = Some data ->
  PostToConnection k p ∈ calls w (broadcast e channel message x w)
  <-> p = data /\ Some k <> x /\ k ∈ (members a w).*1.
Proof.
  intros Ha F Hd.
  rewrite (calls_app _ _ _ (broadcast_trace e channel message x w)).
  unfold listed. rewrite Ha, F.
  rewrite elem_of_cons.
  assert (E : PostToConnection k p
                ∈ flat_map (notify_calls e message x) (members a w).*1
              <-> p = data /\ Some k <> x /\ k ∈ (members a w).*1).
  { generalize ((members a w).*1) as ids. intros ids.
    rewrite list_elem_of_In, in_flat_map. split.
    - intros (k' & Hin & Hp). rewrite (notify_calls_served _ _ _ _ _ Hd) in Hp.
      unfold served in Hp. apply list_elem_of_In in Hin.
      destruct (bool_decide (Some k' = x)) eqn:Ex; [inversion Hp|].
      apply bool_decide_eq_false in Ex.
      destruct Hp as [Hp|Hp].
      + inversion Hp; subst. auto.
      + destruct (gone_for e data k'); [|inversion Hp].
        destruct Hp as [Hp|[]]. discriminate.
    - intros (-> & Hx & Hin). exists k. split; [now apply list_elem_of_In|].
      rewrite (notify_calls_served _ _ _ _ _ Hd). unfold served.
      rewrite bool_decide_eq_false_2 by exact Hx. now left. }
  rewrite <- E. split; [intros [H|H]; [discriminate|exact H] | now right].
Qed.

(** X4: a leave changes nothing in the registry for the sender.  Whatever
    the services answer, the sender's record after a [leave] frame is the
    record before it, so the sender is still a member of every channel it was
    a member of; no message is stored.  The answer is the 200 response when
    the sender resolves and the 500 response otherwise. *)
Theorem leave_keeps_the_sender_registered e cid (d : pydict) w :
  dict_get "action" d = Some (PStr "leave") ->
  exists w',
    lambda_handler e (Event cid (Decoded (PDict d))) w
    = (Ok (match resolved e cid w with
           | Some _ => left (get_default d "channelId" (PStr "main"))
           | None => processing_failure
           end), w')
    /\ connections_table w' !! cid = connections_table w !! cid
    /\ messages_table w' = messages_table w
    /\ forall a, cid ∈ (members a w').*1 <-> cid ∈ (members a w).*1.
Proof.
  intros H. rewrite (lambda_handler_action _ _ _ _ _ H). simpl.
  unfold try_except. rewrite handle_leave_channel_total.
  assert (Hreg : forall info,
             connections_table
               (broadcast e (get_default d "channelId" (PStr "main"))
                  (user_left info (get_default d "channelId" (PStr "main")))
                  (Some cid) (log (GetItem cid) w)) !! cid
             = connections_table w !! cid).
  { intros info. rewrite broadcast_connections, reaped_excluded.
    now rewrite andb_false_r. }
  destruct (resolved e cid w) as [info|]; eexists; (split; [reflexivity|]).
  - split; [apply Hreg|]. split; [now rewrite broadcast_messages|].
    intros a. rewrite !elem_of_members_fst. now rewrite Hreg.
  - split; [reflexivity|]. split; [reflexivity|]. intros a. reflexivity.
Qed.

Lemma leave_keeps_the_sender_registered_witness :
  exists w',
    lambda_handler calm (Event "c1" (Decoded (PDict (leave_frame "main")))) world0
    = (Ok (left (PStr "main")), w')
    /\ "c1" ∈ (members (AS "main") w').*1.
Proof.
  destruct (leave_keeps_the_sender_registered calm "c1" (leave_frame "main") world0
              eq_refl) as (w' & Hrun & _ & _ & Hm).
  exists w'. split; [exact Hrun|].
  apply Hm. apply elem_of_members_fst. eexists. split; reflexivity.
Defined.

(** X5: the [user_left] notice goes to the channel the frame names (["main"]
    when it names none), which need not be the channel the sender is on.
    When the sender resolves, the scan is accepted and the notice
    serializes, it is posted once to every connection on that channel except
    the sender and to nobody else, and carries the sender's [userId] and
    [userEmail] as the registry holds them. *)
Theorem leave_notifies_the_named_channel e cid (d : pydict) w i a data :
  dict_get "action" d = Some (PStr "leave") ->
  connections_table w !! cid = Some i ->
  fault e (GetItem cid) = false ->
  let channel_id := get_default d "channelId" (PStr "main") in
  to_dynamo channel_id = Some a ->
  fault e (Scan channel_id) = false ->
  let notice := user_left (connection_item cid i) channel_id in
  json_dumps notice = Some data ->
  exists w',
    lambda_handler e (Event cid (Decoded (PDict d))) w = (Ok (left channel_id), w')
    /\ (forall k p,
          PostToConnection k p ∈ calls w w'
          <-> p = data /\ k <> cid
              /\ exists j, connections_table w !! k = Some j
                           /\ dict_get "channelId" j = Some a)
    /\ get (connection_item cid i) "userId"
       = default PNone (from_dynamo <$> dict_get "userId" i)
    /\ get (connection_item cid i) "userEmail"
       = default PNone (from_dynamo <$> dict_get "userEmail" i).
Proof.
  intros H Hi Fg channel_id Ha Fs notice Hd.
  rewrite (lambda_handler_action _ _ _ _ _ H). simpl.
  unfold try_except. rewrite handle_leave_channel_total.
  unfold resolved. rewrite Fg, Hi. simpl. fold channel_id. fold notice.
  eexists. split; [reflexivity|]. split.
  - intros k p.
    assert (E : calls w (broadcast e channel_id notice (Some cid) (log (GetItem cid) w))
                = (GetItem cid
                     :: calls (log (GetItem cid) w)
                          (broadcast e channel_id notice (Some cid)
                             (log (GetItem cid) w)))%list).
    { apply calls_app.
      rewrite (calls_app _ _ _ (broadcast_trace e channel_id notice (Some cid)
                                  (log (GetItem cid) w))).
      rewrite broadcast_trace. simpl. now rewrite <- app_assoc. }
    rewrite E, elem_of_cons.
    rewrite (broadcast_recipients e channel_id a notice data (Some cid)
               (log (GetItem cid) w) k p Ha Fs Hd).
    rewrite elem_of_members_fst. simpl.
    split.
    + intros [Hk|(-> & Hx & Hj)]; [discriminate|].
      split; trivial. split; [congruence | exact Hj].
    + intros (-> & Hx & Hj). right. split; trivial. split; [congruence|exact Hj].
  - unfold get, get_default.
    now rewrite !dict_get_connection_item by discriminate.
Qed.

Lemma leave_notifies_the_named_channel_witness :
  exists w',
    lambda_handler calm (Event "c2" (Decoded (PDict (leave_frame "main")))) world0
    = (Ok (left (PStr "main")), w')
    /\ recipients (calls world0 w') = ["c3"; "c1"].
Proof.
  destruct (leave_notifies_the_named_channel calm "c2" (leave_frame "main") world0
              (participant "u2" "ops") (AS "main")
              (user_left (connection_item "c2" (participant "u2" "ops")) (PStr "main"))
              eq_refl eq_refl eq_refl eq_refl eq_refl eq_refl)
    as (w' & Hrun & _).
  exists w'. split; [exact Hrun|].
  vm_compute in Hrun. now inversion Hrun.
Defined.

(** ** Every handler, whatever the services answer *)

Lemma try_except_caught (m : M response) w :
  try_except m (fun _ => ret processing_failure) w = caught (m w).
Proof. unfold try_except, caught. now destruct (m w) as [[r|x] w']. Qed.

Lemma is_str_true v s : is_str v s = true -> v = PStr s.
Proof.
  destruct v; simpl; try discriminate.
  intros H. apply bool_decide_eq_true in H. now subst.
Qed.

Lemma lambda_handler_dispatch e ev w :
  let cid := connectionId ev in
  lambda_handler e ev w = (Ok processing_failure, w)
  \/ exists d, frame_body ev = Decoded (PDict d) /\
       let a := get_default d "action" (PStr "message") in
       (recognized a = false /\ lambda_handler e ev w = (Ok (unknown_action a), w))
       \/ (a = PStr "message"
           /\ lambda_handler e ev w = caught (handle_message e cid d w))
       \/ (a = PStr "join"
           /\ lambda_handler e ev w = caught (handle_join_channel e cid d w))
       \/ (a = PStr "leave"
           /\ lambda_handler e ev w = caught (handle_leave_channel e cid d w))
       \/ (a = PStr "typing"
           /\ lambda_handler e ev w = caught (handle_typing_indicator e cid d w))
       \/ (a = PStr "ping"
           /\ lambda_handler e ev w = caught (handle_ping e cid w))
       \/ (a = PStr "load_more_messages"
           /\ lambda_handler e ev w = caught (handle_load_more_messages e cid d w)).
Proof.
  destruct ev as [cid [|v]]; [left; reflexivity|].
  destruct v as [| | | | | | |d]; try (left; reflexivity).
  right. exists d. split; [reflexivity|]. intros a.
  assert (E : lambda_handler e (Event cid (Decoded (PDict d))) w
              = try_except
                  (if is_str a "message" then handle_message e cid d
                   else if is_str a "join" then handle_join_channel e cid d
                   else if is_str a "leave" then handle_leave_channel e cid d
                   else if is_str a "typing" then handle_typing_indicator e cid d
                   else if is_str a "ping" then handle_ping e cid
                   else if is_str a "load_more_messages"
                        then handle_load_more_messages e cid d
                   else ret (unknown_action a))
                  (fun _ => ret processing_failure) w) by reflexivity.
  rewrite E, try_except_caught. simpl connectionId. unfold recognized.
  destruct (is_str a "message") eqn:E1;
    [right; left; split; [now apply is_str_true|reflexivity]|].
  destruct (is_str a "join") eqn:E2;
    [right; right; left; split; [now apply is_str_true|reflexivity]|].
  destruct (is_str a "leave") eqn:E3;
    [do 3 right; left; split; [now apply is_str_true|reflexivity]|].
  destruct (is_str a "typing") eqn:E4;
    [do 4 right; left; split; [now apply is_str_true|reflexivity]|].
  destruct (is_str a "ping") eqn:E5;
    [do 5 right; left; split; [now apply is_str_true|reflexivity]|].
  destruct (is_str a "load_more_messages") eqn:E6;
    [do 6 right; split; [now apply is_str_true|reflexivity]|].
  left. split; reflexivity.
Qed.

Lemma handle_message_total e cid body w :
  handle_message e cid body w
  = match resolved e cid w with
    | None => (Ok not_found, log (GetItem cid) w)
    | Some info =>
        let message := new_message e info body in
        let channel_id := get message "channelId" in
        let ids := (listed e channel_id w).*1 in
        (Ok (message_sent e),
         foldl (reap e)
           (World (connections_table w)
              (stored e message (messages_table w))
              (trace w ++ [GetItem cid; PutItem message; Scan channel_id]
                 ++ posted (broadcast_payload message) ids))
           (stale e (broadcast_payload message) ids))
    end.
Proof.
  unfold resolved. destruct (fault e (GetItem cid)) eqn:F.
  - unfold handle_message. step. rewrite get_connection_info_total.
    unfold resolved. now rewrite F.
  - destruct (connections_table w !! cid) as [i|] eqn:Hi; simpl.
    + now apply handle_message_resolved.
    + unfold handle_message. step. now rewrite get_connection_info_absent.
Qed.

Lemma send_direct_calls e cid payload w :
  try_except
    (data <- of_option TypeError (json_dumps payload) ;;
     post_to_connection e cid data)
    (fun _ => ret tt) w
  = (Ok tt, World (connections_table w) (messages_table w)
              (trace w ++ direct cid payload)).
Proof.
  unfold try_except, bind, of_option, post_to_connection, called, direct.
  destruct (json_dumps payload) as [data|]; simpl.
  - now destruct (deliver e cid data).
  - rewrite app_nil_r. now destruct w.
Qed.

Lemma handle_join_channel_total e cid (d : pydict) w :
  let channel_id := get_default d "channelId" (PStr "main") in
  let w0 := updated e cid (join_sets e channel_id) w in
  let w1 := log (GetItem cid) w0 in
  match resolved e cid w0 with
  | None => handle_join_channel e cid d w = (Raise AttributeError, w1)
  | Some info =>
      let w2 := broadcast e channel_id (user_joined info channel_id) (Some cid) w1 in
      exists p,
        get_recent_messages e channel_id (PInt 50) PNone w2
        = (Ok p, log (Query channel_id (PInt 50) None) w2)
        /\ handle_join_channel e cid d w
           = (Ok (joined channel_id),
              World (connections_table w2) (messages_table w2)
                (trace w2 ++ Query channel_id (PInt 50) None
                   :: direct cid (history_payload "message_history" p channel_id)))
  end.
Proof.
  intros channel_id w0 w1.
  unfold handle_join_channel. fold channel_id. fold (join_sets e channel_id).
  destruct (resolved e cid w0) as [info|] eqn:R.
  - cbv zeta.
    set (w2 := broadcast e channel_id (user_joined info channel_id) (Some cid) w1).
    destruct (get_recent_messages_total e channel_id (PInt 50) PNone w2) as (p & Hp).
    change (if truthy PNone then Some PNone else None) with (@None pyval) in Hp.
    exists p. split; [exact Hp|].
    step. rewrite update_total. fold w0.
    step. rewrite get_connection_info_total, R. fold w1.
    step. simpl (attributes_of _ _). unfold ret at 1. cbv beta iota.
    step. fold (user_joined info channel_id).
    rewrite broadcast_to_channel_listed. fold w2.
    step. rewrite Hp.
    step. rewrite send_direct_calls. unfold ret, joined. simpl.
    now rewrite <- app_assoc.
  - step. rewrite update_total. fold w0.
    step. rewrite get_connection_info_total, R. reflexivity.
Qed.

Lemma handle_load_more_messages_total e cid (d : pydict) w :
  let channel_id := get_default d "channelId" (PStr "main") in
  let limit := get_default d "limit" (PInt 50) in
  let key := py_or (get d "cursor") (get d "lastEvaluatedKey") in
  let start := if truthy key then Some key else None in
  match resolved e cid w with
  | None => handle_load_more_messages e cid d w = (Ok not_found, log (GetItem cid) w)
  | Some _ =>
      exists p,
        get_recent_messages e channel_id limit key (log (GetItem cid) w)
        = (Ok p, log (Query channel_id limit start) (log (GetItem cid) w))
        /\ let payload := history_payload "message_history_batch" p channel_id in
           handle_load_more_messages e cid d w
           = (Ok (match json_dumps payload with
                  | Some data =>
                      match deliver e cid data with
                      | Delivered => loaded (length (messages p))
                      | _ => load_failed
                      end
                  | None => load_failed
                  end),
              World (connections_table w) (messages_table w)
                (trace w ++ GetItem cid :: Query channel_id limit start
                   :: direct cid payload))
  end.
Proof.
  intros channel_id limit key start.
  unfold handle_load_more_messages. fold channel_id limit key.
  unfold resolved. destruct (fault e (GetItem cid)) eqn:F.
  - step. rewrite get_connection_info_total. unfold resolved. now rewrite F.
  - destruct (connections_table w !! cid) as [i|] eqn:Hi; simpl.
    + destruct (get_recent_messages_total e channel_id limit key (log (GetItem cid) w))
        as (p & Hp).
      exists p. split; [exact Hp|].
      step. rewrite (get_connection_info_present _ _ _ _ Hi F).
      change (negb (negb (bool_decide (connection_item cid i = [])))) with false.
      cbv iota.
      step. rewrite Hp.
      unfold try_except, bind, of_option, direct.
      destruct (json_dumps (history_payload "message_history_batch" p channel_id))
        as [data|]; simpl.
      * unfold post_to_connection, bind, called.
        destruct (deliver e cid data); simpl; unfold ret, loaded, load_failed, log;
          simpl; now rewrite <- !app_assoc.
      * unfold ret, load_failed, log. simpl. now rewrite <- !app_assoc.
    + step. now rewrite get_connection_info_absent.
Qed.

(** ** What an invocation does to the two tables *)

Lemma updated_registry e cid sets w k :
  connections_table (updated e cid sets w) !! k = connections_table w !! k
  \/ (k = cid
      /\ exists s, to_dynamo_item sets = Some s
           /\ connections_table (updated e cid sets w) !! k
              = Some (apply_sets s (default [] (connections_table w !! k)))).
Proof.
  unfold updated. destruct (to_dynamo_item sets) as [s|]; [|now left].
  destruct (fault e _); [now left|]. simpl.
  destruct (decide (k = cid)) as [->|Hk].
  - right. split; trivial. exists s. split; trivial. now rewrite lookup_insert_eq.
  - left. now rewrite lookup_insert_ne.
Qed.

Lemma broadcast_registry e channel message x w k :
  let w' := broadcast e channel message x w in
  connections_table w' !! k = connections_table w !! k
  \/ (Some k <> x /\ reaped_in e k w w').
Proof.
  intros w'.
  assert (Hc : connections_table w' !! k
               = if bool_decide (k ∈ (listed e channel w).*1) && reaped e message x k
                 then None else connections_table w !! k)
    by apply broadcast_connections.
  destruct (bool_decide (k ∈ (listed e channel w).*1)) eqn:Hin; [|now left].
  destruct (reaped e message x k) eqn:R; [|now left].
  right. simpl in Hc. unfold reaped in R. apply andb_true_iff in R as [Hx R].
  destruct (json_dumps message) as [data|] eqn:Hd; [|discriminate].
  destruct (deliver e k data) eqn:Hg; try discriminate.
  apply bool_decide_eq_true in Hin.
  apply negb_true_iff, bool_decide_eq_false in Hx.
  split; [exact Hx|].
  assert (Hn : forall c, c ∈ [PostToConnection k data; DeleteItem k]
                         -> c ∈ calls w w').
  { intros c Hcin. unfold w'.
    rewrite (calls_app _ _ _ (broadcast_trace e channel message x w)).
    right. apply list_elem_of_In, in_flat_map. exists k.
    split; [now apply list_elem_of_In|].
    unfold notify_calls. rewrite bool_decide_eq_false_2 by exact Hx.
    rewrite Hd, Hg. now apply list_elem_of_In. }
  split; [exact Hc|]. split.
  - apply Hn. right. left.
  - exists data. split; [apply Hn; left | exact Hg].
Qed.

Lemma fan_out_registry e w tbl pre payload ids k :
  let w' := foldl (reap e)
              (World (connections_table w) tbl
                 (trace w ++ pre ++ posted payload ids))
              (stale e payload ids) in
  connections_table w' !! k = connections_table w !! k \/ reaped_in e k w w'.
Proof.
  intros w'.
  assert (Hc : connections_table w' !! k
               = if bool_decide (k ∈ stale e payload ids)
                    && negb (fault e (DeleteItem k))
                 then None else connections_table w !! k)
    by (unfold w'; now rewrite foldl_reap_connections).
  assert (Ht : calls w w'
               = (pre ++ posted payload ids
                    ++ map DeleteItem (stale e payload ids))%list).
  { apply calls_app. unfold w'. rewrite foldl_reap_trace. simpl.
    now rewrite <- !app_assoc. }
  destruct (bool_decide (k ∈ stale e payload ids)) eqn:Hin; [|now left].
  destruct (fault e (DeleteItem k)); [now left|].
  right. simpl in Hc. apply bool_decide_eq_true in Hin.
  split; [exact Hc|]. rewrite Ht. split.
  - rewrite !elem_of_app. right. right.
    apply list_elem_of_In, in_map, list_elem_of_In, Hin.
  - unfold stale in Hin. unfold posted.
    destruct (json_dumps payload) as [data|]; [|inversion Hin].
    apply list_elem_of_In, filter_In in Hin as [Hin Hg].
    exists data. split.
    + rewrite !elem_of_app. right. left.
      apply list_elem_of_In, (in_map (fun k => PostToConnection k data)), Hin.
    + unfold gone_for in Hg. now destruct (deliver e k data).
Qed.

(** X6: the messages table is written by message frames only.  Whatever the
    frame and whatever the services answer, an invocation leaves the
    messages table as it was, unless the frame is a message frame (its
    [action] is ["message"] or absent) from a sender that resolves: then the
    only change is the put of the one record built from the frame, which
    replaces at most the record of the same channel and timestamp. *)
Theorem only_messages_are_stored e ev w :
  let w' := (lambda_handler e ev w).2 in
  messages_table w' = messages_table w
  \/ exists (d info : pydict) m c,
       frame_body ev = Decoded (PDict d)
       /\ get_default d "action" (PStr "message") = PStr "message"
       /\ resolved e (connectionId ev) w = Some info
       /\ to_dynamo_item (new_message e info d) = Some m
       /\ message_key m = Some (c, utcnow e 0)
       /\ messages_table w' = store_put c (utcnow e 0) m (messages_table w).
Proof.
  intros w'. unfold w'.
  destruct (lambda_handler_dispatch e ev w) as [->|(d & Hd & H)]; [now left|].
  set (cid := connectionId ev) in *.
  destruct H as [[_ ->]|[[Ha ->]|[[_ ->]|[[_ ->]|[[_ ->]|[[_ ->]|[_ ->]]]]]]].
  - now left.
  - rewrite handle_message_total.
    destruct (resolved e cid w) as [info|] eqn:R; [|now left].
    simpl. rewrite foldl_reap_messages. simpl. unfold stored.
    destruct (to_dynamo_item (new_message e info d)) as [m|] eqn:Hm; [|now left].
    destruct (message_key m) as [[c t]|] eqn:Hk; [|now left].
    destruct (fault e _); [now left|].
    right. exists d, info, m, c. repeat (split; trivial).
    + rewrite Hk. f_equal. f_equal.
      unfold message_key in Hk.
      rewrite (to_dynamo_item_get _ _ "timestamp" Hm) in Hk.
      change (dict_get "timestamp" (new_message e info d))
        with (Some (PStr (utcnow e 0))) in Hk.
      simpl in Hk. destruct (dict_get "channelId" m) as [[]|]; congruence.
    + f_equal. unfold message_key in Hk.
      rewrite (to_dynamo_item_get _ _ "timestamp" Hm) in Hk.
      change (dict_get "timestamp" (new_message e info d))
        with (Some (PStr (utcnow e 0))) in Hk.
      simpl in Hk. destruct (dict_get "channelId" m) as [[]|]; congruence.
  - left. pose proof (handle_join_channel_total e cid d w) as H. cbv zeta in H.
    destruct (resolved e cid _) as [info|].
    + destruct H as (p & _ & ->). unfold caught, snd, messages_table at 1.
      rewrite broadcast_messages. apply updated_messages.
    + rewrite H. unfold caught, snd, log, messages_table at 1.
      apply updated_messages.
  - left. rewrite handle_leave_channel_total.
    destruct (resolved e cid w); simpl; [|reflexivity].
    now rewrite broadcast_messages.
  - left. rewrite handle_typing_indicator_total.
    destruct (resolved e cid w); simpl; [|reflexivity].
    now rewrite broadcast_messages.
  - left. rewrite handle_ping_total.
    destruct (deliver e cid (pong e)); simpl; apply updated_messages.
  - left. pose proof (handle_load_more_messages_total e cid d w) as H.
    cbv zeta in H.
    destruct (resolved e cid w).
    + destruct H as (p & _ & ->). reflexivity.
    + now rewrite H.
Qed.

Lemma calls_widen w w1 w2 w' l1 l l2 c :
  trace w1 = (trace w ++ l1)%list ->
  trace w2 = (trace w1 ++ l)%list ->
  trace w' = (trace w2 ++ l2)%list ->
  c ∈ calls w1 w2 -> c ∈ calls w w'.
Proof.
  intros H1 H2 H3. rewrite (calls_app w1 w2 l H2).
  rewrite (calls_app w w' (l1 ++ l ++ l2)).
  - rewrite !elem_of_app. auto.
  - rewrite H3, H2, H1. now rewrite <- !app_assoc.
Qed.

Lemma reaped_in_widen e k w w1 w2 w' l1 l l2 :
  trace w1 = (trace w ++ l1)%list ->
  trace w2 = (trace w1 ++ l)%list ->
  trace w' = (trace w2 ++ l2)%list ->
  connections_table w' !! k = connections_table w2 !! k ->
  reaped_in e k w1 w2 -> reaped_in e k w w'.
Proof.
  intros H1 H2 H3 Hc (Hn & Hd & data & Hp & Hg).
  split; [congruence|]. split; [now apply (calls_widen w w1 w2 w' l1 l l2)|].
  exists data. split; [now apply (calls_widen w w1 w2 w' l1 l l2)|exact Hg].
Qed.

Lemma notice_registry e cid channel message w k :
  let w' := broadcast e channel message (Some cid) (log (GetItem cid) w) in
  connections_table w' !! k = connections_table w !! k \/ reaped_in e k w w'.
Proof.
  intros w'.
  destruct (broadcast_registry e channel message (Some cid) (log (GetItem cid) w) k)
    as [H|[_ H]]; [now left|right].
  apply (reaped_in_widen e k w (log (GetItem cid) w) w' w' [GetItem cid]
           (Scan channel :: flat_map (notify_calls e message (Some cid))
                              (listed e channel (log (GetItem cid) w)).*1) []);
    trivial.
  - apply broadcast_trace.
  - now rewrite app_nil_r.
Qed.

(** X7: what an invocation may do to a record of the registry.  Whatever the
    frame and whatever the services answer, the record of a connection after
    the invocation is the record before it, with two exceptions: the record
    was deleted after a post to that connection reported it gone, or the
    connection is the sender and its record was written by the
    [update_item] of a join or a ping.  No invocation writes the record of
    another connection, and none deletes a record it has not posted to. *)
Theorem records_change_by_update_or_reaping e ev w k :
  let w' := (lambda_handler e ev w).2 in
  connections_table w' !! k = connections_table w !! k
  \/ reaped_in e k w w'
  \/ (k = connectionId ev /\ updated_in k w w').
Proof.
  intros w'. unfold w'. clear w'.
  destruct (lambda_handler_dispatch e ev w) as [->|(d & Hd & H)]; [now left|].
  set (cid := connectionId ev) in *.
  destruct H as [[_ ->]|[[Ha ->]|[[_ ->]|[[_ ->]|[[_ ->]|[[_ ->]|[_ ->]]]]]]].
  - now left.
  - rewrite handle_message_total.
    destruct (resolved e cid w) as [info|]; [|now left].
    set (message := new_message e info d).
    destruct (fan_out_registry e w (stored e message (messages_table w))
                [GetItem cid; PutItem message; Scan (get message "channelId")]
                (broadcast_payload message)
                (listed e (get message "channelId") w).*1 k) as [H|H];
      [left|right; left]; exact H.
  - pose proof (handle_join_channel_total e cid d w) as H. cbv zeta in H.
    set (channel_id := get_default d "channelId" (PStr "main")) in *.
    set (w0 := updated e cid (join_sets e channel_id) w) in *.
    assert (Hu : forall w', connections_table w' !! k = connections_table w0 !! k ->
                   (exists l, trace w' = (trace w0 ++ l)%list) ->
                   connections_table w' !! k = connections_table w !! k
                   \/ reaped_in e k w w'
                   \/ (k = cid /\ updated_in k w w')).
    { intros w' Hc (l & Ht).
      destruct (updated_registry e cid (join_sets e channel_id) w k)
        as [Hk|(-> & s & Hs & Hk)]; fold w0 in Hk.
      - left. congruence.
      - right. right. split; trivial.
        exists (join_sets e channel_id), s. split; [|split; [exact Hs|congruence]].
        rewrite (calls_app w w' (UpdateItem cid (join_sets e channel_id) :: l)).
        + left.
        + rewrite Ht. unfold w0. rewrite updated_trace. now rewrite <- app_assoc. }
    destruct (resolved e cid w0) as [info|].
    + destruct H as (p & _ & ->).
      set (notice := user_joined info channel_id).
      set (w2 := broadcast e channel_id notice (Some cid) (log (GetItem cid) w0)).
      set (tail := (Query channel_id (PInt 50) None
                      :: direct cid (history_payload "message_history" p channel_id))).
      assert (Ht2 : trace w2
                    = (trace (log (GetItem cid) w0)
                         ++ Scan channel_id
                              :: flat_map (notify_calls e notice (Some cid))
                                   (listed e channel_id (log (GetItem cid) w0)).*1)%list)
        by apply broadcast_trace.
      destruct (broadcast_registry e channel_id notice (Some cid)
                  (log (GetItem cid) w0) k) as [Hk|[Hx Hk]]; fold w2 in Hk.
      * apply Hu; [exact Hk|].
        eexists. simpl. rewrite Ht2. simpl. rewrite <- !app_assoc. reflexivity.
      * right. left.
        apply (reaped_in_widen e k w (log (GetItem cid) w0) w2
                 (World (connections_table w2) (messages_table w2)
                    (trace w2 ++ tail))
                 [UpdateItem cid (join_sets e channel_id); GetItem cid]
                 (Scan channel_id
                    :: flat_map (notify_calls e notice (Some cid))
                         (listed e channel_id (log (GetItem cid) w0)).*1)
                 tail); [|exact Ht2|reflexivity|reflexivity|exact Hk].
        change (trace (log (GetItem cid) w0)) with (trace w0 ++ [GetItem cid])%list.
        unfold w0. rewrite updated_trace. now rewrite <- app_assoc.
    + rewrite H. apply Hu; [reflexivity|]. now exists [GetItem cid].
  - rewrite handle_leave_channel_total.
    destruct (resolved e cid w) as [info|]; [|now left].
    destruct (notice_registry e cid (get_default d "channelId" (PStr "main"))
                (user_left info (get_default d "channelId" (PStr "main"))) w k)
      as [H|H]; [left|right; left]; exact H.
  - rewrite handle_typing_indicator_total.
    destruct (resolved e cid w) as [info|]; [|now left].
    destruct (notice_registry e cid (get_default d "channelId" (PStr "main"))
                (typing info (get_default d "isTyping" (PBool false))) w k)
      as [H|H]; [left|right; left]; exact H.
  - rewrite handle_ping_total.
    assert (Hp : connections_table
                   (log (PostToConnection cid (pong e))
                      (updated e cid (ping_sets e) w)) !! k
                 = connections_table w !! k
                 \/ (k = cid
                     /\ updated_in k w
                          (log (PostToConnection cid (pong e))
                             (updated e cid (ping_sets e) w)))).
    { destruct (updated_registry e cid (ping_sets e) w k)
        as [Hk|(-> & s & Hs & Hk)]; [now left|right].
      split; trivial. exists (ping_sets e), s.
      split; [|split; [exact Hs|exact Hk]].
      rewrite (calls_app w _ [UpdateItem cid (ping_sets e);
                              PostToConnection cid (pong e)]).
      - left.
      - simpl. rewrite updated_trace. now rewrite <- app_assoc. }
    destruct (deliver e cid (pong e)); (destruct Hp as [Hp|Hp]; [left|right; right]);
      exact Hp.
  - left. pose proof (handle_load_more_messages_total e cid d w) as H.
    cbv zeta in H. destruct (resolved e cid w).
    + destruct H as (p & _ & ->). reflexivity.
    + now rewrite H.
Qed.

(** X8: every frame is answered, and a refusal has changed nothing.
    Whatever the frame and whatever the services answer, the handler
    returns a response and its status is 200, 400, 401 or 500.  A 400 is
    given only for a decoded object whose action is none of the six known
    ones, and then no call was made; a 401 only after the sender lookup gave
    nothing, and then that lookup was the only call; and after a 500 the
    messages table is as it was. *)
Theorem every_frame_is_answered e ev w :
  exists r w',
    lambda_handler e ev w = (Ok r, w')
    /\ (statusCode r = 200%Z
        \/ (statusCode r = 400%Z /\ w' = w
            /\ exists d, frame_body ev = Decoded (PDict d)
                 /\ recognized (get_default d "action" (PStr "message")) = false)
        \/ (statusCode r = 401%Z /\ w' = log (GetItem (connectionId ev)) w
            /\ resolved e (connectionId ev) w = None)
        \/ (statusCode r = 500%Z /\ messages_table w' = messages_table w)).
Proof.
  destruct (lambda_handler_dispatch e ev w) as [->|(d & Hd & H)].
  { eexists _, _. split; [reflexivity|]. do 3 right. now split. }
  set (cid := connectionId ev) in *.
  destruct H as [[Hr ->]|[[Ha ->]|[[_ ->]|[[_ ->]|[[_ ->]|[[_ ->]|[_ ->]]]]]]].
  - eexists _, _. split; [reflexivity|]. right. left.
    split; [reflexivity|]. split; [reflexivity|]. now exists d.
  - rewrite handle_message_total.
    destruct (resolved e cid w) as [info|]; eexists _, _; (split; [reflexivity|]).
    + now left.
    + do 2 right. left. now repeat split.
  - pose proof (handle_join_channel_total e cid d w) as H. cbv zeta in H.
    destruct (resolved e cid _) as [info|].
    + destruct H as (p & _ & ->). eexists _, _. split; [reflexivity|]. now left.
    + rewrite H. eexists _, _. split; [reflexivity|]. do 3 right.
      split; [reflexivity|]. apply updated_messages.
  - rewrite handle_leave_channel_total.
    destruct (resolved e cid w) as [info|]; eexists _, _; (split; [reflexivity|]).
    + now left.
    + do 3 right. now split.
  - rewrite handle_typing_indicator_total.
    destruct (resolved e cid w) as [info|]; eexists _, _; (split; [reflexivity|]).
    + now left.
    + do 3 right. now split.
  - rewrite handle_ping_total.
    destruct (deliver e cid (pong e)); eexists _, _; (split; [reflexivity|]).
    + now left.
    + do 3 right. split; [reflexivity|]. apply updated_messages.
    + do 3 right. split; [reflexivity|]. apply updated_messages.
  - pose proof (handle_load_more_messages_total e cid d w) as H. cbv zeta in H.
    destruct (resolved e cid w) as [info|].
    + destruct H as (p & _ & ->). eexists _, _. split; [reflexivity|].
      destruct (json_dumps _) as [data|]; [destruct (deliver e cid data)|];
        (now left) || (do 3 right; now split).
    + rewrite H. eexists _, _. split; [reflexivity|].
      do 2 right. left. now repeat split.
Qed.

(** X9: a leave or typing frame from a connection the registry does not
    resolve is answered with the generic 500 response, not with the 401 a
    message frame gets: the sender lookup is the only call, nothing is
    posted and both tables stay as they were. *)
Theorem notice_from_unknown_sender_fails e cid (d : pydict) w action :
  dict_get "action" d = Some (PStr action) ->
  action = "leave" \/ action = "typing" ->
  connections_table w !! cid = None ->
  lambda_handler e (Event cid (Decoded (PDict d))) w
  = (Ok processing_failure, log (GetItem cid) w).
Proof.
  intros H Ha Hn. rewrite (lambda_handler_action _ _ _ _ _ H).
  assert (R : resolved e cid w = None).
  { unfold resolved. rewrite Hn. now destruct (fault e _). }
  rewrite try_except_caught.
  destruct Ha as [-> | ->]; simpl.
  - now rewrite handle_leave_channel_total, R.
  - now rewrite handle_typing_indicator_total, R.
Qed.

Lemma notice_from_unknown_sender_fails_witness :
  lambda_handler calm (Event "c9" (Decoded (PDict typing_main))) world0
  = (Ok processing_failure, log (GetItem "c9") world0).
Proof.
  apply (notice_from_unknown_sender_fails calm "c9" typing_main world0 "typing");
    [reflexivity | now right | reflexivity].
Defined.

(** ** Notices and history *)

Lemma notice_recipients e cid channel a notice data w k p :
  to_dynamo channel = Some a ->
  fault e (Scan channel) = false ->
  json_dumps notice = Some data ->
  let w1 := log (GetItem cid) w in
  PostToConnection k p ∈ calls w1 (broadcast e channel notice (Some cid) w1)
  <-> p = data /\ k <> cid
      /\ exists j, connections_table w !! k = Some j
                   /\ dict_get "channelId" j = Some a.
Proof.
  intros Ha Fs Hd w1.
  rewrite (broadcast_recipients e channel a notice data (Some cid) w1 k p Ha Fs Hd).
  rewrite elem_of_members_fst. simpl.
  split.
  - intros (-> & Hx & Hj). split; trivial. split; [congruence|exact Hj].
  - intros (-> & Hx & Hj). split; trivial. split; [congruence|exact Hj].
Qed.

(** X10: a typing notice goes to the channel the frame names (["main"] when
    it names none), whatever channel the sender is on, and carries the
    frame's [isTyping] ([False] when absent).  When the sender resolves, the
    scan is accepted and the notice serializes, it is posted to every
    connection on that channel except the sender and to nobody else, and no
    message is stored. *)
Theorem typing_notifies_the_named_channel e cid (d : pydict) w i a data :
  dict_get "action" d = Some (PStr "typing") ->
  connections_table w !! cid = Some i ->
  fault e (GetItem cid) = false ->
  let channel_id := get_default d "channelId" (PStr "main") in
  to_dynamo channel_id = Some a ->
  fault e (Scan channel_id) = false ->
  let notice :=
    typing (connection_item cid i) (get_default d "isTyping" (PBool false)) in
  json_dumps notice = Some data ->
  exists w',
    lambda_handler e (Event cid (Decoded (PDict d))) w = (Ok typing_sent, w')
    /\ (forall k p,
          PostToConnection k p ∈ calls w w'
          <-> p = data /\ k <> cid
              /\ exists j, connections_table w !! k = Some j
                           /\ dict_get "channelId" j = Some a)
    /\ messages_table w' = messages_table w.
Proof.
  intros H Hi Fg channel_id Ha Fs notice Hd.
  rewrite (lambda_handler_action _ _ _ _ _ H). simpl.
  rewrite try_except_caught, handle_typing_indicator_total.
  unfold resolved. rewrite Fg, Hi. simpl fmap. fold channel_id. fold notice.
  unfold caught. eexists. split; [reflexivity|]. split.
  - intros k p.
    rewrite <- (notice_recipients e cid channel_id a notice data w k p Ha Fs Hd).
    cbv zeta.
    rewrite (calls_app _ _ _ (broadcast_trace e channel_id notice (Some cid)
                                (log (GetItem cid) w))).
    rewrite (calls_app w _ (GetItem cid :: Scan channel_id
                              :: flat_map (notify_calls e notice (Some cid))
                                   (listed e channel_id (log (GetItem cid) w)).*1)).
    + rewrite (elem_of_cons _ _ (GetItem cid)). split; [|now right].
      intros [Hk|Hk]; [discriminate|exact Hk].
    + rewrite broadcast_trace. simpl. now rewrite <- app_assoc.
  - now rewrite broadcast_messages.
Qed.

Lemma typing_notifies_the_named_channel_witness :
  exists w',
    lambda_handler calm (Event "c2" (Decoded (PDict typing_main))) world0
    = (Ok typing_sent, w')
    /\ (PostToConnection "c1" typing_notice ∈ calls world0 w')
    /\ ~ PostToConnection "c2" typing_notice ∈ calls world0 w'.
Proof.
  destruct (typing_notifies_the_named_channel calm "c2" typing_main world0
              (participant "u2" "ops") (AS "main") typing_notice
              eq_refl eq_refl eq_refl eq_refl eq_refl eq_refl)
    as (w' & Hrun & Hp & _).
  exists w'. split; [exact Hrun|]. split.
  - apply Hp. split; [reflexivity|]. split; [discriminate|].
    exists (participant "u1" "main"). split; reflexivity.
  - intros Hin. apply Hp in Hin as (_ & Hne & _). now apply Hne.
Defined.

Lemma updated_join_sender e cid c w :
  fault e (UpdateItem cid (join_sets e (PStr c))) = false ->
  connections_table (updated e cid (join_sets e (PStr c)) w) !! cid
  = Some (joined_record e (AS c) (connections_table w !! cid)).
Proof.
  intros F. unfold updated.
  change (to_dynamo_item (join_sets e (PStr c)))
    with (Some [("channelId", AS c); ("lastActivity", AS (utcnow e 0))]).
  cbv iota beta. rewrite F.
  change (connections_table (set_connections ?t _)) with t.
  apply lookup_insert_eq.
Qed.

(** X11: who hears of a join, and what the joiner receives.  For a join of
    channel [c] in which every call is accepted: when the [user_joined]
    notice and the history payload serialize, the notice is posted to every
    connection that was on [c] before the join except the joiner, the
    [message_history] payload (the newest 50 messages of [c] at most) is
    posted to the joiner, and nothing else is posted; the history is the
    last call of the invocation. *)
Theorem join_notifies_members_and_sends_history e cid (d : pydict) w c data hist :
  dict_get "action" d = Some (PStr "join") ->
  get_default d "channelId" (PStr "main") = PStr c ->
  (forall k, fault e k = false) ->
  let info :=
    connection_item cid (joined_record e (AS c) (connections_table w !! cid)) in
  json_dumps (user_joined info (PStr c)) = Some data ->
  let p := page_of c 50 None (messages_table w) in
  json_dumps (history_payload "message_history" p (PStr c)) = Some hist ->
  exists w',
    lambda_handler e (Event cid (Decoded (PDict d))) w = (Ok (joined (PStr c)), w')
    /\ (forall k q,
          PostToConnection k q ∈ calls w w'
          <-> (k = cid /\ q = hist)
              \/ (k <> cid /\ q = data
                  /\ exists j, connections_table w !! k = Some j
                               /\ dict_get "channelId" j = Some (AS c)))
    /\ list.last (calls w w') = Some (PostToConnection cid hist)
    /\ length (messages p) <= 50.
Proof.
  intros H Hc F info Hd p Hh.
  rewrite (lambda_handler_action _ _ _ _ _ H). simpl.
  rewrite try_except_caught.
  pose proof (handle_join_channel_total e cid d w) as T. cbv zeta in T.
  rewrite Hc in T.
  set (w0 := updated e cid (join_sets e (PStr c)) w) in *.
  assert (R : resolved e cid w0 = Some info).
  { unfold resolved. rewrite F. unfold w0. now rewrite updated_join_sender by apply F. }
  rewrite R in T. destruct T as (p' & Hp' & ->).
  set (w1 := log (GetItem cid) w0) in *.
  set (notice := user_joined info (PStr c)) in *.
  set (w2 := broadcast e (PStr c) notice (Some cid) w1) in *.
  assert (Hm : messages_table w2 = messages_table w).
  { unfold w2. rewrite broadcast_messages. apply updated_messages. }
  assert (Ep : p' = p).
  { pose proof (get_recent_messages_ok e c 50 None w2 ltac:(lia) (F _)) as G.
    change (start_of c None) with PNone in G. rewrite G in Hp'.
    injection Hp' as <-. unfold p. now rewrite Hm. }
  subst p'. unfold direct. rewrite Hh. unfold caught.
  set (posts := flat_map (notify_calls e notice (Some cid)) (listed e (PStr c) w1).*1).
  assert (Ht2 : trace w2 = (trace w1 ++ Scan (PStr c) :: posts)%list)
    by apply broadcast_trace.
  assert (Hcalls : calls w (World (connections_table w2) (messages_table w2)
                              (trace w2 ++ [Query (PStr c) (PInt 50) None;
                                            PostToConnection cid hist]))
                   = ([UpdateItem cid (join_sets e (PStr c)); GetItem cid]
                        ++ (Scan (PStr c) :: posts)
                        ++ [Query (PStr c) (PInt 50) None]
                        ++ [PostToConnection cid hist])%list).
  { apply calls_app. simpl. rewrite Ht2.
    change (trace w1) with (trace w0 ++ [GetItem cid])%list.
    unfold w0. rewrite updated_trace. now rewrite <- !app_assoc. }
  eexists. split; [reflexivity|]. split; [|split].
  - intros k q. rewrite Hcalls.
    assert (Hn : PostToConnection k q ∈ (Scan (PStr c) :: posts)
                 <-> q = data /\ k <> cid
                     /\ exists j, connections_table w !! k = Some j
                                  /\ dict_get "channelId" j = Some (AS c)).
    { rewrite <- (calls_app w1 w2 _ Ht2). unfold w2, w1.
      rewrite (notice_recipients e cid (PStr c) (AS c) notice data w0 k q
                 eq_refl (F _) Hd).
      split; intros (-> & Hk & j & Hj & Hch); (split; [reflexivity|]);
        (split; [exact Hk|]); exists j; (split; [|exact Hch]).
      - unfold w0 in Hj. now rewrite updated_other in Hj.
      - unfold w0. now rewrite updated_other. }
    rewrite !elem_of_app, Hn, !list_elem_of_singleton. split.
    + intros [Hk|[Hk|[Hk|Hk]]].
      * apply elem_of_cons in Hk as [Hk|Hk]; [discriminate|].
        apply list_elem_of_singleton in Hk. discriminate.
      * right. tauto.
      * discriminate.
      * left. now inversion Hk.
    + intros [[-> ->]|Hk]; [now do 3 right|right; left; tauto].
  - rewrite Hcalls. rewrite !app_assoc. apply last_snoc.
  - unfold p, page_of. simpl. rewrite length_rev, !length_map, length_take. lia.
Qed.

Lemma join_notifies_members_and_sends_history_witness :
  exists w',
    lambda_handler calm (Event "c2" (Decoded (PDict join_main))) world0
    = (Ok (joined (PStr "main")), w')
    /\ recipients (calls world0 w') = ["c3"; "c1"; "c2"].
Proof.
  destruct (join_notifies_members_and_sends_history calm "c2" join_main world0 "main"
              (user_joined
                 (connection_item "c2"
                    (joined_record calm (AS "main") (Some (participant "u2" "ops"))))
                 (PStr "main"))
              (history_payload "message_history" (page_of "main" 50 None [])
                 (PStr "main"))
              eq_refl eq_refl (fun _ => eq_refl) eq_refl eq_refl)
    as (w' & Hrun & _).
  exists w'. split; [exact Hrun|].
  vm_compute in Hrun. now inversion Hrun.
Defined.

Lemma get_recent_messages_rejected e channel limit key w :
  let start := if truthy key then Some key else None in
  valid_limit limit = false \/ fault e (Query channel limit start) = true ->
  get_recent_messages e channel limit key w
  = (Ok no_history, log (Query channel limit start) w).
Proof.
  intros start Hr.
  unfold get_recent_messages, try_except, table_query. fold start.
  step. step. unfold called. step.
  destruct channel; simpl; try reflexivity.
  step.
  destruct limit; simpl; try reflexivity.
  destruct (1 <=? n)%Z eqn:Hn; simpl; try reflexivity.
  destruct Hr as [Hr|Hr]; [simpl in Hr; congruence|].
  step.
  destruct start as [k|]; simpl.
  - unfold bind, of_option.
    destruct (exclusive_start_key s k); simpl; try reflexivity.
    now rewrite Hr.
  - now rewrite Hr.
Qed.

(** X12: a query that fails reads as an empty history.  When a registered
    connection, whose lookup is accepted and which is reachable, asks for
    more messages of a channel that serializes and the query is rejected,
    because the frame's [limit] is not an integer of at least one or because
    the store refuses the call, the client is sent a batch with no message,
    [hasMore] false and no key, and the answer is the 200 response
    ["Loaded 0 messages"]: nothing tells the failure from the end of the
    history. *)
Theorem rejected_query_reads_as_empty_history e cid (d : pydict) w i :
  dict_get "action" d = Some (PStr "load_more_messages") ->
  connections_table w !! cid = Some i ->
  fault e (GetItem cid) = false ->
  let channel_id := get_default d "channelId" (PStr "main") in
  let limit := get_default d "limit" (PInt 50) in
  let key := py_or (get d "cursor") (get d "lastEvaluatedKey") in
  let start := if truthy key then Some key else None in
  valid_limit limit = false \/ fault e (Query channel_id limit start) = true ->
  json_serializable channel_id = true ->
  let reply := history_payload "message_history_batch" no_history channel_id in
  deliver e cid reply = Delivered ->
  lambda_handler e (Event cid (Decoded (PDict d))) w
  = (Ok (loaded 0),
     World (connections_table w) (messages_table w)
       (trace w ++ [ GetItem cid; Query channel_id limit start;
                     PostToConnection cid reply ])).
Proof.
  intros H Hi Fg channel_id limit key start Hr Hs reply Hdel.
  rewrite (lambda_handler_action _ _ _ _ _ H). simpl.
  rewrite try_except_caught.
  pose proof (handle_load_more_messages_total e cid d w) as T. cbv zeta in T.
  fold channel_id limit key start in T.
  unfold resolved in T. rewrite Fg, Hi in T. simpl fmap in T.
  destruct T as (p & Hp & ->).
  rewrite (get_recent_messages_rejected e channel_id limit key _ Hr) in Hp.
  injection Hp as <-. fold reply.
  assert (Hj : json_dumps reply = Some reply).
  { unfold json_dumps. unfold reply, history_payload. simpl. now rewrite Hs. }
  unfold direct. rewrite Hj, Hdel. reflexivity.
Qed.

Lemma rejected_query_reads_as_empty_history_witness :
  lambda_handler calm
    (Event "c1" (Decoded (PDict (load_more_frame (PStr "ops") (PInt 0) PNone))))
    archive
  = (Ok (loaded 0),
     World registry0 (messages_table archive)
       [ GetItem "c1"; Query (PStr "ops") (PInt 0) None;
         PostToConnection "c1"
           (history_payload "message_history_batch" no_history (PStr "ops")) ]).
Proof.
  apply (rejected_query_reads_as_empty_history calm "c1"
           (load_more_frame (PStr "ops") (PInt 0) PNone) archive
           (participant "u1" "main") eq_refl eq_refl eq_refl
           (or_introl eq_refl) eq_refl eq_refl).
Defined.

(** X13: the history of a channel is served to connections that are not on
    it.  A registered connection whose record carries another channel than
    [c] and that asks for the messages of [c] is sent the page of [c]: the
    handler checks that the sender is registered, not that it is a member. *)
Theorem history_is_served_to_non_members e cid i c other limit s w :
  connections_table w !! cid = Some i ->
  dict_get "channelId" i = Some (AS other) ->
  other <> c ->
  (forall k, fault e k = false) ->
  (forall data, deliver e cid data = Delivered) ->
  (1 <= limit)%Z ->
  Forall presentable (remaining c s (messages_table w)) ->
  let p := page_of c (Z.to_nat limit) s (messages_table w) in
  exists r w',
    lambda_handler e
      (Event cid (Decoded (PDict (load_more_frame (PStr c) (PInt limit)
                                    (start_of c s))))) w
    = (Ok r, w')
    /\ statusCode r = 200%Z
    /\ list.last (calls w w')
       = Some (PostToConnection cid
                 (history_payload "message_history_batch" p (PStr c)))
    /\ cid ∉ (members (AS c) w).*1.
Proof.
  intros Hi Hch Hne F Hdel Hl Hp p.
  destruct (load_more_round e cid i c limit s w Hi F Hdel Hl Hp) as (r & Hrun & Hr).
  eexists r, _. split; [exact Hrun|]. split; [exact Hr|]. split.
  - erewrite calls_app by reflexivity. reflexivity.
  - rewrite elem_of_members_fst. intros (j & Hj & Hcj).
    rewrite Hi in Hj. injection Hj as <-. congruence.
Qed.

Lemma history_is_served_to_non_members_witness :
  exists r w',
    lambda_handler calm
      (Event "c1" (Decoded (PDict (load_more_frame (PStr "ops") (PInt 2) PNone))))
      archive
    = (Ok r, w')
    /\ statusCode r = 200%Z
    /\ list.last (calls archive w')
       = Some (PostToConnection "c1"
                 (history_payload "message_history_batch"
                    (page_of "ops" 2 None (messages_table archive)) (PStr "ops"))).
Proof.
  destruct (history_is_served_to_non_members calm "c1" (participant "u1" "main")
              "ops" "main" 2 None archive eq_refl eq_refl ltac:(discriminate)
              (fun _ => eq_refl) (fun _ => eq_refl) ltac:(lia)
              ltac:(repeat constructor))
    as (r & w' & Hrun & Hr & Hl & _).
  now exists r, w'.
Defined.

(** ** Values without numbers survive the table *)

Lemma number_free_round_trip v :
  number_free v = true ->
  exists a, to_dynamo v = Some a /\ from_dynamo a = v.
Proof.
  induction v as [|b|n|x|x|s|l IH|d IH] using pyval_nested_ind; simpl;
    try discriminate; try (intros _; eexists; split; reflexivity).
  - intros Hn.
    assert (H : exists r,
               (fix go (l : list pyval) : option (list attr) :=
                  match l with
                  | [] => Some []
                  | x :: r =>
                      match to_dynamo x, go r with
                      | Some a, Some r' => Some (a :: r')
                      | _, _ => None
                      end
                  end) l = Some r /\ map from_dynamo r = l).
    { induction IH as [|x l Hx _ IHl]; [now exists []|].
      simpl in Hn. apply andb_true_iff in Hn as [Hnx Hnl].
      destruct (Hx Hnx) as (a & -> & Ea). destruct (IHl Hnl) as (r & -> & Er).
      exists (a :: r). split; [reflexivity|]. simpl. congruence. }
    destruct H as (r & -> & Er). exists (AL r). split; [reflexivity|].
    simpl. congruence.
  - intros Hn.
    assert (H : exists r,
               (fix go (d : pydict) : option item :=
                  match d with
                  | [] => Some []
                  | (k, x) :: r =>
                      match to_dynamo x, go r with
                      | Some a, Some r' => Some ((k, a) :: r')
                      | _, _ => None
                      end
                  end) d = Some r
               /\ map (fun kv => (kv.1, from_dynamo kv.2)) r = d).
    { induction IH as [|[k x] d Hx _ IHd]; [now exists []|].
      simpl in Hn, Hx. apply andb_true_iff in Hn as [Hnx Hnd].
      destruct (Hx Hnx) as (a & -> & Ea). destruct (IHd Hnd) as (r & -> & Er).
      exists ((k, a) :: r). split; [reflexivity|]. simpl. congruence. }
    destruct H as (r & -> & Er). exists (AM r). split; [reflexivity|].
    simpl. congruence.
Qed.

Lemma number_free_serializable v :
  number_free v = true -> json_serializable v = true.
Proof.
  induction v as [|b|n|x|x|s|l IH|d IH] using pyval_nested_ind; simpl;
    try discriminate; trivial.
  - induction IH as [|x l Hx _ IHl]; simpl; trivial.
    rewrite !andb_true_iff. intros [H1 H2]. auto.
  - induction IH as [|[k x] d Hx _ IHd]; simpl; trivial.
    rewrite !andb_true_iff. intros [H1 H2]. auto.
Qed.

Lemma numbers_free_round_trip (d : pydict) :
  numbers_free d ->
  exists m, to_dynamo_item d = Some m /\ from_dynamo_item m = d
            /\ map fst m = map fst d.
Proof.
  induction 1 as [|[k x] d Hx _ (m & Hm & Em & Km)]; [now exists []|].
  simpl in Hx. destruct (number_free_round_trip x Hx) as (a & Ha & Ea).
  exists ((k, a) :: m). simpl. rewrite Ha, Hm.
  split; [reflexivity|]. unfold from_dynamo_item in *. simpl.
  split; congruence.
Qed.

Lemma numbers_free_clean (d : pydict) : numbers_free d -> clean d = d.
Proof.
  unfold clean. induction 1 as [|[k x] d Hx _ IH]; simpl; [reflexivity|].
  rewrite IH. simpl in Hx. now destruct x.
Qed.

Lemma numbers_free_serializable (d : pydict) :
  numbers_free d -> json_serializable (PDict d) = true.
Proof.
  simpl. induction 1 as [|[k x] d Hx _ IH]; simpl; [reflexivity|].
  simpl in Hx. now rewrite (number_free_serializable x Hx).
Qed.

(** ** Connecting *)

Lemma connect_put e cid uid email role ch w :
  let record := Connect.connection_record e cid uid email role ch in
  numbers_free record ->
  fault e (PutItem record) = false ->
  exists i,
    connection_item cid i = record
    /\ try_except (Connect.table_put_item e record ;;; ret (Connect.connected cid))
         (fun _ => ret Connect.failed_to_connect) w
       = (Ok (Connect.connected cid),
          World (<[cid := i]> (connections_table w)) (messages_table w)
            (trace w ++ [PutItem record])).
Proof.
  intros record Hn F.
  destruct (numbers_free_round_trip record Hn) as (m & Hm & Em & Km).
  destruct m as [|[k0 a0] m]; [discriminate Km|].
  injection Km as -> Km.
  unfold from_dynamo_item in Em. simpl in Em. injection Em as Ea Em.
  destruct a0 as [s| | | | |]; try discriminate Ea. injection Ea as ->.
  assert (Hw : Connect.without_key (("connectionId", AS cid) :: m) = m).
  { unfold Connect.without_key. simpl.
    do 8 (destruct m as [|[? ?] m]; [try discriminate Km|]);
      try discriminate Km.
    injection Km as -> -> -> -> -> -> ->. reflexivity. }
  exists m. split.
  - unfold connection_item, from_dynamo_item. now rewrite Em.
  - unfold try_except, Connect.table_put_item, bind, called, of_option.
    rewrite Hm. cbn -[Connect.without_key]. rewrite F, Hw. reflexivity.
Qed.

(** X14: connecting registers the connection, and the router reads back
    what was written.  For a context and a query string that are mappings
    (or absent) and hold no number, and a put the registry accepts: the
    answer is the 200 response, the only call is the put, and the sender
    lookup of the router, when the registry accepts it, then returns
    exactly the record that was put, with
    the context's [userId], [email] and [role] (["anonymous"], ["unknown"]
    and ["user"] when absent) and the query string's [channel] (["main"]
    when absent).  A record already held for the identifier is replaced as
    a whole; no other record and no message is touched. *)
Theorem connect_registers_the_connection e e' cid (a q : option pyval)
    (ad qd : pydict) w :
  default (PDict []) a = PDict ad ->
  py_or (default (PDict []) q) (PDict []) = PDict qd ->
  let record :=
    Connect.connection_record e cid
      (get_default ad "userId" (PStr "anonymous"))
      (get_default ad "email" (PStr "unknown"))
      (get_default ad "role" (PStr "user"))
      (get_default qd "channel" (PStr "main")) in
  numbers_free record ->
  fault e (PutItem record) = false ->
  fault e' (GetItem cid) = false ->
  exists w',
    Connect.lambda_handler e (Connect.Event cid a q) w
    = (Ok (Connect.connected cid), w')
    /\ get_connection_info e' cid w' = (Ok (Some record), log (GetItem cid) w')
    /\ calls w w' = [PutItem record]
    /\ (forall k, k <> cid -> connections_table w' !! k = connections_table w !! k)
    /\ messages_table w' = messages_table w.
Proof.
  intros Ha Hq record Hn F F'.
  destruct (connect_put e cid _ _ _ _ w Hn F) as (i & Hi & Hrun).
  fold record in Hi, Hrun.
  assert (E : Connect.lambda_handler e (Connect.Event cid a q) w
              = try_except
                  (Connect.table_put_item e record ;;; ret (Connect.connected cid))
                  (fun _ => ret Connect.failed_to_connect) w).
  { unfold Connect.lambda_handler. simpl Connect.connectionId.
    simpl Connect.authorizer. simpl Connect.queryStringParameters.
    rewrite Ha, Hq. reflexivity. }
  rewrite E, Hrun. eexists. split; [reflexivity|]. split; [|split; [|split]].
  - rewrite get_connection_info_total. unfold resolved. rewrite F'. simpl.
    rewrite lookup_insert_eq. simpl. now rewrite Hi.
  - now apply calls_app.
  - intros k Hk. simpl. now rewrite lookup_insert_ne.
  - reflexivity.
Qed.

Lemma connect_registers_the_connection_witness :
  exists w',
    Connect.lambda_handler calm analyst world0 = (Ok (Connect.connected "c7"), w')
    /\ get_connection_info calm "c7" w'
       = (Ok (Some analyst_record), log (GetItem "c7") w').
Proof.
  destruct (connect_registers_the_connection calm calm "c7"
              (Connect.authorizer analyst) (Connect.queryStringParameters analyst)
              _ _ world0 eq_refl eq_refl ltac:(repeat constructor) eq_refl eq_refl)
    as (w' & Hrun & Hget & _).
  exists w'. split; [exact Hrun | exact Hget].
Defined.

(** X15: a connect that fails registers nothing.  When the record cannot be
    serialized (a context value is a float) or the registry refuses the
    put, the answer is the 500 response and both tables are as they were.
    An [authorizer] entry that is present but is not a mapping is not
    caught at all: the handler raises before any call. *)
Theorem failed_connect_registers_nothing e cid (a q : option pyval) w :
  (forall v, a = Some v -> (forall d, v <> PDict d) ->
     Connect.lambda_handler e (Connect.Event cid a q) w = (Raise AttributeError, w))
  /\ (forall ad qd : pydict,
        default (PDict []) a = PDict ad ->
        py_or (default (PDict []) q) (PDict []) = PDict qd ->
        let record :=
          Connect.connection_record e cid
            (get_default ad "userId" (PStr "anonymous"))
            (get_default ad "email" (PStr "unknown"))
            (get_default ad "role" (PStr "user"))
            (get_default qd "channel" (PStr "main")) in
        to_dynamo_item record = None \/ fault e (PutItem record) = true ->
        Connect.lambda_handler e (Connect.Event cid a q) w
        = (Ok Connect.failed_to_connect, log (PutItem record) w)).
Proof.
  split.
  - intros v -> Hv. unfold Connect.lambda_handler. simpl.
    destruct v; try reflexivity. now destruct (Hv d).
  - intros ad qd Ha Hq record Hr.
    unfold Connect.lambda_handler. simpl Connect.connectionId.
    simpl Connect.authorizer. simpl Connect.queryStringParameters.
    rewrite Ha, Hq. unfold Connect.as_mapping. step. unfold ret at 1.
    cbv beta iota. step. unfold ret at 1. cbv beta iota. fold record.
    unfold try_except, Connect.table_put_item, bind, called, of_option.
    destruct (to_dynamo_item record) as [i|] eqn:Hi.
    + destruct Hr as [Hr|Hr]; [discriminate|].
      cbn -[Connect.without_key].
      destruct (dict_get "connectionId" i) as [[]|]; try reflexivity.
      cbn -[Connect.without_key]. now rewrite Hr.
    + reflexivity.
Qed.

Lemma failed_connect_registers_nothing_witness :
  Connect.lambda_handler calm (Connect.Event "c7" (Some PNone) None) world0
  = (Raise AttributeError, world0)
  /\ Connect.lambda_handler calm
       (Connect.Event "c7" (Some (PDict [("userId", PFloat (Qc_of_Z 7))])) None) world0
     = (Ok Connect.failed_to_connect,
        log (PutItem (Connect.connection_record calm "c7" (PFloat (Qc_of_Z 7))
                        (PStr "unknown") (PStr "user") (PStr "main"))) world0).
Proof.
  split.
  - apply (proj1 (failed_connect_registers_nothing calm "c7" (Some PNone) None
                    world0) PNone eq_refl).
    discriminate.
  - apply (proj2 (failed_connect_registers_nothing calm "c7"
                    (Some (PDict [("userId", PFloat (Qc_of_Z 7))])) None world0)
             [("userId", PFloat (Qc_of_Z 7))] [] eq_refl eq_refl).
    now left.
Defined.

(** X16: the router attributes a message to the identity given at connect
    time.  After an accepted connect whose context and query string hold no
    number and whose channel is a string, take a message frame without
    [channelId] from that connection, itself without numbers, in an
    invocation in which every call is accepted.  The frame is acknowledged;
    the record stored is the message as built, for the channel of the query
    string (["main"] when absent), with [senderId], [senderEmail] and
    [senderRole] equal to the context's [userId], [email] and [role] (or
    their defaults) and the frame's [content]; and the payload is posted to
    exactly the connections on that channel, the sender among them. *)
Theorem connected_sender_is_attributed e1 e2 cid (a q : option pyval)
    (ad qd d : pydict) w c :
  default (PDict []) a = PDict ad ->
  py_or (default (PDict []) q) (PDict []) = PDict qd ->
  let uid := get_default ad "userId" (PStr "anonymous") in
  let email := get_default ad "email" (PStr "unknown") in
  let role := get_default ad "role" (PStr "user") in
  get_default qd "channel" (PStr "main") = PStr c ->
  let record := Connect.connection_record e1 cid uid email role (PStr c) in
  numbers_free record ->
  fault e1 (PutItem record) = false ->
  get_default d "action" (PStr "message") = PStr "message" ->
  dict_get "channelId" d = None ->
  (forall k, fault e2 k = false) ->
  let message := new_message e2 record d in
  numbers_free message ->
  let w1 := (Connect.lambda_handler e1 (Connect.Event cid a q) w).2 in
  exists w2 m,
    lambda_handler e2 (Event cid (Decoded (PDict d))) w1 = (Ok (message_sent e2), w2)
    /\ messages_table w2 = store_put c (utcnow e2 0) m (messages_table w1)
    /\ from_dynamo_item m = message
    /\ (forall k p,
          PostToConnection k p ∈ calls w1 w2
          <-> p = broadcast_payload message /\ k ∈ (members (AS c) w1).*1)
    /\ cid ∈ (members (AS c) w1).*1
    /\ dict_get "channelId" message = Some (PStr c)
    /\ dict_get "senderId" message = Some uid
    /\ dict_get "senderEmail" message = Some email
    /\ dict_get "senderRole" message = Some role
    /\ dict_get "content" message = Some (get_default d "content" (PStr "")).
Proof.
  intros Ha Hq uid email role Hch record Hn F1 Hact Hnone F2 message Hnm w1.
  destruct (connect_put e1 cid uid email role (PStr c) w Hn F1) as (i & Hi & Hrun).
  fold record in Hi, Hrun.
  assert (E : Connect.lambda_handler e1 (Connect.Event cid a q) w
              = try_except
                  (Connect.table_put_item e1
                     (Connect.connection_record e1 cid uid email role
                        (get_default qd "channel" (PStr "main"))) ;;;
                   ret (Connect.connected cid))
                  (fun _ => ret Connect.failed_to_connect) w).
  { unfold Connect.lambda_handler. simpl Connect.connectionId.
    simpl Connect.authorizer. simpl Connect.queryStringParameters.
    rewrite Ha, Hq. reflexivity. }
  rewrite Hch in E. fold record in E.
  assert (Hw1 : connections_table w1 !! cid = Some i).
  { unfold w1. rewrite E, Hrun. simpl. apply lookup_insert_eq. }
  assert (Hmsg : new_message e2 (connection_item cid i) d = message)
    by (unfold message; now rewrite Hi).
  assert (Hc : get message "channelId" = PStr c).
  { unfold message, new_message, get, get_default at 1. simpl dict_get.
    now rewrite (get_default_absent _ _ _ Hnone). }
  destruct (numbers_free_round_trip message Hnm) as (m & Hm & Em & _).
  assert (Hser : json_dumps (broadcast_payload message)
                 = Some (broadcast_payload message)).
  { unfold json_dumps, broadcast_payload. simpl json_serializable.
    pose proof (numbers_free_serializable message Hnm) as Hj. simpl in Hj.
    now rewrite Hj. }
  destruct (message_effects e2 cid d w1 i m c (broadcast_payload message)
              Hact Hw1 F2) as (w2 & Hrun2 & Hstore & Hcalls & _).
  { now rewrite Hmsg. }
  { now rewrite Hmsg. }
  { now rewrite Hmsg. }
  rewrite Hmsg in Hcalls.
  exists w2, m. split; [exact Hrun2|]. split; [exact Hstore|].
  split; [exact Em|]. split; [|split].
  - intros k p. rewrite Hcalls, !elem_of_app. split.
    + intros [H|[H|H]].
      * repeat (apply elem_of_cons in H as [H|H]; [discriminate|]). inversion H.
      * apply list_elem_of_In, in_map_iff in H as (k' & Hk' & Hin).
        injection Hk' as <- <-. split; [reflexivity|]. now apply list_elem_of_In.
      * apply list_elem_of_In, in_map_iff in H as (? & ? & _). discriminate.
    + intros [-> Hin]. right. left.
      apply list_elem_of_In, (in_map (fun k => PostToConnection k _)).
      now apply list_elem_of_In.
  - apply elem_of_members_fst. exists i. split; [exact Hw1|].
    assert (Hd : dict_get "channelId" (connection_item cid i) = Some (PStr c))
      by now rewrite Hi.
    rewrite dict_get_connection_item in Hd by discriminate.
    destruct (dict_get "channelId" i) as [x|]; [|discriminate].
    simpl in Hd. injection Hd as Hd. f_equal.
    destruct x; simpl in Hd; try discriminate. congruence.
  - split; [|split; [|split; [|split]]]; try reflexivity.
    unfold message, new_message. simpl dict_get.
    now rewrite (get_default_absent _ _ _ Hnone).
Qed.

Lemma connected_sender_is_attributed_witness :
  exists w2 m,
    lambda_handler calm (Event "c7" (Decoded (PDict (say "on site"))))
      (Connect.lambda_handler calm analyst world0).2
    = (Ok (message_sent calm), w2)
    /\ messages_table w2 = [m]
    /\ dict_get "senderId" m = Some (AS "u7")
    /\ recipients (calls (Connect.lambda_handler calm analyst world0).2 w2)
       = ["c7"; "c2"].
Proof.
  destruct (connected_sender_is_attributed calm calm "c7"
              (Connect.authorizer analyst) (Connect.queryStringParameters analyst)
              _ _ (say "on site") world0 "ops" eq_refl eq_refl eq_refl
              ltac:(repeat constructor) eq_refl eq_refl eq_refl (fun _ => eq_refl)
              ltac:(repeat constructor))
    as (w2 & m & Hrun & Hstore & Em & _).
  exists w2, m. split; [exact Hrun|]. split; [exact Hstore|].
  vm_compute in Hrun. injection Hrun as <-.
  vm_compute in Hstore. injection Hstore as <-.
  split; reflexivity.
Defined.

(** ** Disconnecting *)

Lemma disconnect_total e cid w :
  Disconnect.lambda_handler e (Disconnect.Event cid) w
  = if fault e (DeleteItem cid)
    then (Ok Disconnect.disconnection_processed, log (DeleteItem cid) w)
    else (Ok Disconnect.disconnected,
          set_connections (delete cid (connections_table w))
            (log (DeleteItem cid) w)).
Proof.
  unfold Disconnect.lambda_handler, try_except, table_delete_item, bind, called.
  cbn [Disconnect.connectionId].
  now destruct (fault e (DeleteItem cid)).
Qed.

(** X17: a disconnect is always acknowledged.  Whatever the registry
    answers, the handler makes the one delete, returns a 200 and never
    raises; no message and no other record is touched.  When the delete is
    accepted the record is gone (a disconnect of an identifier that has no
    record changes nothing); when it is refused the record stays although
    the answer is still a 200. *)
Theorem disconnect_is_always_acknowledged e cid w :
  exists r w',
    Disconnect.lambda_handler e (Disconnect.Event cid) w = (Ok r, w')
    /\ statusCode r = 200%Z
    /\ calls w w' = [DeleteItem cid]
    /\ messages_table w' = messages_table w
    /\ (forall k, k <> cid -> connections_table w' !! k = connections_table w !! k)
    /\ connections_table w' !! cid
       = (if fault e (DeleteItem cid) then connections_table w !! cid else None)
    /\ (connections_table w !! cid = None ->
        connections_table w' = connections_table w)
    /\ (r = Disconnect.disconnected <-> fault e (DeleteItem cid) = false).
Proof.
  rewrite disconnect_total.
  destruct (fault e (DeleteItem cid)); eexists _, _;
    (split; [reflexivity|]); (split; [reflexivity|]);
    (split; [now apply calls_app|]); (split; [reflexivity|]).
  - split; [reflexivity|]. split; [reflexivity|]. split; [reflexivity|].
    split; discriminate.
  - change (connections_table
              (set_connections (delete cid (connections_table w))
                 (log (DeleteItem cid) w)))
      with (delete cid (connections_table w)).
    split; [intros k Hk; now rewrite lookup_delete_ne|].
    split; [apply lookup_delete_eq|].
    split; [intros Hn; now apply delete_id|]. split; reflexivity.
Qed.

Lemma calls_refl w : calls w w = [].
Proof. apply calls_app. now rewrite app_nil_r. Qed.

Lemma listed_registered e channel w k :
  k ∈ (listed e channel w).*1 -> is_Some (connections_table w !! k).
Proof.
  unfold listed. destruct (to_dynamo channel) as [a|]; [|inversion 1].
  destruct (fault e _); [inversion 1|].
  rewrite elem_of_members_fst. intros (j & Hj & _). now exists j.
Qed.

Lemma notify_calls_post e message x ids k p :
  PostToConnection k p ∈ flat_map (notify_calls e message x) ids -> k ∈ ids.
Proof.
  rewrite list_elem_of_In, in_flat_map. intros (k' & Hin & Hp).
  apply list_elem_of_In in Hin. unfold notify_calls in Hp.
  destruct (bool_decide (Some k' = x)); [inversion Hp|].
  destruct (json_dumps message) as [data|]; [|inversion Hp].
  destruct Hp as [Hp|Hp]; [now inversion Hp; subst|].
  destruct (deliver e k' data); simpl in Hp; intuition discriminate.
Qed.

Lemma direct_post cid payload k p :
  PostToConnection k p ∈ direct cid payload -> k = cid.
Proof.
  unfold direct. destruct (json_dumps payload); [|inversion 1].
  intros H. apply list_elem_of_singleton in H. now inversion H.
Qed.

(** The router posts to the sender and to connections the registry holds,
    and to nobody else. *)
Lemma posts_are_registered e ev w k p :
  connections_table w !! k = None ->
  k <> connectionId ev ->
  PostToConnection k p ∉ calls w (lambda_handler e ev w).2.
Proof.
  intros Hk Hne Hin.
  assert (Hl : forall channel w0,
             connections_table w0 !! k = None ->
             k ∉ (listed e channel w0).*1).
  { intros channel w0 Hn Hl. apply listed_registered in Hl as [j Hj]. congruence. }
  assert (Hone : forall c, PostToConnection k p ∈ calls w (log c w) ->
                           c = PostToConnection k p).
  { intros c H. rewrite (calls_app w (log c w) [c] eq_refl) in H.
    now apply list_elem_of_singleton in H. }
  assert (Hnotice : forall channel notice,
             PostToConnection k p
             ∉ calls w (broadcast e channel notice (Some (connectionId ev))
                          (log (GetItem (connectionId ev)) w))).
  { intros channel notice H.
    rewrite (calls_app w _
               (GetItem (connectionId ev) :: Scan channel
                  :: flat_map (notify_calls e notice (Some (connectionId ev)))
                       (listed e channel (log (GetItem (connectionId ev)) w)).*1))
      in H by (rewrite broadcast_trace; simpl; now rewrite <- app_assoc).
    repeat (apply elem_of_cons in H as [H|H]; [discriminate|]).
    apply notify_calls_post in H.
    now apply (Hl _ (log (GetItem (connectionId ev)) w)) in H. }
  destruct (lambda_handler_dispatch e ev w) as [E|(d & Hd & H)].
  { rewrite E in Hin. cbn [snd] in Hin. rewrite calls_refl in Hin. inversion Hin. }
  set (cid := connectionId ev) in *.
  destruct H as [[_ E]|[[Ha E]|[[_ E]|[[_ E]|[[_ E]|[[_ E]|[_ E]]]]]]];
    rewrite E in Hin; clear E.
  - cbn [snd] in Hin. rewrite calls_refl in Hin. inversion Hin.
  - rewrite handle_message_total in Hin.
    destruct (resolved e cid w) as [info|]; cbv zeta in Hin;
      unfold caught in Hin; cbn [snd] in Hin.
    + set (message := new_message e info d) in *.
      set (ids := (listed e (get message "channelId") w).*1) in *.
      rewrite (calls_app w _
                 ([GetItem cid; PutItem message; Scan (get message "channelId")]
                    ++ posted (broadcast_payload message) ids
                    ++ map DeleteItem (stale e (broadcast_payload message) ids)))
        in Hin by (rewrite foldl_reap_trace; simpl; now rewrite <- !app_assoc).
      rewrite !elem_of_app in Hin. destruct Hin as [Hin|[Hin|Hin]].
      * repeat (apply elem_of_cons in Hin as [Hin|Hin]; [discriminate|]).
        inversion Hin.
      * apply post_in_posted in Hin as [_ Hin]. now apply Hl in Hin.
      * apply list_elem_of_In, in_map_iff in Hin as (? & ? & _). discriminate.
    + apply Hone in Hin. discriminate.
  - pose proof (handle_join_channel_total e cid d w) as T. cbv zeta in T.
    set (channel_id := get_default d "channelId" (PStr "main")) in *.
    set (w0 := updated e cid (join_sets e channel_id) w) in *.
    assert (Hk0 : connections_table w0 !! k = None)
      by (unfold w0; now rewrite updated_other).
    assert (Ht0 : trace (log (GetItem cid) w0)
                  = (trace w ++ [UpdateItem cid (join_sets e channel_id);
                                 GetItem cid])%list).
    { change (trace (log (GetItem cid) w0)) with (trace w0 ++ [GetItem cid])%list.
      unfold w0. rewrite updated_trace. now rewrite <- app_assoc. }
    destruct (resolved e cid w0) as [info|].
    + destruct T as (pg & _ & T). rewrite T in Hin. clear T.
      unfold caught in Hin. cbn [snd] in Hin.
      set (notice := user_joined info channel_id) in *.
      rewrite (calls_app w _
                 ([UpdateItem cid (join_sets e channel_id); GetItem cid]
                    ++ (Scan channel_id
                          :: flat_map (notify_calls e notice (Some cid))
                               (listed e channel_id (log (GetItem cid) w0)).*1)
                    ++ Query channel_id (PInt 50) None
                         :: direct cid (history_payload "message_history" pg
                                          channel_id)))
        in Hin
        by (cbn [trace]; rewrite broadcast_trace, Ht0; now rewrite <- !app_assoc).
      rewrite !elem_of_app in Hin. destruct Hin as [Hin|[Hin|Hin]].
      * repeat (apply elem_of_cons in Hin as [Hin|Hin]; [discriminate|]).
        inversion Hin.
      * apply elem_of_cons in Hin as [Hin|Hin]; [discriminate|].
        apply notify_calls_post in Hin.
        now apply (Hl _ (log (GetItem cid) w0)) in Hin.
      * apply elem_of_cons in Hin as [Hin|Hin]; [discriminate|].
        now apply direct_post in Hin.
    + rewrite T in Hin. clear T. unfold caught in Hin. cbn [snd] in Hin.
      rewrite (calls_app w _ _ Ht0) in Hin.
      repeat (apply elem_of_cons in Hin as [Hin|Hin]; [discriminate|]).
      inversion Hin.
  - rewrite handle_leave_channel_total in Hin.
    destruct (resolved e cid w) as [info|]; unfold caught in Hin;
      cbn [snd] in Hin.
    + now apply Hnotice in Hin.
    + apply Hone in Hin. discriminate.
  - rewrite handle_typing_indicator_total in Hin.
    destruct (resolved e cid w) as [info|]; unfold caught in Hin;
      cbn [snd] in Hin.
    + now apply Hnotice in Hin.
    + apply Hone in Hin. discriminate.
  - rewrite handle_ping_total in Hin.
    assert (Hc : PostToConnection k p
                 ∈ [UpdateItem cid (ping_sets e); PostToConnection cid (pong e)]).
    { rewrite <- (calls_app w (log (PostToConnection cid (pong e))
                                 (updated e cid (ping_sets e) w))).
      - destruct (deliver e cid (pong e)); exact Hin.
      - change (trace (log ?c ?x)) with (trace x ++ [c])%list.
        rewrite updated_trace. now rewrite <- app_assoc. }
    apply elem_of_cons in Hc as [Hc|Hc]; [discriminate|].
    apply list_elem_of_singleton in Hc. now inversion Hc.
  - pose proof (handle_load_more_messages_total e cid d w) as T. cbv zeta in T.
    destruct (resolved e cid w) as [info|].
    + destruct T as (pg & _ & T). rewrite T in Hin. clear T.
      unfold caught in Hin. cbn [snd] in Hin.
      erewrite calls_app in Hin by (cbn [trace]; reflexivity).
      repeat (apply elem_of_cons in Hin as [Hin|Hin]; [discriminate|]).
      now apply direct_post in Hin.
    + rewrite T in Hin. unfold caught in Hin. cbn [snd] in Hin.
      apply Hone in Hin. discriminate.
Qed.

(** X18: the router never posts to a connection the registry does not
    hold, the sender apart.  Whatever the frame and whatever the services
    answer, every post of an invocation goes to the sender or to a
    connection that had a record when the invocation began. *)
Theorem unregistered_connections_are_not_posted_to e ev w k p :
  PostToConnection k p ∈ calls w (lambda_handler e ev w).2 ->
  k = connectionId ev \/ is_Some (connections_table w !! k).
Proof.
  intros Hin. destruct (decide (k = connectionId ev)) as [|Hne]; [now left|right].
  destruct (connections_table w !! k) as [j|] eqn:Hk; [now exists j|].
  now destruct (posts_are_registered e ev w k p Hk Hne).
Qed.

Lemma unregistered_connections_are_not_posted_to_witness :
  "c1" = connectionId (Event "c2" (Decoded (PDict typing_main)))
  \/ is_Some (connections_table world0 !! "c1").
Proof.
  apply (unregistered_connections_are_not_posted_to calm
           (Event "c2" (Decoded (PDict typing_main))) world0 "c1" typing_notice).
  vm_compute. repeat constructor.
Defined.

(** X19: a disconnected connection is out of every channel.  After a
    disconnect whose delete is accepted, the connection is a member of no
    channel, no frame sent by another connection makes the router post to
    it, and its own message and load-more frames are answered with the
    401 response after the one lookup. *)
Theorem disconnected_connection_is_not_served e cid w :
  fault e (DeleteItem cid) = false ->
  let w1 := (Disconnect.lambda_handler e (Disconnect.Event cid) w).2 in
  (forall a, cid ∉ (members a w1).*1)
  /\ (forall e' ev p, connectionId ev <> cid ->
        PostToConnection cid p ∉ calls w1 (lambda_handler e' ev w1).2)
  /\ (forall e' (d : pydict) action,
        dict_get "action" d = Some (PStr action) ->
        action = "message" \/ action = "load_more_messages" ->
        lambda_handler e' (Event cid (Decoded (PDict d))) w1
        = (Ok not_found, log (GetItem cid) w1)).
Proof.
  intros F w1.
  assert (Hn : connections_table w1 !! cid = None).
  { unfold w1. rewrite disconnect_total, F. simpl. apply lookup_delete_eq. }
  assert (R : forall e', resolved e' cid w1 = None).
  { intros e'. unfold resolved. rewrite Hn. now destruct (fault e' _). }
  split; [|split].
  - intros a Hin. apply elem_of_members_fst in Hin as (j & Hj & _). congruence.
  - intros e' ev p Hne. apply posts_are_registered; [exact Hn|congruence].
  - intros e' d action Ha Hact.
    rewrite (lambda_handler_action _ _ _ _ _ Ha), try_except_caught.
    destruct Hact as [-> | ->]; simpl.
    + now rewrite handle_message_total, R.
    + pose proof (handle_load_more_messages_total e' cid d w1) as T. cbv zeta in T.
      rewrite R in T. now rewrite T.
Qed.

Lemma disconnected_connection_is_not_served_witness :
  let w1 := (Disconnect.lambda_handler calm (Disconnect.Event "c1") world0).2 in
  ("c1" ∉ (members (AS "main") w1).*1)
  /\ lambda_handler calm (Event "c1" (Decoded (PDict hello))) w1
     = (Ok not_found, log (GetItem "c1") w1).
Proof.
  destruct (disconnected_connection_is_not_served calm "c1" world0 eq_refl)
    as (Hm & _ & Hr).
  split; [apply Hm|].
  apply (Hr calm hello "message"); [reflexivity | now left].
Defined.

(** ** From a sent message to the history *)

Lemma remaining_store_put_newest c t m tbl :
  message_key m = Some (c, t) ->
  (forall x t', x ∈ tbl -> message_key x = Some (c, t') -> older t' t) ->
  remaining c None (store_put c t m tbl) = m :: remaining c None tbl.
Proof.
  intros Km. unfold remaining.
  assert (Rm : in_range c None m = true).
  { unfold in_range. rewrite Km. now rewrite bool_decide_eq_true_2. }
  induction tbl as [|x r IH]; intros Hold; simpl.
  - now rewrite Rm.
  - assert (Hr : forall y t', y ∈ r -> message_key y = Some (c, t') -> older t' t).
    { intros y t' Hy. apply Hold. now right. }
    destruct (message_key x) as [[c' t']|] eqn:Kx.
    + destruct (decide (c = c')) as [<-|Hne].
      * assert (Ho : older t' t) by (apply (Hold x); [left|exact Kx]).
        apply older_compare in Ho.
        rewrite String.compare_antisym, Ho. simpl. now rewrite Rm.
      * simpl. unfold in_range at 1. rewrite Kx.
        rewrite bool_decide_eq_false_2 by exact Hne. simpl.
        rewrite (IH Hr). unfold in_range at 2. rewrite Kx.
        now rewrite bool_decide_eq_false_2 by exact Hne.
    + simpl. unfold in_range at 1. rewrite Kx. rewrite (IH Hr).
      unfold in_range at 2. now rewrite Kx.
Qed.

(** X20: a message that was sent is the newest entry of its channel's
    history, unchanged.  Take a message frame from a resolved sender whose
    record and frame hold no number, in an invocation in which every call is
    accepted, with a timestamp newer than every stored message of the
    channel; the store is ordered newest first and every message already
    stored for the channel serializes once cleaned (none holds a nested
    number).  A registered, reachable reader that then asks for the messages
    of that channel, with every call accepted, any limit of at least one
    and no cursor, is sent a batch whose last message is exactly the
    message that was broadcast; the store is still ordered newest first. *)
Theorem sent_message_heads_the_history e1 e2 cid reader i j (d : pydict) w c limit :
  get_default d "action" (PStr "message") = PStr "message" ->
  connections_table w !! cid = Some i ->
  (forall k, fault e1 k = false) ->
  let message := new_message e1 (connection_item cid i) d in
  get message "channelId" = PStr c ->
  numbers_free message ->
  newest_first (messages_table w) ->
  (forall x t, x ∈ messages_table w -> message_key x = Some (c, t) ->
               older t (utcnow e1 0)) ->
  Forall presentable (remaining c None (messages_table w)) ->
  let w1 := (lambda_handler e1 (Event cid (Decoded (PDict d))) w).2 in
  connections_table w1 !! reader = Some j ->
  (forall k, fault e2 k = false) ->
  (forall data, deliver e2 reader data = Delivered) ->
  (1 <= limit)%Z ->
  exists r w2 p,
    lambda_handler e2
      (Event reader
         (Decoded (PDict (load_more_frame (PStr c) (PInt limit) PNone)))) w1
    = (Ok r, w2)
    /\ statusCode r = 200%Z
    /\ list.last (calls w1 w2)
       = Some (PostToConnection reader
                 (history_payload "message_history_batch" p (PStr c)))
    /\ list.last (messages p) = Some message
    /\ newest_first (messages_table w1).
Proof.
  intros Hact Hi F1 message Hc Hn Hs Hold Hp w1 Hj F2 Hdel Hl.
  destruct (numbers_free_round_trip message Hn) as (m & Hm & Em & _).
  assert (Hser : json_dumps (broadcast_payload message)
                 = Some (broadcast_payload message)).
  { unfold json_dumps, broadcast_payload. simpl json_serializable.
    pose proof (numbers_free_serializable message Hn) as Hj'. simpl in Hj'.
    now rewrite Hj'. }
  destruct (message_effects e1 cid d w i m c _ Hact Hi F1 Hc Hm Hser)
    as (w' & Hrun & Hstore & _).
  assert (E1 : w1 = w') by (unfold w1; now rewrite Hrun).
  assert (Km : message_key m = Some (c, utcnow e1 0)).
  { unfold message_key.
    rewrite (to_dynamo_item_get _ _ "channelId" Hm),
            (to_dynamo_item_get _ _ "timestamp" Hm).
    change (dict_get "timestamp" message) with (Some (PStr (utcnow e1 0))).
    assert (Hch : dict_get "channelId" message = Some (PStr c)).
    { unfold get, get_default in Hc.
      change (dict_get "channelId" message)
        with (Some (get_default d "channelId"
                      (get_default (connection_item cid i) "channelId"
                         (PStr "main")))) in *.
      simpl in Hc. now rewrite Hc. }
    now rewrite Hch. }
  assert (Hrem : remaining c None (messages_table w1)
                 = m :: remaining c None (messages_table w)).
  { rewrite E1, Hstore. now apply remaining_store_put_newest. }
  assert (Hrend : rendered m = message).
  { unfold rendered. rewrite Em. now apply numbers_free_clean. }
  assert (Hp1 : Forall presentable (remaining c None (messages_table w1))).
  { rewrite Hrem. constructor; [|exact Hp].
    unfold presentable. rewrite Hrend. now apply numbers_free_serializable. }
  destruct (load_more_round e2 reader j c limit None w1 Hj F2 Hdel Hl Hp1)
    as (r & Hrun2 & Hr).
  change (start_of c None) with PNone in Hrun2.
  eexists r, _, _. split; [exact Hrun2|]. split; [exact Hr|]. split; [|split].
  - erewrite calls_app by (cbn [trace]; reflexivity). reflexivity.
  - unfold page_of. cbn [messages]. rewrite Hrem.
    destruct (Z.to_nat limit) as [|n] eqn:En; [lia|].
    rewrite firstn_cons. simpl map. simpl rev.
    fold (rendered m). rewrite Hrend. apply last_snoc.
  - rewrite E1, Hstore. now apply store_put_newest_first.
Qed.

Lemma sent_message_heads_the_history_witness :
  exists r w2 p,
    lambda_handler calm
      (Event "c1" (Decoded (PDict (load_more_frame (PStr "ops") (PInt 2) PNone))))
      (lambda_handler calm (Event "c2" (Decoded (PDict hello))) archive).2
    = (Ok r, w2)
    /\ statusCode r = 200%Z
    /\ list.last (messages p)
       = Some (new_message calm (connection_item "c2" (participant "u2" "ops"))
                 hello)
    /\ length (messages_table archive) = 4.
Proof.
  destruct (sent_message_heads_the_history calm calm "c2" "c1"
              (participant "u2" "ops") (participant "u1" "main") hello archive
              "ops" 2 eq_refl eq_refl (fun _ => eq_refl) eq_refl
              ltac:(repeat constructor) archive_newest_first
              ltac:(intros x t Hx Hk;
                    repeat (apply elem_of_cons in Hx as [->|Hx];
                            [vm_compute in Hk; inversion Hk; reflexivity|]);
                    inversion Hx)
              archive_presentable
              eq_refl (fun _ => eq_refl) (fun _ => eq_refl) ltac:(lia))
    as (r & w2 & p & Hrun & Hr & _ & Hlast & _).
  exists r, w2, p. now repeat split.
Defined.

(** ** Partial progress *)

Lemma listed_accepted e c w :
  fault e (Scan (PStr c)) = false ->
  listed e (PStr c) w = members (AS c) w.
Proof. intros F. unfold listed. simpl. now rewrite F. Qed.

Lemma listed_refused e channel w :
  fault e (Scan channel) = true -> listed e channel w = [].
Proof.
  intros F. unfold listed. rewrite F. now destruct (to_dynamo channel).
Qed.

(** X21: a message the store does not take is broadcast all the same.  When
    the record cannot be serialized for the store (the frame holds a float)
    or the store refuses the put, the failure is swallowed: the messages
    table is as it was, yet the payload is posted to every connection on
    the channel and the sender is answered ["Message sent"]. *)
Theorem unstored_message_is_still_broadcast e cid (d : pydict) w i c data :
  get_default d "action" (PStr "message") = PStr "message" ->
  connections_table w !! cid = Some i ->
  fault e (GetItem cid) = false ->
  let message := new_message e (connection_item cid i) d in
  get message "channelId" = PStr c ->
  to_dynamo_item message = None \/ fault e (PutItem message) = true ->
  fault e (Scan (PStr c)) = false ->
  json_dumps (broadcast_payload message) = Some data ->
  exists w',
    lambda_handler e (Event cid (Decoded (PDict d))) w = (Ok (message_sent e), w')
    /\ messages_table w' = messages_table w
    /\ PutItem message ∈ calls w w'
    /\ (forall k, PostToConnection k data ∈ calls w w'
                  <-> k ∈ (members (AS c) w).*1).
Proof.
  intros Hact Hi Fg message Hc Hput Fs Hd.
  rewrite (lambda_handler_message _ _ _ _ Hact), try_except_caught.
  rewrite (handle_message_resolved e cid d w i Hi Fg). fold message.
  cbv zeta. rewrite Hc, (listed_accepted e c w Fs). unfold caught.
  set (ids := (members (AS c) w).*1).
  set (payload := broadcast_payload message) in *.
  eexists. split; [reflexivity|].
  assert (Ht : calls w
                 (foldl (reap e)
                    (World (connections_table w)
                       (stored e message (messages_table w))
                       (trace w ++ [GetItem cid; PutItem message; Scan (PStr c)]
                          ++ posted payload ids))
                    (stale e payload ids))
               = ([GetItem cid; PutItem message; Scan (PStr c)]
                    ++ posted payload ids
                    ++ map DeleteItem (stale e payload ids))%list).
  { apply calls_app. rewrite foldl_reap_trace. simpl. now rewrite <- !app_assoc. }
  split; [|split].
  - rewrite foldl_reap_messages. simpl. unfold stored.
    destruct Hput as [-> | Hf]; [reflexivity|].
    destruct (to_dynamo_item message) as [m|]; [|reflexivity].
    destruct (message_key m) as [[c0 t0]|]; [|reflexivity]. now rewrite Hf.
  - rewrite Ht. right. left.
  - intros k. rewrite Ht, !elem_of_app, post_in_posted. split.
    + intros [H|[[_ H]|H]]; [|exact H|].
      * repeat (apply elem_of_cons in H as [H|H]; [discriminate|]). inversion H.
      * apply list_elem_of_In, in_map_iff in H as (? & ? & _). discriminate.
    + intros H. right. left. now split.
Qed.

Lemma unstored_message_is_still_broadcast_witness :
  exists w',
    lambda_handler calm (Event "c1" (Decoded (PDict located))) world0
    = (Ok (message_sent calm), w')
    /\ messages_table w' = []
    /\ recipients (calls world0 w') = ["c3"; "c1"].
Proof.
  destruct (unstored_message_is_still_broadcast calm "c1" located world0
              (participant "u1" "main") "main"
              (broadcast_payload
                 (new_message calm (connection_item "c1" (participant "u1" "main"))
                    located))
              eq_refl eq_refl eq_refl eq_refl (or_introl eq_refl) eq_refl eq_refl)
    as (w' & Hrun & Hm & _).
  exists w'. split; [exact Hrun|]. split; [exact Hm|].
  vm_compute in Hrun. now inversion Hrun.
Defined.

(** X22: a refused scan drops the broadcast without a trace.  When the
    store takes the message but the registry refuses the scan of the
    channel, the message is stored, nobody is posted to, and the sender is
    still answered ["Message sent"]: the three calls of the invocation are
    the lookup, the put and the scan. *)
Theorem refused_scan_drops_the_broadcast e cid (d : pydict) w i m c t :
  get_default d "action" (PStr "message") = PStr "message" ->
  connections_table w !! cid = Some i ->
  fault e (GetItem cid) = false ->
  let message := new_message e (connection_item cid i) d in
  to_dynamo_item message = Some m ->
  message_key m = Some (c, t) ->
  fault e (PutItem message) = false ->
  fault e (Scan (get message "channelId")) = true ->
  lambda_handler e (Event cid (Decoded (PDict d))) w
  = (Ok (message_sent e),
     World (connections_table w) (store_put c t m (messages_table w))
       (trace w ++ [GetItem cid; PutItem message; Scan (get message "channelId")])).
Proof.
  intros Hact Hi Fg message Hm Hk Fp Fs.
  rewrite (lambda_handler_message _ _ _ _ Hact), try_except_caught.
  rewrite (handle_message_resolved e cid d w i Hi Fg). fold message.
  cbv zeta. rewrite (listed_refused e _ w Fs). unfold caught.
  assert (Hp : posted (broadcast_payload message) [] = []).
  { unfold posted. now destruct (json_dumps _). }
  assert (Hst : stale e (broadcast_payload message) [] = []).
  { unfold stale. now destruct (json_dumps _). }
  change (([] : list (string * item)).*1) with (@nil string).
  rewrite Hp, Hst. simpl. unfold stored. rewrite Hm, Hk, Fp.
  reflexivity.
Qed.

Lemma refused_scan_drops_the_broadcast_witness :
  lambda_handler blind (Event "c1" (Decoded (PDict hello))) world0
  = (Ok (message_sent blind),
     World registry0 [hello_record]
       [GetItem "c1"; PutItem hello_message; Scan (PStr "main")]).
Proof.
  apply (refused_scan_drops_the_broadcast blind "c1" hello world0
           (participant "u1" "main") hello_record "main"
           "2024-05-01T10:00:00.000001"
           eq_refl eq_refl eq_refl eq_refl eq_refl eq_refl eq_refl).
Defined.

(** X23: a join whose update is refused still reports success.  When the
    registry refuses the update (or the channel cannot be serialized), the
    sender has a record and the sender lookup is accepted, the record is
    left exactly as it was, so the
    sender stays on its old channel; the channel of the frame is scanned
    for the [user_joined] notice all the same and the answer is the 200
    ["Joined channel"] response. *)
Theorem refused_join_reports_success e cid (d : pydict) w i :
  dict_get "action" d = Some (PStr "join") ->
  connections_table w !! cid = Some i ->
  let channel_id := get_default d "channelId" (PStr "main") in
  to_dynamo_item (join_sets e channel_id) = None
  \/ fault e (UpdateItem cid (join_sets e channel_id)) = true ->
  fault e (GetItem cid) = false ->
  exists w',
    lambda_handler e (Event cid (Decoded (PDict d))) w = (Ok (joined channel_id), w')
    /\ connections_table w' !! cid = Some i
    /\ (forall a, cid ∈ (members a w').*1 <-> cid ∈ (members a w).*1)
    /\ Scan channel_id ∈ calls w w'
    /\ messages_table w' = messages_table w.
Proof.
  intros H Hi channel_id Hu Fg.
  rewrite (lambda_handler_action _ _ _ _ _ H). simpl.
  rewrite try_except_caught.
  pose proof (handle_join_channel_total e cid d w) as T. cbv zeta in T.
  fold channel_id in T.
  assert (E0 : updated e cid (join_sets e channel_id) w
               = log (UpdateItem cid (join_sets e channel_id)) w).
  { unfold updated. destruct Hu as [-> | Hf]; [reflexivity|].
    rewrite Hf. now destruct (to_dynamo_item _). }
  rewrite E0 in T.
  assert (R : resolved e cid (log (UpdateItem cid (join_sets e channel_id)) w)
              = Some (connection_item cid i)).
  { unfold resolved. rewrite Fg. simpl. now rewrite Hi. }
  rewrite R in T. destruct T as (p & _ & ->). unfold caught.
  set (notice := user_joined (connection_item cid i) channel_id).
  set (w1 := log (GetItem cid) (log (UpdateItem cid (join_sets e channel_id)) w)).
  assert (Hrec : connections_table (broadcast e channel_id notice (Some cid) w1) !! cid
                 = Some i).
  { rewrite broadcast_connections, reaped_excluded, andb_false_r. exact Hi. }
  eexists. split; [reflexivity|]. split; [exact Hrec|]. split; [|split].
  - intros a. rewrite !elem_of_members_fst.
    change (connections_table (World ?t _ _)) with t. now rewrite Hrec, Hi.
  - erewrite calls_app
      by (cbn [trace]; rewrite broadcast_trace; unfold w1; simpl;
          rewrite <- !app_assoc; simpl; reflexivity).
    do 2 right. left.
  - cbn [messages_table]. now rewrite broadcast_messages.
Qed.

Lemma refused_join_reports_success_witness :
  exists w',
    lambda_handler refusing (Event "c1" (Decoded (PDict join_ops))) world0
    = (Ok (joined (PStr "ops")), w')
    /\ connections_table w' !! "c1" = Some (participant "u1" "main").
Proof.
  destruct (refused_join_reports_success refusing "c1" join_ops world0
              (participant "u1" "main") eq_refl eq_refl (or_intror eq_refl) eq_refl)
    as (w' & Hrun & Hrec & _).
  now exists w'.
Defined.

(** ** The two names of the cursor *)

Lemma get_recent_messages_start e channel limit k1 k2 :
  (if truthy k1 then Some k1 else None) = (if truthy k2 then Some k2 else None) ->
  get_recent_messages e channel limit k1 = get_recent_messages e channel limit k2.
Proof. intros H. unfold get_recent_messages. cbv zeta. now rewrite H. Qed.

Lemma load_more_by_start e cid (d1 d2 : pydict) w :
  get_default d1 "channelId" (PStr "main") = get_default d2 "channelId" (PStr "main") ->
  get_default d1 "limit" (PInt 50) = get_default d2 "limit" (PInt 50) ->
  (let k1 := py_or (get d1 "cursor") (get d1 "lastEvaluatedKey") in
   let k2 := py_or (get d2 "cursor") (get d2 "lastEvaluatedKey") in
   (if truthy k1 then Some k1 else None) = (if truthy k2 then Some k2 else None)) ->
  handle_load_more_messages e cid d1 w = handle_load_more_messages e cid d2 w.
Proof.
  intros Hc Hl Hk. unfold handle_load_more_messages. cbv zeta in *.
  rewrite Hc, Hl.
  now rewrite (get_recent_messages_start e _ _ _ _ Hk).
Qed.

(** X24: the cursor may be sent under either name.  A [load_more_messages]
    frame that carries the key as [lastEvaluatedKey] is handled exactly as
    the frame that carries it as [cursor]; and when a frame carries both and
    [cursor] is not empty, [lastEvaluatedKey] is ignored. *)
Theorem cursor_names_are_interchangeable e cid channel limit key w :
  lambda_handler e
    (Event cid (Decoded (PDict (load_more_by_key channel limit key)))) w
  = lambda_handler e
      (Event cid (Decoded (PDict (load_more_frame channel limit key)))) w
  /\ forall other,
       truthy key = true ->
       lambda_handler e
         (Event cid (Decoded (PDict (load_more_both channel limit key other)))) w
       = lambda_handler e
           (Event cid (Decoded (PDict (load_more_frame channel limit key)))) w.
Proof.
  split; [|intros other Hk];
    rewrite !lambda_handler_load_more by reflexivity;
    rewrite !try_except_caught; f_equal; apply load_more_by_start;
    try reflexivity.
  - change (py_or (get (load_more_by_key channel limit key) "cursor")
              (get (load_more_by_key channel limit key) "lastEvaluatedKey"))
      with (py_or PNone key).
    change (py_or (get (load_more_frame channel limit key) "cursor")
              (get (load_more_frame channel limit key) "lastEvaluatedKey"))
      with (py_or key PNone).
    cbv zeta. unfold py_or. simpl (truthy PNone). cbv iota.
    destruct (truthy key) eqn:Hk; cbv iota; [now rewrite Hk | reflexivity].
  - change (py_or (get (load_more_both channel limit key other) "cursor")
              (get (load_more_both channel limit key other) "lastEvaluatedKey"))
      with (py_or key other).
    change (py_or (get (load_more_frame channel limit key) "cursor")
              (get (load_more_frame channel limit key) "lastEvaluatedKey"))
      with (py_or key PNone).
    cbv zeta. unfold py_or. now rewrite Hk.
Qed.

Lemma cursor_names_are_interchangeable_witness :
  lambda_handler calm
    (Event "c2" (Decoded (PDict (load_more_both (PStr "ops") (PInt 1)
                                   (cursor "ops" "2024-05-01T09:03:00")
                                   (cursor "ops" "2024-05-01T09:01:00")))))
    archive
  = lambda_handler calm
      (Event "c2" (Decoded (PDict (load_more_frame (PStr "ops") (PInt 1)
                                     (cursor "ops" "2024-05-01T09:03:00")))))
      archive.
Proof.
  apply (proj2 (cursor_names_are_interchangeable calm "c2" (PStr "ops") (PInt 1)
                  (cursor "ops" "2024-05-01T09:03:00") archive)).
  reflexivity.
Defined.
